(** * IDG task modules: checkpoint, domain configuration, domain discovery

    A shallow embedding of the three Ansible modules
    [idg_domain_chkpoint], [idg_domain_config] and [idg_domain_discovery],
    and the properties of their result handling.

    Python values decoded from the device's JSON bodies are modelled by
    [pyval]; Python exceptions by the error monad [res]; calls on the
    device by a logging monad [M] over an arbitrary, history dependent
    device.  The helper library the modules import ([idg_common],
    [idg_rest_mgmt]) is a parameter of the development, which therefore
    covers the runs in which that import succeeded ([HAS_IDG_DEPS]) and
    the parameters passed the checks of [AnsibleModule]. *)

From Stdlib Require Import String Ascii ZArith List Bool Lia.
From stdpp Require Import base option list gmap strings fin_maps.

(** ** Python values *)

(** What [json.loads] produces, and what the modules build from it.
    Numbers are integers; floating point bodies are outside the model.
    A dict is kept in insertion order, its keys are arbitrary values. *)
#[warnings="-register-all"]
Inductive pyval : Type :=
| PNone
| PBool (b : bool)
| PInt (n : Z)
| PStr (s : string)
| PList (l : list pyval)
| PDict (kvs : list (pyval * pyval)).

(** The exceptions the modelled code can raise. *)
Inductive pyexc : Type :=
| KeyError (k : string)
| TypeError
| IndexError
| AttributeError.

(** A computation that returns or raises. *)
Inductive res (A : Type) : Type :=
| Ret (a : A)
| Raise (e : pyexc).
Arguments Ret {A} a.
Arguments Raise {A} e.

#[global] Instance res_ret : MRet res := fun A a => Ret a.
#[global] Instance res_bind : MBind res := fun A B f m =>
  match m with
  | Ret a => f a
  | Raise e => Raise e
  end.

(** [try: m except Exception: h] for computations without device calls. *)
Definition try_except {A} (m : res A) (h : pyexc → res A) : res A :=
  match m with
  | Ret a => Ret a
  | Raise e => h e
  end.

Fixpoint res_mapM {A B} (f : A → res B) (l : list A) : res (list B) :=
  match l with
  | [] => Ret []
  | x :: l' =>
      match f x with
      | Ret y =>
          match res_mapM f l' with
          | Ret ys => Ret (y :: ys)
          | Raise e => Raise e
          end
      | Raise e => Raise e
      end
  end.

(** Values that can be dict keys. *)
Definition hashable (v : pyval) : bool :=
  match v with
  | PList _ | PDict _ => false
  | _ => true
  end.

(** Python's [==] between hashable values: [True == 1] and [False == 0]. *)
Definition key_eqb (a b : pyval) : bool :=
  match a, b with
  | PNone, PNone => true
  | PBool x, PBool y => Bool.eqb x y
  | PInt x, PInt y => Z.eqb x y
  | PBool x, PInt y => Z.eqb (Z.b2z x) y
  | PInt x, PBool y => Z.eqb x (Z.b2z y)
  | PStr x, PStr y => String.eqb x y
  | _, _ => false
  end.

(** [v == s] and [v != s] for a string literal [s]. *)
Definition eq_str (v : pyval) (s : string) : bool :=
  match v with
  | PStr x => String.eqb x s
  | _ => false
  end.

Definition is_dict (v : pyval) : bool :=
  match v with PDict _ => true | _ => false end.

Definition is_list (v : pyval) : bool :=
  match v with PList _ => true | _ => false end.

(** First binding of a key in a dict. *)
Fixpoint dict_get {V} (k : pyval) (d : list (pyval * V)) : option V :=
  match d with
  | [] => None
  | (k', v) :: d' => if key_eqb k' k then Some v else dict_get k d'
  end.

Definition dict_mem {V} (k : pyval) (d : list (pyval * V)) : bool :=
  match dict_get k d with Some _ => true | None => false end.

(** [d[k] = v]: replaces the value of an existing key, else appends. *)
Fixpoint dict_set {V} (k : pyval) (v : V) (d : list (pyval * V)) : list (pyval * V) :=
  match d with
  | [] => [(k, v)]
  | (k', v') :: d' =>
      if key_eqb k' k then (k', v) :: d' else (k', v') :: dict_set k v d'
  end.

(** [v[k]] for a string literal [k]. *)
Definition py_getitem (v : pyval) (k : string) : res pyval :=
  match v with
  | PDict kvs =>
      match dict_get (PStr k) kvs with
      | Some x => Ret x
      | None => Raise (KeyError k)
      end
  | _ => Raise TypeError
  end.

(** [for x in v]: the members of a list, the characters of a string, the
    keys of a dict. *)
Definition chars (s : string) : list pyval :=
  (λ c, PStr (String c EmptyString)) <$> list_ascii_of_string s.

Definition py_iter (v : pyval) : res (list pyval) :=
  match v with
  | PList l => Ret l
  | PStr s => Ret (chars s)
  | PDict kvs => Ret (fst <$> kvs)
  | _ => Raise TypeError
  end.

(** [needle in hay] for strings. *)
Fixpoint str_contains (needle hay : string) : bool :=
  match hay with
  | EmptyString => String.prefix needle EmptyString
  | String _ h => String.prefix needle hay || str_contains needle h
  end.

(** [s in v] for a string [s]: substring of a string, member of a list,
    key of a dict. *)
Definition py_in (s : string) (v : pyval) : res bool :=
  match v with
  | PStr h => Ret (str_contains s h)
  | PList l => Ret (existsb (λ x, eq_str x s) l)
  | PDict kvs => Ret (dict_mem (PStr s) kvs)
  | _ => Raise TypeError
  end.

(** Text made of ASCII characters only: every byte is below 128. *)
Definition ascii_only (s : string) : bool :=
  forallb (λ c, (nat_of_ascii c <? 128)%nat) (list_ascii_of_string s).

(** [str.capitalize] on ASCII text: the first character in upper case,
    the others in lower case.  Strings are sequences of bytes (text in
    UTF-8), and only the letters [a]-[z] and [A]-[Z] change; for text
    with other letters Python consults the Unicode case tables, which
    are not modelled, so whatever is stated about the value of
    [capitalize] is stated for [ascii_only] text. *)
Definition upper (c : ascii) : ascii :=
  let n := nat_of_ascii c in
  if (97 <=? n)%nat && (n <=? 122)%nat then ascii_of_nat (n - 32) else c.

Definition lower (c : ascii) : ascii :=
  let n := nat_of_ascii c in
  if (65 <=? n)%nat && (n <=? 90)%nat then ascii_of_nat (n + 32) else c.

Fixpoint str_map (f : ascii → ascii) (s : string) : string :=
  match s with
  | EmptyString => EmptyString
  | String c s' => String (f c) (str_map f s')
  end.

Definition capitalize (s : string) : string :=
  match s with
  | EmptyString => EmptyString
  | String c s' => String (upper c) (str_map lower s')
  end.

(** [v.capitalize()]. *)
Definition py_capitalize (v : pyval) : res pyval :=
  match v with
  | PStr s => Ret (PStr (capitalize s))
  | _ => Raise AttributeError
  end.

(** [a + v] for a string [a]. *)
Definition py_str_add (a : string) (v : pyval) : res string :=
  match v with
  | PStr s => Ret (a +:+ s)
  | _ => Raise TypeError
  end.

(** ** [get_status_summary] *)

Definition status_summary := list (pyval * nat).

(** One turn of the loop body. *)
Definition summary_step (s : status_summary) (i : pyval) : res status_summary :=
  st ← py_getitem i "status";
  if negb (hashable st) then Raise TypeError
  else if negb (dict_mem st s) then Ret (dict_set st 1 s)
  else Ret (dict_set st (S (default 0 (dict_get st s))) s).

Fixpoint summary_loop (l : list pyval) (s : status_summary) : res status_summary :=
  match l with
  | [] => Ret s
  | i :: l' =>
      match summary_step s i with
      | Ret s' => summary_loop l' s'
      | Raise e => Raise e
      end
  end.

Definition get_status_summary (list_dict : list pyval) : res status_summary :=
  summary_loop list_dict [].

Definition summary_to_py (s : status_summary) : pyval :=
  PDict ((λ kn, (kn.1, PInt (Z.of_nat kn.2))) <$> s).

Definition sum_values (s : status_summary) : nat :=
  foldr (λ kn acc, kn.2 + acc) 0 s.

(** An entry carries a status label: it is a dict whose ["status"] is a
    value that can be a dict key. *)
Definition has_status (i : pyval) : Prop :=
  ∃ st, py_getitem i "status" = Ret st ∧ hashable st = true.

(** Number of entries of [l] whose status equals [k]. *)
Definition status_is (k : pyval) (i : pyval) : bool :=
  match py_getitem i "status" with
  | Ret st => key_eqb st k
  | Raise _ => false
  end.

Definition count_status (k : pyval) (l : list pyval) : nat :=
  length (filter (λ i, status_is k i = true) l).

(** ** The helper library and the device *)

(** What the modules import from [idg_common] and [idg_rest_mgmt], which
    are not part of the sources, together with the Python built-ins whose
    exact output does not matter here. *)
Class idg_lib : Type := {
  (* idg_common: the shared [result] record and [IDGUtils] *)
  result : gmap string pyval;
  IMMUTABLE_MESSAGE : string;
  UNCONTROLLED_EXCEPTION : string;
  str_on_off : bool → string;
  (* idg_rest_mgmt: [IDGApi] and [ErrorHandler] *)
  URI_DOMAIN_LIST : string;
  URI_DOMAIN_STATUS : string;
  URI_ACTION : string;
  URI_FILESTORE : string;
  GENERAL_ERROR : string;
  ERROR_GET_DOMAIN_LIST : string;
  ERROR_RETRIEVING_RESULT : string;
  ERROR_ACCEPTING_ACTION : string;
  ERROR_REACH_STATE : string;
  ERROR_NOT_DOMAIN : string;
  status_text : pyval → res pyval;
  ErrorHandler_str : pyval → string;
  (* built-ins: [str.format], [to_native], [json.dumps], [str] of an int *)
  format : string → list string → string;
  to_native : pyexc → string;
  json_dumps : pyval → string;
  str_of_int : Z → string
}.

(** A request on the device, as the modules issue them. *)
Inductive call : Type :=
| ApiCall (uri : pyval) (method : string) (data : option string)
| WaitForActionEnd (uri : string) (href : pyval) (state : string).

(** How an invocation ends: [module.fail_json] or [module.exit_json]. *)
Inductive halt : Type :=
| FailJson (msg : string)
| ExitJson (r : gmap string pyval).

(** One step: a value, an exception, or the end of the process. *)
Inductive step (A : Type) : Type :=
| Val (a : A)
| Exc (e : pyexc)
| Halt (h : halt).
Arguments Val {A} a.
Arguments Exc {A} e.
Arguments Halt {A} h.

(** The device and runtime an invocation runs against.  Answers may
    depend on the requests made so far. *)
Class device : Type := {
  api_call : list call → pyval → string → option string → step (Z * string * pyval);
  wait_for_action_end : list call → string → pyval → string → step pyval;
  check_mode : bool
}.

(** Computations that log their requests. *)
Definition M (A : Type) : Type := list call → step A * list call.

#[global] Instance M_ret : MRet M := λ A a tr, (Val a, tr).
#[global] Instance M_bind : MBind M := λ A B f m tr,
  match m tr with
  | (Val a, tr') => f a tr'
  | (Exc e, tr') => (Exc e, tr')
  | (Halt h, tr') => (Halt h, tr')
  end.

Definition lift {A} (r : res A) : M A := λ tr,
  match r with
  | Ret a => (Val a, tr)
  | Raise e => (Exc e, tr)
  end.

Definition fail_json {A} (msg : string) : M A := λ tr, (Halt (FailJson msg), tr).

Section Runtime.
Context `{!idg_lib} `{!device}.

Definition do_api_call (uri : pyval) (method : string) (data : option string)
  : M (Z * string * pyval) := λ tr,
  (api_call tr uri method data, tr ++ [ApiCall uri method data]).

Definition do_wait_for_action_end (uri : string) (href : pyval) (state : string)
  : M pyval := λ tr,
  (wait_for_action_end tr uri href state, tr ++ [WaitForActionEnd uri href state]).

(** Modelled from the spec: [IDGUtils.implement_check_mode(module,
    result)] of [idg_common] is not part of the sources.  The
    specification lists check-mode short-circuiting among the external
    collaborators and the callers say that in check mode no change is
    wanted: in check mode the invocation ends there with the shared
    record, otherwise nothing happens. *)
Definition implement_check_mode : M unit := λ tr,
  if check_mode then (Halt (ExitJson result), tr) else (Val (), tr).

(** [data['_links']['location']['href']]. *)
Definition location_href (data : pyval) : res pyval :=
  links ← py_getitem data "_links";
  location ← py_getitem links "location";
  py_getitem location "href".

(** The list of configured domains, from the body of the domain list. *)
Definition configured_domains (chk_data : pyval) : res (list pyval) :=
  domain ← py_getitem chk_data "domain";
  if is_dict domain then
    name ← py_getitem domain "name";
    Ret [name]
  else
    ds ← py_iter domain;
    res_mapM (λ d, py_getitem d "name") ds.

(** [domain_name in configured_domains]. *)
Definition domain_in (domain_name : string) (l : list pyval) : bool :=
  existsb (λ x, eq_str x domain_name) l.

(** The closing loop [for k, v in tmp_result.items(): if v != None:
    result[k] = v]. *)
Definition update_result (tmp_result r : gmap string pyval) : gmap string pyval :=
  map_fold (λ k v acc, match v with PNone => acc | _ => <[k:=v]> acc end) r tmp_result.

(** The [try] around the body of [main] and its handlers. *)
Definition run_main (body : M (gmap string pyval)) : halt * list call :=
  match body [] with
  | (Val tmp_result, tr) => (ExitJson (update_result tmp_result result), tr)
  | (Exc e, tr) =>
      (FailJson (format (UNCONTROLLED_EXCEPTION +:+ ". {0}") [to_native e]), tr)
  | (Halt h, tr) => (h, tr)
  end.

(** The first request of the checkpoint and configuration modules. *)
Definition domain_list_call : call := ApiCall (PStr URI_DOMAIN_LIST) "GET" None.

(** [code == c and msg == m]. *)
Definition is_http (code : Z) (msg : string) (c : Z) (m : string) : bool :=
  (code =? c)%Z && String.eqb msg m.
End Runtime.

(** ** Module [idg_domain_chkpoint] *)

Module Chkpoint.

Inductive state_t : Type := present | absent | restored.

Definition state_str (st : state_t) : string :=
  match st with
  | present => "present"
  | absent => "absent"
  | restored => "restored"
  end.

(** [module.params]. *)
Record params : Type := {
    state : state_t;
    domain : string;
    name : string
  }.

Definition MODULE_FULLNAME : string := "idg_domain_chkpoint" +:+ "-" +:+ "1.0".

Definition already_exists (chkpoint_name : string) : string :=
  "Configuration Checkpoint '" +:+ chkpoint_name +:+ "' already exists.".

Definition cannot_find (chkpoint_name : string) : string :=
  "Cannot find Configuration Checkpoint '" +:+ chkpoint_name +:+ "'.".

Section Main.
Context `{!idg_lib} `{!device}.
Variable p : params.

Let domain_name := domain p.
Let chkpoint_name := name p.
Let state_name := state_str (state p).

Definition save_act_msg : pyval :=
  PDict [(PStr "SaveCheckpoint", PDict [(PStr "ChkName", PStr chkpoint_name)])].

Definition rollback_act_msg : pyval :=
  PDict [(PStr "RollbackCheckpoint", PDict [(PStr "ChkName", PStr chkpoint_name)])].

Definition remove_act_msg : pyval :=
  PDict [(PStr "RemoveCheckpoint", PDict [(PStr "ChkName", PStr chkpoint_name)])].

Definition tmp_result : gmap string pyval :=
  <["failed":=PNone]> (<["changed":=PNone]> (<["msg":=PNone]>
    (<["domain":=PStr domain_name]> (<["name":=PStr chkpoint_name]> ∅)))).

Definition general_error (error : pyval) : string :=
  format GENERAL_ERROR [MODULE_FULLNAME; state_name; domain_name]
    +:+ ErrorHandler_str error.

Definition action_uri : string := format URI_ACTION [domain_name].

(** What follows the fetch of the result of [SaveCheckpoint]. *)
Definition present_outcome (dcr_data : pyval) : res (gmap string pyval) :=
  status ← py_getitem dcr_data "status";
  if eq_str status "error" then
    let tmp1 := <["changed":=PBool false]> tmp_result in
    error ← py_getitem dcr_data "error";
    found ← py_in (already_exists chkpoint_name) error;
    if (found : bool) then
      Ret (<["msg":=PStr IMMUTABLE_MESSAGE]> tmp1)
    else
      Ret (<["failed":=PBool true]> (<["msg":=PStr (general_error error)]> tmp1))
  else
    msg ← py_capitalize status;
    Ret (<["changed":=PBool true]> (<["msg":=msg]> tmp_result)).

(** [state == 'present']. *)
Definition do_present : M (gmap string pyval) :=
  implement_check_mode;;
  '(create_code, create_msg, create_data) ←
    do_api_call (PStr action_uri) "POST" (Some (json_dumps save_act_msg));
  if is_http create_code create_msg 202 "Accepted" then
    href ← lift (location_href create_data);
    action_result ← do_wait_for_action_end action_uri href state_name;
    '(dcr_code, dcr_msg, dcr_data) ← do_api_call href "GET" None;
    if is_http dcr_code dcr_msg 200 "OK" then
      lift (present_outcome dcr_data)
    else
      fail_json (format ERROR_RETRIEVING_RESULT [state_name; domain_name])
  else if is_http create_code create_msg 200 "OK" then
    msg ← lift (py_getitem create_data "SaveCheckpoint" ≫= status_text);
    mret (<["changed":=PBool true]> (<["msg":=msg]> tmp_result))
  else
    fail_json (format ERROR_ACCEPTING_ACTION [state_name; domain_name]).

(** What follows the fetch of the result of [RemoveCheckpoint]. *)
Definition absent_outcome (drm_data : pyval) : res (gmap string pyval) :=
  status ← py_getitem drm_data "status";
  if eq_str status "error" then
    error ← py_getitem drm_data "error";
    Ret (<["failed":=PBool true]> (<["changed":=PBool false]>
           (<["msg":=PStr (general_error error)]> tmp_result)))
  else
    msg ← py_capitalize status;
    Ret (<["changed":=PBool true]> (<["msg":=msg]> tmp_result)).

(** [state == 'absent']. *)
Definition do_absent : M (gmap string pyval) :=
  implement_check_mode;;
  '(rm_code, rm_msg, rm_data) ←
    do_api_call (PStr action_uri) "POST" (Some (json_dumps remove_act_msg));
  if is_http rm_code rm_msg 202 "Accepted" then
    href ← lift (location_href rm_data);
    action_result ← do_wait_for_action_end action_uri href state_name;
    '(drm_code, drm_msg, drm_data) ← do_api_call href "GET" None;
    if is_http drm_code drm_msg 200 "OK" then
      lift (absent_outcome drm_data)
    else
      fail_json (format ERROR_RETRIEVING_RESULT [state_name; domain_name])
  else if is_http rm_code rm_msg 200 "OK" then
    msg ← lift (py_getitem rm_data "RemoveCheckpoint" ≫= status_text);
    mret (<["changed":=PBool true]> (<["msg":=msg]> tmp_result))
  else if is_http rm_code rm_msg 400 "Bad Request" then
    error ← lift (py_getitem rm_data "error");
    found ← lift (py_in (cannot_find chkpoint_name) error);
    if (found : bool) then
      mret (<["msg":=PStr IMMUTABLE_MESSAGE]> tmp_result)
    else
      mret (<["failed":=PBool true]>
              (<["msg":=PStr (general_error error)]> tmp_result))
  else
    fail_json (format ERROR_ACCEPTING_ACTION [state_name; domain_name]).

(** What follows the fetch of the result of [RollbackCheckpoint]. *)
Definition restored_outcome (dbak_data : pyval) : res (gmap string pyval) :=
  status ← py_getitem dbak_data "status";
  if eq_str status "error" then
    error ← py_getitem dbak_data "error";
    Ret (<["failed":=PBool true]> (<["changed":=PBool false]>
           (<["msg":=PStr (general_error error)]> tmp_result)))
  else
    msg ← py_capitalize status;
    Ret (<["changed":=PBool true]> (<["msg":=msg]> tmp_result)).

(** [state == 'restored']. *)
Definition do_restored : M (gmap string pyval) :=
  implement_check_mode;;
  '(bak_code, bak_msg, bak_data) ←
    do_api_call (PStr action_uri) "POST" (Some (json_dumps rollback_act_msg));
  if is_http bak_code bak_msg 202 "Accepted" then
    href ← lift (location_href bak_data);
    action_result ← do_wait_for_action_end action_uri href state_name;
    '(dbak_code, dbak_msg, dbak_data) ← do_api_call href "GET" None;
    if is_http dbak_code dbak_msg 200 "OK" then
      lift (restored_outcome dbak_data)
    else
      fail_json (format ERROR_RETRIEVING_RESULT [state_name; domain_name])
  else if is_http bak_code bak_msg 200 "OK" then
    msg ← lift (py_getitem bak_data "RollbackCheckpoint" ≫= status_text);
    mret (<["changed":=PBool true]> (<["msg":=msg]> tmp_result))
  else
    fail_json (format ERROR_ACCEPTING_ACTION [state_name; domain_name]).

(** The body of the [try] in [main], up to the closing loop. *)
Definition body : M (gmap string pyval) :=
  '(chk_code, chk_msg, chk_data) ← do_api_call (PStr URI_DOMAIN_LIST) "GET" None;
  if is_http chk_code chk_msg 200 "OK" then
    domains ← lift (configured_domains chk_data);
    if domain_in domain_name domains then
      match state p with
      | present => do_present
      | absent => do_absent
      | restored => do_restored
      end
    else
      fail_json (format (ERROR_REACH_STATE +:+ " " +:+ ERROR_NOT_DOMAIN)
                   [state_name; domain_name])
  else
    fail_json ERROR_GET_DOMAIN_LIST.

Definition main : halt * list call := run_main body.
End Main.
End Chkpoint.

(** ** Module [idg_domain_config] *)

Module Config.

Inductive state_t : Type := exported | imported | reseted | saved | stored.

Definition state_str (st : state_t) : string :=
  match st with
  | exported => "exported"
  | imported => "imported"
  | reseted => "reseted"
  | saved => "saved"
  | stored => "stored"
  end.

(** [module.params]; a parameter of type [str] without default is
    [None] when not given. *)
Record params : Type := {
    state : state_t;
    name : string;
    user_summary : option string;
    all_files : bool;
    persisted : bool;
    internal_files : bool;
    input_file : option string;
    output_path : option string;
    overwrite_files : bool;
    overwrite_objects : bool;
    dry_run : bool;
    rewrite_local_ip : bool;
    deployment_policy : option string;
    deployment_policy_params : option string;
    import_format : string
  }.

Definition opt_str (o : option string) : pyval :=
  match o with
  | Some s => PStr s
  | None => PNone
  end.

Definition dquote : string := String "034"%char EmptyString.

(** [filename.rsplit('/', 1)[1]]: what follows the last slash. *)
Fixpoint after_last_slash (s : string) : option string :=
  match s with
  | EmptyString => None
  | String c s' =>
      match after_last_slash s' with
      | Some t => Some t
      | None => if Ascii.eqb c "/"%char then Some s' else None
      end
  end.

(** [filename.replace(" ", "%20")]. *)
Fixpoint encode_spaces (s : string) : string :=
  match s with
  | EmptyString => EmptyString
  | String c s' =>
      if Ascii.eqb c " "%char then "%20" +:+ encode_spaces s'
      else String c (encode_spaces s')
  end.

(** One entry of [tmp_result['results']]. *)
Definition entry (label : string) (v : pyval) : pyval := PDict [(PStr label, v)].

Definition summarized (l : list pyval) (s : status_summary) : pyval :=
  PDict [(PStr "summary",
          PDict [(PStr "total", PInt (Z.of_nat (length l)));
                 (PStr "status", summary_to_py s)]);
         (PStr "detail", PList l)].

(** The block under [# EXEC-SCRIPT-RESULTS]. *)
Definition exec_script_results_block (import_results : pyval) (results : list pyval)
  : list pyval :=
  match py_getitem import_results "exec-script-results" with
  | Raise _ => results
  | Ret exec_script_results =>
      match
        try_except
          (cfg_result ← py_getitem exec_script_results "cfg-result";
           match cfg_result with
           | PList l =>
               s ← get_status_summary l;
               Ret (results ++ [entry "exec-script-results" (summarized l s)])
           | _ => Ret (results ++ [entry "exec-script-results" cfg_result])
           end)
          (λ _, Ret (results ++ [entry "exec-script-results" exec_script_results]))
      with
      | Ret r => r
      | Raise _ => results
      end
  end.

(** The two plain blocks: [file-copy-log] and [imported-debug]. *)
Definition file_copy_log_block (import_results : pyval) (results : list pyval)
  : list pyval :=
  match py_getitem import_results "file-copy-log" ≫= (λ v, py_getitem v "file-result") with
  | Ret v => results ++ [entry "file-copy-log" v]
  | Raise _ => results
  end.

Definition imported_debug_block (import_results : pyval) (results : list pyval)
  : list pyval :=
  match py_getitem import_results "imported-debug" with
  | Ret v => results ++ [entry "imported-debug" v]
  | Raise _ => results
  end.

(** The block under [# IMPORTED-FILES]. *)
Definition imported_files_block (import_results : pyval) (results : list pyval)
  : list pyval :=
  match py_getitem import_results "imported-files" with
  | Raise _ => results
  | Ret imported_files =>
      match
        try_except
          (file ← py_getitem imported_files "file";
           match file with
           | PList l =>
               s ← get_status_summary l;
               Ret (results ++ [entry "imported-files" (summarized l s)])
           | _ => Ret (results ++ [entry "imported-files" file])
           end)
          (λ _, Ret (results ++ [entry "imported-files" imported_files]))
      with
      | Ret r => r
      | Raise _ => results
      end
  end.

(** The block under [# IMPORTED-OBJECTS]. *)
Definition imported_objects_block (import_results : pyval) (results : list pyval)
  : list pyval :=
  match py_getitem import_results "imported-objects" with
  | Raise _ => results
  | Ret imported_objects =>
      match
        try_except
          (object ← py_getitem imported_objects "object";
           match object with
           | PList l =>
               s ← get_status_summary l;
               Ret (results ++ [entry "imported-objects" (summarized l s)])
           | _ => Ret (results ++ [entry "imported-objects" object])
           end)
          (λ _, Ret (results ++ [entry "imported-objects" imported_objects]))
      with
      | Ret r => r
      | Raise _ => results
      end
  end.

(** The [results] list of a successful import. *)
Definition import_results_list (import_results : pyval) : res (list pyval) :=
  export_details ← py_getitem import_results "export-details";
  Ret (imported_objects_block import_results
         (imported_files_block import_results
            (imported_debug_block import_results
               (file_copy_log_block import_results
                  (exec_script_results_block import_results
                     [entry "export-details" export_details]))))).

(** [domain_save_needed], from the body of the domain status. *)
Fixpoint save_needed_of (domain_name : string) (ds : list pyval) : res (list pyval) :=
  match ds with
  | [] => Ret []
  | d :: ds' =>
      dom ← py_getitem d "Domain";
      if eq_str dom domain_name then
        v ← py_getitem d "SaveNeeded";
        vs ← save_needed_of domain_name ds';
        Ret (v :: vs)
      else save_needed_of domain_name ds'
  end.

Definition domain_save_needed (domain_name : string) (qds_data : pyval) : res pyval :=
  domain_status ← py_getitem qds_data "DomainStatus";
  if is_dict domain_status then py_getitem domain_status "SaveNeeded"
  else
    ds ← py_iter domain_status;
    vs ← save_needed_of domain_name ds;
    match vs with
    | v :: _ => Ret v
    | [] => Raise IndexError
    end.

Section Main.
Context `{!idg_lib} `{!device}.
Variable p : params.

Let domain_name := name p.
Let state_name := state_str (state p).

Definition MODULE_FULLNAME : string := "idg_domain_config" +:+ "-" +:+ "1.0".

Definition reset_act_msg : pyval := PDict [(PStr "ResetThisDomain", PDict [])].
Definition save_act_msg : pyval := PDict [(PStr "SaveConfig", PDict [])].

Definition export_action_msg : pyval :=
  PDict [(PStr "Export",
          PDict [(PStr "Format", PStr "ZIP");
                 (PStr "UserComment", opt_str (user_summary p));
                 (PStr "AllFiles", PStr (str_on_off (all_files p)));
                 (PStr "Persisted", PStr (str_on_off (persisted p)));
                 (PStr "IncludeInternalFiles", PStr (str_on_off (internal_files p)))])].

Definition import_common : list (pyval * pyval) :=
  [(PStr "Format", PStr (import_format p));
   (PStr "InputFile", opt_str (input_file p));
   (PStr "OverwriteFiles", PStr (str_on_off (overwrite_files p)));
   (PStr "OverwriteObjects", PStr (str_on_off (overwrite_objects p)));
   (PStr "DryRun", PStr (str_on_off (dry_run p)));
   (PStr "RewriteLocalIP", PStr (str_on_off (rewrite_local_ip p)))].

Definition import_action_msg : pyval :=
  match deployment_policy p with
  | Some _ =>
      PDict [(PStr "Import",
              PDict (import_common ++
                     [(PStr "DeploymentPolicy", opt_str (deployment_policy p));
                      (PStr "DeploymentPolicyParams", opt_str (deployment_policy_params p))]))]
  | None => PDict [(PStr "Import", PDict import_common)]
  end.

Definition tmp_result : gmap string pyval :=
  <["failed":=PNone]> (<["changed":=PNone]> (<["file":=PNone]>
    (<["msg":=PNone]> (<["name":=PStr domain_name]> ∅)))).

Definition action_uri : string := format URI_ACTION [domain_name].

(** What follows the fetch of the result of [Export]. *)
Definition exported_outcome (action_result doex_data : pyval) : res (gmap string pyval) :=
  file ← py_getitem doex_data "result" ≫= (λ r, py_getitem r "file");
  Ret (<["changed":=PBool true]> (<["msg":=action_result]>
         (<["file":=file]> tmp_result))).

(** [state == 'exported']. *)
Definition do_exported : M (gmap string pyval) :=
  implement_check_mode;;
  '(exp_code, exp_msg, exp_data) ←
    do_api_call (PStr action_uri) "POST" (Some (json_dumps export_action_msg));
  if is_http exp_code exp_msg 202 "Accepted" then
    href ← lift (location_href exp_data);
    action_result ← do_wait_for_action_end action_uri href state_name;
    '(doex_code, doex_msg, doex_data) ← do_api_call href "GET" None;
    if is_http doex_code doex_msg 200 "OK" then
      lift (exported_outcome action_result doex_data)
    else
      fail_json (format ERROR_RETRIEVING_RESULT [state_name; domain_name])
  else if is_http exp_code exp_msg 200 "OK" then
    msg ← lift (py_getitem exp_data "Export" ≫= status_text);
    mret (<["changed":=PBool true]> (<["msg":=msg]> tmp_result))
  else
    fail_json (format ERROR_ACCEPTING_ACTION [state_name; domain_name]).

(** What follows the fetch of the result of [ResetThisDomain]. *)
Definition reseted_outcome (dore_data : pyval) : res (gmap string pyval) :=
  msg ← py_getitem dore_data "status" ≫= py_capitalize;
  Ret (<["changed":=PBool true]> (<["msg":=msg]> tmp_result)).

(** [state == 'reseted']. *)
Definition do_reseted : M (gmap string pyval) :=
  implement_check_mode;;
  '(reset_code, reset_msg, reset_data) ←
    do_api_call (PStr action_uri) "POST" (Some (json_dumps reset_act_msg));
  if is_http reset_code reset_msg 202 "Accepted" then
    href ← lift (location_href reset_data);
    action_result ← do_wait_for_action_end action_uri href state_name;
    '(dore_code, dore_msg, dore_data) ← do_api_call href "GET" None;
    if is_http dore_code dore_msg 200 "OK" then
      lift (reseted_outcome dore_data)
    else
      fail_json (format ERROR_RETRIEVING_RESULT [state_name; domain_name])
  else if is_http reset_code reset_msg 200 "OK" then
    msg ← lift (py_getitem reset_data "ResetThisDomain" ≫= status_text);
    mret (<["changed":=PBool true]> (<["msg":=msg]> tmp_result))
  else
    fail_json (format ERROR_ACCEPTING_ACTION [state_name; domain_name]).

(** What follows the fetch of the result of [SaveConfig]: the body is
    not looked at. *)
Definition saved_outcome (action_result dosv_data : pyval) : res (gmap string pyval) :=
  Ret (<["changed":=PBool true]> (<["msg":=action_result]> tmp_result)).

(** [state == 'saved']. *)
Definition do_saved : M (gmap string pyval) :=
  '(qds_code, qds_msg, qds_data) ← do_api_call (PStr URI_DOMAIN_STATUS) "GET" None;
  if is_http qds_code qds_msg 200 "OK" then
    save_needed ← lift (domain_save_needed domain_name qds_data);
    if negb (eq_str save_needed "off") then
      implement_check_mode;;
      '(save_code, save_msg, save_data) ←
        do_api_call (PStr action_uri) "POST" (Some (json_dumps save_act_msg));
      if is_http save_code save_msg 202 "Accepted" then
        href ← lift (location_href save_data);
        action_result ← do_wait_for_action_end action_uri href state_name;
        '(dosv_code, dosv_msg, dosv_data) ← do_api_call href "GET" None;
        if is_http dosv_code dosv_msg 200 "OK" then
          lift (saved_outcome action_result dosv_data)
        else
          fail_json (format ERROR_RETRIEVING_RESULT [state_name; domain_name])
      else if is_http save_code save_msg 200 "OK" then
        msg ← lift (py_getitem save_data "SaveConfig" ≫= status_text);
        mret (<["changed":=PBool true]> (<["msg":=msg]> tmp_result))
      else
        fail_json (format ERROR_RETRIEVING_RESULT [state_name; domain_name])
    else
      mret (<["msg":=PStr IMMUTABLE_MESSAGE]> tmp_result)
  else
    mret tmp_result.

(** [doim_data['result']['Import']['import-results']]. *)
Definition import_results_of (doim_data : pyval) : res pyval :=
  result_body ← py_getitem doim_data "result";
  import_body ← py_getitem result_body "Import";
  py_getitem import_body "import-results".

(** What follows a successful fetch of the import's result. *)
Definition import_outcome (doim_data : pyval) : res (gmap string pyval) :=
  import_results ← import_results_of doim_data;
  detected ← py_getitem import_results "detected-errors";
  if negb (eq_str detected "false") then
    code ← py_getitem detected "error";
    m ← py_str_add ("Import failed with error code: " +:+ dquote) code;
    Ret (<["failed":=PBool true]> (<["changed":=PBool false]>
           (<["msg":=PStr (m +:+ dquote)]> tmp_result)))
  else
    results ← import_results_list import_results;
    msg ← py_getitem doim_data "status" ≫= py_capitalize;
    Ret (<["changed":=PBool true]> (<["msg":=msg]>
           (<["results":=PList results]> tmp_result))).

(** [state == 'imported']. *)
Definition do_imported : M (gmap string pyval) :=
  implement_check_mode;;
  '(imp_code, imp_msg, imp_data) ←
    do_api_call (PStr action_uri) "POST" (Some (json_dumps import_action_msg));
  if is_http imp_code imp_msg 202 "Accepted" then
    href ← lift (location_href imp_data);
    action_result ← do_wait_for_action_end action_uri href state_name;
    '(doim_code, doim_msg, doim_data) ← do_api_call href "GET" None;
    if is_http doim_code doim_msg 200 "OK" then
      lift (import_outcome doim_data)
    else
      fail_json (format ERROR_RETRIEVING_RESULT [state_name; domain_name])
  else if is_http imp_code imp_msg 200 "OK" then
    msg ← lift (py_getitem imp_data "Import" ≫= status_text);
    mret (<["changed":=PBool true]> (<["msg":=msg]> tmp_result))
  else
    fail_json (format ERROR_ACCEPTING_ACTION [state_name; domain_name]
                 +:+ json_dumps import_action_msg).

(** [state == 'stored']. *)
Definition do_stored : M (gmap string pyval) :=
  filename ← lift (match output_path p with
                   | Some f => Ret f
                   | None => Raise AttributeError
                   end);
  base ← lift (match after_last_slash filename with
               | Some b => Ret b
               | None => Raise IndexError
               end);
  let store_action_msg :=
    PDict [(PStr "file",
            PDict [(PStr "name", PStr base);
                   (PStr "content", opt_str (input_file p))])] in
  implement_check_mode;;
  let encoded_filename := encode_spaces filename in
  '(store_code, store_msg, store_data) ←
    do_api_call (PStr (format URI_FILESTORE [domain_name] +:+ encoded_filename))
      "PUT" (Some (json_dumps store_action_msg));
  if String.eqb store_msg "OK" && (store_code =? 200)%Z || (store_code =? 201)%Z then
    msg ← lift (py_getitem store_data "result" ≫= status_text);
    mret (<["changed":=PBool true]> (<["msg":=msg]> tmp_result))
  else
    fail_json (format ERROR_REACH_STATE [state_name; domain_name]
                 +:+ " HTTP response code: " +:+ str_of_int store_code
                 +:+ " Response body: " +:+ json_dumps store_data).

(** The body of the [try] in [main], up to the closing loop. *)
Definition body : M (gmap string pyval) :=
  '(chk_code, chk_msg, chk_data) ← do_api_call (PStr URI_DOMAIN_LIST) "GET" None;
  if is_http chk_code chk_msg 200 "OK" then
    domains ← lift (configured_domains chk_data);
    if domain_in domain_name domains then
      match state p with
      | exported => do_exported
      | reseted => do_reseted
      | saved => do_saved
      | imported => do_imported
      | stored => do_stored
      end
    else
      fail_json (format (ERROR_REACH_STATE +:+ " " +:+ ERROR_NOT_DOMAIN)
                   [state_name; domain_name])
  else
    fail_json ERROR_GET_DOMAIN_LIST.

Definition main : halt * list call := run_main body.
End Main.
End Config.

(** ** Module [idg_domain_discovery] *)

Module Discovery.
Section Main.
Context `{!idg_lib} `{!device}.

Definition tmp_result : gmap string pyval := <["msg":=PNone]> ∅.

(** The body of the [try] in [main], up to the closing loop. *)
Definition body : M (gmap string pyval) :=
  '(chk_code, chk_msg, chk_data) ← do_api_call (PStr URI_DOMAIN_LIST) "GET" None;
  if is_http chk_code chk_msg 200 "OK" then
    domains ← lift (configured_domains chk_data);
    mret (<["msg":=PList domains]> tmp_result)
  else
    mret tmp_result.

Definition main : halt * list call := run_main body.
End Main.
End Discovery.

(** No label occurs twice among the keys of a summary. *)
Fixpoint keys_distinct (s : status_summary) : Prop :=
  match s with
  | [] => True
  | (k, _) :: s' => dict_get k s' = None ∧ keys_distinct s'
  end.

(** A count as a dict shows it: absent when zero. *)
Definition shown (n : nat) : option nat :=
  match n with
  | O => None
  | S _ => Some n
  end.

(** ** Shared shapes of the statements *)

(** The rule of the three collection blocks of an import, stated once: a
    list is reported with a summary, anything else as it is, and the
    enclosing object when the member is missing or cannot be summarised. *)
Definition collection_block (label member : string) (import_results : pyval)
    (results : list pyval) : list pyval :=
  match py_getitem import_results label with
  | Raise _ => results
  | Ret parent =>
      match py_getitem parent member with
      | Ret (PList l) =>
          match get_status_summary l with
          | Ret s => results ++ [Config.entry label (Config.summarized l s)]
          | Raise _ => results ++ [Config.entry label parent]
          end
      | Ret raw => results ++ [Config.entry label raw]
      | Raise _ => results ++ [Config.entry label parent]
      end
  end.

Section Shapes.
Context `{!idg_lib} `{!device}.

(** The domain list was read and names the domain. *)
Definition domain_exists (domain_name : string) : Prop :=
  ∃ chk_data domains,
    api_call [] (PStr URI_DOMAIN_LIST) "GET" None = Val (200%Z, "OK", chk_data)
    ∧ configured_domains chk_data = Ret domains
    ∧ domain_in domain_name domains = true.

Definition domain_status_call : call := ApiCall (PStr URI_DOMAIN_STATUS) "GET" None.

Definition post_call (uri : string) (payload : pyval) : call :=
  ApiCall (PStr uri) "POST" (Some (json_dumps payload)).

(** The action message of each state of the checkpoint module. *)
Definition chk_payload (p : Chkpoint.params) : pyval :=
  match Chkpoint.state p with
  | Chkpoint.present => Chkpoint.save_act_msg p
  | Chkpoint.absent => Chkpoint.remove_act_msg p
  | Chkpoint.restored => Chkpoint.rollback_act_msg p
  end.

(** The action message of each state of the configuration module;
    [stored] uploads a file and posts no action. *)
Definition cfg_payload (p : Config.params) : option pyval :=
  match Config.state p with
  | Config.exported => Some (Config.export_action_msg p)
  | Config.reseted => Some Config.reset_act_msg
  | Config.saved => Some Config.save_act_msg
  | Config.imported => Some (Config.import_action_msg p)
  | Config.stored => None
  end.

(** The requests made before the action is posted: the domain list, and
    for [saved] a domain status that asks for a save. *)
Definition cfg_before_post (p : Config.params) (pre : list call) : Prop :=
  match Config.state p with
  | Config.saved =>
      ∃ qds_data save_needed,
        api_call [domain_list_call] (PStr URI_DOMAIN_STATUS) "GET" None
          = Val (200%Z, "OK", qds_data)
        ∧ Config.domain_save_needed (Config.name p) qds_data = Ret save_needed
        ∧ eq_str save_needed "off" = false
        ∧ pre = [domain_list_call; domain_status_call]
  | _ => pre = [domain_list_call]
  end.

(** The message of an exception that reaches the outer handler. *)
Definition uncontrolled (e : pyexc) : string :=
  format (UNCONTROLLED_EXCEPTION +:+ ". {0}") [to_native e].

(** How [main] ends once the last request has been answered. *)
Definition finish (r : res (gmap string pyval)) (tr : list call) : halt * list call :=
  match r with
  | Ret tmp_result => (ExitJson (update_result tmp_result result), tr)
  | Raise e => (FailJson (uncontrolled e), tr)
  end.

(** The requests of an asynchronous action: the action, the wait for its
    end, the fetch of its result. *)
Definition async_calls (uri : string) (payload : pyval) (state_name : string)
    (href : pyval) : list call :=
  [post_call uri payload; WaitForActionEnd uri href state_name; ApiCall href "GET" None].

(** The action was accepted as asynchronous after the requests [pre],
    was waited for, and the fetch of its result at [href] was answered
    200 OK with body [detail]. *)
Definition detail_fetched (pre : list call) (uri : string) (payload : pyval)
    (state_name : string) (href action_result detail : pyval) : Prop :=
  check_mode = false
  ∧ ∃ data,
      api_call pre (PStr uri) "POST" (Some (json_dumps payload))
        = Val (202%Z, "Accepted", data)
      ∧ location_href data = Ret href
      ∧ wait_for_action_end (pre ++ [post_call uri payload]) uri href state_name
        = Val action_result
      ∧ api_call (pre ++ [post_call uri payload; WaitForActionEnd uri href state_name])
          href "GET" None
        = Val (200%Z, "OK", detail).

Definition chk_detail_fetched (p : Chkpoint.params) (href detail : pyval) : Prop :=
  domain_exists (Chkpoint.domain p)
  ∧ ∃ action_result,
      detail_fetched [domain_list_call] (Chkpoint.action_uri p) (chk_payload p)
        (Chkpoint.state_str (Chkpoint.state p)) href action_result detail.

Definition chk_async_trace (p : Chkpoint.params) (href : pyval) : list call :=
  domain_list_call
    :: async_calls (Chkpoint.action_uri p) (chk_payload p)
         (Chkpoint.state_str (Chkpoint.state p)) href.

Definition chk_outcome (p : Chkpoint.params) (detail : pyval) : res (gmap string pyval) :=
  match Chkpoint.state p with
  | Chkpoint.present => Chkpoint.present_outcome p detail
  | Chkpoint.absent => Chkpoint.absent_outcome p detail
  | Chkpoint.restored => Chkpoint.restored_outcome p detail
  end.

(** The fetched result tells that the requested checkpoint is already
    there: the state is [present] and the error of the result holds the
    device's message for the requested name. *)
Definition already_there (p : Chkpoint.params) (detail : pyval) : Prop :=
  Chkpoint.state p = Chkpoint.present
  ∧ ∃ error,
      py_getitem detail "error" = Ret error
      ∧ py_in (Chkpoint.already_exists (Chkpoint.name p)) error = Ret true.

Definition cfg_detail_fetched (p : Config.params) (pre : list call) (payload : pyval)
    (href action_result detail : pyval) : Prop :=
  domain_exists (Config.name p)
  ∧ cfg_before_post p pre
  ∧ cfg_payload p = Some payload
  ∧ detail_fetched pre (Config.action_uri p) payload
      (Config.state_str (Config.state p)) href action_result detail.

Definition cfg_outcome (p : Config.params) (action_result detail : pyval)
    : res (gmap string pyval) :=
  match Config.state p with
  | Config.exported => Config.exported_outcome p action_result detail
  | Config.reseted => Config.reseted_outcome p detail
  | Config.saved => Config.saved_outcome p action_result detail
  | Config.imported => Config.import_outcome p detail
  | Config.stored => Ret (Config.tmp_result p)
  end.
End Shapes.

(** The seed of the shared record as the result records of the
    specification have it: [changed] false, no [failed]. *)
Definition seed_unchanged `{!idg_lib} : Prop :=
  result !! "changed" = Some (PBool false) ∧ result !! "failed" = None.

(** A string without apostrophe. *)
Fixpoint no_quote (s : string) : bool :=
  match s with
  | EmptyString => true
  | String c s' => negb (Ascii.eqb c "'"%char) && no_quote s'
  end.

(** ** Sample inputs *)

Definition sample_entries : list pyval :=
  [PDict [(PStr "name", PStr "a"); (PStr "status", PStr "ok")];
   PDict [(PStr "status", PStr "error")];
   PDict [(PStr "status", PStr "ok"); (PStr "name", PStr "c")]].

(** A sample instance of the helper library; the texts stand for the
    constants of [idg_common] and [idg_rest_mgmt]. *)
Definition sample_format (template : string) (args : list string) : string :=
  template +:+ " <- " +:+ String.concat "," args.

Definition sample_lib : idg_lib := {|
  result := <["changed":=PBool false]> (<["msg":=PStr "seed"]> ∅);
  IMMUTABLE_MESSAGE := "The current state already matches";
  UNCONTROLLED_EXCEPTION := "Unknown error";
  str_on_off := λ b, if b then "on" else "off";
  URI_DOMAIN_LIST := "/mgmt/domains/config/";
  URI_DOMAIN_STATUS := "/mgmt/status/default/DomainStatus";
  URI_ACTION := "/mgmt/actionqueue/{0}";
  URI_FILESTORE := "/mgmt/filestore/{0}";
  GENERAL_ERROR := "{0}: unable to reach state {1} in domain {2}.";
  ERROR_GET_DOMAIN_LIST := "Unable to retrieve the domain list";
  ERROR_RETRIEVING_RESULT := "Retrieving the result of {0} in {1}";
  ERROR_ACCEPTING_ACTION := "Accepting {0} in {1}";
  ERROR_REACH_STATE := "Unable to reach state {0} in domain {1}.";
  ERROR_NOT_DOMAIN := "The domain does not exist";
  status_text := λ v, Ret v;
  ErrorHandler_str := λ v, match v with PStr s => s | _ => "error" end;
  format := sample_format;
  to_native := λ e, match e with
                    | KeyError k => k
                    | TypeError => "TypeError"
                    | IndexError => "IndexError"
                    | AttributeError => "AttributeError"
                    end;
  json_dumps := λ v, match v with
                     | PDict ((PStr a, _) :: _) => a
                     | _ => "{}"
                     end;
  str_of_int := λ n, if (n =? 200)%Z then "200" else "n"
|}.

(** A device that answers its requests in turn from a script, whatever
    they are, and whose polling ends with a fixed word. *)
Fixpoint api_calls_in (tr : list call) : nat :=
  match tr with
  | [] => 0
  | ApiCall _ _ _ :: tr' => S (api_calls_in tr')
  | WaitForActionEnd _ _ _ :: tr' => api_calls_in tr'
  end.

Definition scripted (answers : list (Z * string * pyval)) (polled : string)
    (cm : bool) : device := {|
  api_call := λ tr _ _ _,
    match answers !! api_calls_in tr with
    | Some a => Val a
    | None => Exc IndexError
    end;
  wait_for_action_end := λ _ _ _ _, Val (PStr polled);
  check_mode := cm
|}.

Definition domains_body : pyval :=
  PDict [(PStr "domain",
          PList [PDict [(PStr "name", PStr "default")];
                 PDict [(PStr "name", PStr "test")]])].

Definition one_domain_body : pyval :=
  PDict [(PStr "domain", PDict [(PStr "name", PStr "default")])].

Definition accepted_body : pyval :=
  PDict [(PStr "_links",
          PDict [(PStr "location", PDict [(PStr "href", PStr "/mgmt/actionqueue/test/pending/1")])])].

Definition chk_params (st : Chkpoint.state_t) (dom nm : string) : Chkpoint.params :=
  {| Chkpoint.state := st; Chkpoint.domain := dom; Chkpoint.name := nm |}.

Definition cfg_params (st : Config.state_t) (dom : string) : Config.params :=
  {| Config.state := st; Config.name := dom; Config.user_summary := None;
     Config.all_files := false; Config.persisted := false;
     Config.internal_files := true; Config.input_file := Some "UEsDBA==";
     Config.output_path := Some "/local/a b.txt"; Config.overwrite_files := false;
     Config.overwrite_objects := false; Config.dry_run := false;
     Config.rewrite_local_ip := false; Config.deployment_policy := None;
     Config.deployment_policy_params := None; Config.import_format := "ZIP" |}.

Definition dev_domains_only : device :=
  scripted [(200%Z, "OK", domains_body)] "Completed" false.

Definition dev_status_down : device :=
  scripted [(200%Z, "OK", domains_body); (503%Z, "Service Unavailable", PNone)]
    "Completed" false.

Definition dev_one_domain : device :=
  scripted [(200%Z, "OK", one_domain_body)] "Completed" false.

Definition dev_list_down : device :=
  scripted [(503%Z, "Service Unavailable", PNone)] "Completed" false.

(** The action is accepted, the wait for its end returns [polled], and
    its fetched result is [detail]. *)
Definition dev_polled (polled : string) (detail : pyval) : device :=
  scripted [(200%Z, "OK", domains_body); (202%Z, "Accepted", accepted_body);
            (200%Z, "OK", detail)] polled false.

Definition dev_async (detail : pyval) : device := dev_polled "Completed" detail.

(** The action is answered at once with [code], [reason] and [body]. *)
Definition dev_answer (code : Z) (reason : string) (body : pyval) : device :=
  scripted [(200%Z, "OK", domains_body); (code, reason, body)] "Completed" false.

Definition sample_href : pyval := PStr "/mgmt/actionqueue/test/pending/1".

Definition error_detail (error : pyval) : pyval :=
  PDict [(PStr "status", PStr "error"); (PStr "error", error)].

(** A checkpoint name that ends like the device's phrase. *)
Definition odd_name : string := "cp1' already exists.".

Definition cannot_find_body : pyval :=
  PDict [(PStr "error",
          PStr ("Bad request: " +:+ Chkpoint.cannot_find "cp1" +:+ " (RemoveCheckpoint)"))].

Definition import_detail (detected : pyval) : pyval :=
  PDict [(PStr "status", PStr "completed");
         (PStr "result",
          PDict [(PStr "Import",
                  PDict [(PStr "import-results",
                          PDict [(PStr "detected-errors", detected);
                                 (PStr "export-details", PDict [])])])])].

Definition one_object : pyval :=
  PDict [(PStr "name", PStr "local:///a.xsl"); (PStr "status", PStr "ok")].

Definition files_results (file : pyval) : pyval :=
  PDict [(PStr "imported-files", PDict [(PStr "file", file)])].

(** ** Shapes of the further statements *)

(** A request that only reads: a [GET]. *)
Definition is_get (c : call) : bool :=
  match c with
  | ApiCall _ method _ => String.eqb method "GET"
  | WaitForActionEnd _ _ _ => false
  end.

(** The requests of a log that submit something: [POST] and [PUT]. *)
Fixpoint submissions (tr : list call) : nat :=
  match tr with
  | [] => 0
  | ApiCall _ method _ :: tr' =>
      (if String.eqb method "GET" then 0 else 1) + submissions tr'
  | WaitForActionEnd _ _ _ :: tr' => submissions tr'
  end.

(** The waits of a log. *)
Fixpoint waits (tr : list call) : nat :=
  match tr with
  | [] => 0
  | ApiCall _ _ _ :: tr' => waits tr'
  | WaitForActionEnd _ _ _ :: tr' => S (waits tr')
  end.

(** What the closing loop leaves under a key to which the body gave the
    value [v], in a record that held [seed] there: [v], unless [v] is
    [None]. *)
Definition reported (v : pyval) (seed : option pyval) : option pyval :=
  match v with
  | PNone => seed
  | _ => Some v
  end.

Section MoreShapes.
Context `{!idg_lib} `{!device}.

(** The action was accepted as asynchronous after the requests [pre] and
    waited for, but the fetch of its result at [href] was answered by
    something else than 200 OK. *)
Definition detail_refused (pre : list call) (uri : string) (payload : pyval)
    (state_name : string) (href : pyval) : Prop :=
  check_mode = false
  ∧ ∃ data action_result code msg body,
      api_call pre (PStr uri) "POST" (Some (json_dumps payload))
        = Val (202%Z, "Accepted", data)
      ∧ location_href data = Ret href
      ∧ wait_for_action_end (pre ++ [post_call uri payload]) uri href state_name
        = Val action_result
      ∧ api_call (pre ++ [post_call uri payload; WaitForActionEnd uri href state_name])
          href "GET" None
        = Val (code, msg, body)
      ∧ is_http code msg 200 "OK" = false.

(** The member of a synchronous answer that holds the action's status. *)
Definition chk_action_name (p : Chkpoint.params) : string :=
  match Chkpoint.state p with
  | Chkpoint.present => "SaveCheckpoint"
  | Chkpoint.absent => "RemoveCheckpoint"
  | Chkpoint.restored => "RollbackCheckpoint"
  end.

Definition cfg_action_name (p : Config.params) : string :=
  match Config.state p with
  | Config.exported => "Export"
  | Config.reseted => "ResetThisDomain"
  | Config.saved => "SaveConfig"
  | Config.imported => "Import"
  | Config.stored => "result"
  end.

(** What an action answered at once (200 OK) with [data] leads to. *)
Definition sync_outcome (tmp : gmap string pyval) (member : string) (data : pyval)
    : res (gmap string pyval) :=
  msg ← py_getitem data member ≫= status_text;
  Ret (<["changed":=PBool true]> (<["msg":=msg]> tmp)).

(** The message with which each state of the configuration module gives
    up an action that was neither accepted nor done. *)
Definition cfg_rejection (p : Config.params) : string :=
  match Config.state p with
  | Config.saved =>
      format ERROR_RETRIEVING_RESULT [Config.state_str (Config.state p); Config.name p]
  | Config.imported =>
      format ERROR_ACCEPTING_ACTION [Config.state_str (Config.state p); Config.name p]
        +:+ json_dumps (Config.import_action_msg p)
  | _ =>
      format ERROR_ACCEPTING_ACTION [Config.state_str (Config.state p); Config.name p]
  end.
End MoreShapes.

Section StoreShapes.
Context `{!idg_lib} `{!device}.

(** The upload of [state == 'stored'] for a file path and its last part. *)
Definition store_call (p : Config.params) (filename base : string) : call :=
  ApiCall (PStr (format URI_FILESTORE [Config.name p] +:+ Config.encode_spaces filename))
    "PUT"
    (Some (json_dumps
             (PDict [(PStr "file",
                      PDict [(PStr "name", PStr base);
                             (PStr "content", Config.opt_str (Config.input_file p))])]))).

(** An entry of the domain status that is about another domain. *)
Definition other_domain (domain_name : string) (d : pyval) : Prop :=
  ∃ dom, py_getitem d "Domain" = Ret dom ∧ eq_str dom domain_name = false.
End StoreShapes.

(** A string without the character [c]. *)
Fixpoint lacks (c : ascii) (s : string) : bool :=
  match s with
  | EmptyString => true
  | String a s' => negb (Ascii.eqb a c) && lacks c s'
  end.

(** The three collection blocks of an import, with the section and the
    member each one reads. *)
Definition import_blocks
    : list (string * string * (pyval → list pyval → list pyval)) :=
  [("exec-script-results", "cfg-result", Config.exec_script_results_block);
   ("imported-files", "file", Config.imported_files_block);
   ("imported-objects", "object", Config.imported_objects_block)].

(** The label of an entry of [results]. *)
Definition entry_label (e : pyval) : option string :=
  match e with
  | PDict [(PStr label, _)] => Some label
  | _ => None
  end.

(** The sections that may follow [export-details], in the order of the
    source. *)
Definition later_sections : list string :=
  ["exec-script-results"; "file-copy-log"; "imported-debug"; "imported-files";
   "imported-objects"].

(** The exception an entry without status label makes
    [get_status_summary] raise. *)
Definition status_error (i : pyval) : pyexc :=
  match py_getitem i "status" with
  | Raise e => e
  | Ret _ => TypeError
  end.

(** What every intermediate result of the checkpoint module satisfies:
    it names the checkpoint and the domain asked for, and it never
    reports a failure together with a change. *)
Definition chk_inv (p : Chkpoint.params) (tmp : gmap string pyval) : Prop :=
  tmp !! "name" = Some (PStr (Chkpoint.name p))
  ∧ tmp !! "domain" = Some (PStr (Chkpoint.domain p))
  ∧ (tmp !! "failed" = Some (PBool true) → tmp !! "changed" ≠ Some (PBool true)).

(** The same for the configuration module. *)
Definition cfg_inv (p : Config.params) (tmp : gmap string pyval) : Prop :=
  tmp !! "name" = Some (PStr (Config.name p))
  ∧ (tmp !! "failed" = Some (PBool true) → tmp !! "changed" = Some (PBool false)).

(** ** More sample inputs *)

Definition dev_check_mode : device :=
  scripted [(200%Z, "OK", domains_body); (202%Z, "Accepted", accepted_body)] "Completed" true.

Definition dev_no_domains : device :=
  scripted [(200%Z, "OK", PDict [(PStr "links", PNone)])] "Completed" false.

Definition dev_fetch_refused : device :=
  scripted [(200%Z, "OK", domains_body); (202%Z, "Accepted", accepted_body);
            (500%Z, "Internal Server Error", PNone)] "Completed" false.

Definition status_body : pyval :=
  PDict [(PStr "DomainStatus",
          PList [PDict [(PStr "Domain", PStr "default"); (PStr "SaveNeeded", PStr "on")];
                 PDict [(PStr "Domain", PStr "test"); (PStr "SaveNeeded", PStr "off")]])].

Definition dev_saved : device :=
  scripted [(200%Z, "OK", domains_body); (200%Z, "OK", status_body)] "Completed" false.

Definition dev_stored : device :=
  scripted [(200%Z, "OK", domains_body);
            (201%Z, "Created", PDict [(PStr "result", PStr "File was created.")])]
    "Completed" false.

Definition export_detail : pyval :=
  PDict [(PStr "status", PStr "completed");
         (PStr "result", PDict [(PStr "file", PStr "UEsDBBQ=")])].

Definition shuffled_entries : list pyval :=
  [PDict [(PStr "status", PStr "error")];
   PDict [(PStr "status", PStr "ok"); (PStr "name", PStr "c")];
   PDict [(PStr "name", PStr "a"); (PStr "status", PStr "ok")]].

(** * Properties *)

(** ** Dict keys *)

Lemma key_eqb_refl k : hashable k = true → key_eqb k k = true.
Proof.
  destruct k as [| b | n | s | |]; simpl; try done; intros _.
  - by destruct b.
  - apply Z.eqb_refl.
  - apply String.eqb_refl.
Qed.

Lemma key_eqb_sym a b : key_eqb a b = key_eqb b a.
Proof.
  destruct a as [| x | x | x | |], b as [| y | y | y | |]; simpl; try done.
  - by destruct x, y.
  - apply Z.eqb_sym.
  - apply Z.eqb_sym.
  - apply Z.eqb_sym.
  - apply String.eqb_sym.
Qed.

Lemma key_eqb_trans a b c :
  key_eqb a b = true → key_eqb b c = true → key_eqb a c = true.
Proof.
  destruct a as [| x | x | x | |], b as [| y | y | y | |], c as [| z | z | z | |];
    simpl; try done;
    rewrite ?Z.eqb_eq, ?String.eqb_eq, ?Bool.eqb_true_iff;
    try congruence; try (by destruct x, y, z); try (destruct x, z; simpl; lia);
    try (destruct x, y; simpl; lia); try (destruct y, z; simpl; lia).
Qed.

Lemma key_eqb_congr a b c :
  key_eqb a b = true → key_eqb a c = key_eqb b c.
Proof.
  intros Hab. destruct (key_eqb b c) eqn:Hbc.
  - by eapply key_eqb_trans.
  - destruct (key_eqb a c) eqn:Hac; [|done].
    rewrite <- Hbc. symmetry. eapply key_eqb_trans; [|exact Hac].
    by rewrite key_eqb_sym.
Qed.

Lemma dict_get_set {V} (st k : pyval) (v : V) s :
  dict_get k (dict_set st v s) = if key_eqb st k then Some v else dict_get k s.
Proof.
  induction s as [|[k' v'] s IH]; simpl; [done|].
  destruct (key_eqb k' st) eqn:Hst; simpl.
  - rewrite (key_eqb_congr _ _ k Hst). by destruct (key_eqb st k).
  - rewrite IH. destruct (key_eqb st k) eqn:Hk; [|done].
    rewrite key_eqb_sym in Hk. rewrite key_eqb_sym, (key_eqb_congr _ _ k' Hk).
    by rewrite key_eqb_sym, Hst.
Qed.

Lemma dict_get_congr {V} (a b : pyval) (s : list (pyval * V)) :
  key_eqb a b = true → dict_get a s = dict_get b s.
Proof.
  intros Hab. induction s as [|[k' v'] s IH]; simpl; [done|].
  rewrite (key_eqb_sym k' a), (key_eqb_congr _ _ k' Hab), (key_eqb_sym b k').
  by rewrite IH.
Qed.

Lemma sum_values_set st v s :
  sum_values (dict_set st v s) + default 0 (dict_get st s) = sum_values s + v.
Proof.
  induction s as [|[k' v'] s IH]; simpl; [lia|].
  destruct (key_eqb k' st); simpl; lia.
Qed.

Lemma keys_distinct_set st v s :
  keys_distinct s → keys_distinct (dict_set st v s).
Proof.
  induction s as [|[k' v'] s IH]; simpl; [done|].
  intros [Hk Hs]. destruct (key_eqb k' st) eqn:Hst; simpl; [done|].
  split; [|by apply IH].
  by rewrite dict_get_set, key_eqb_sym, Hst.
Qed.

(** ** The status summary *)

Lemma summary_step_spec s i :
  has_status i →
  ∃ s', summary_step s i = Ret s'
      ∧ (∀ k, default 0 (dict_get k s') =
              default 0 (dict_get k s) + (if status_is k i then 1 else 0))
      ∧ (∀ k, status_is k i = true → is_Some (dict_get k s'))
      ∧ (∀ k, status_is k i = false → dict_get k s' = dict_get k s)
      ∧ sum_values s' = S (sum_values s)
      ∧ (keys_distinct s → keys_distinct s').
Proof.
  intros (st & Hget & Hh). unfold summary_step, status_is. rewrite Hget. simpl.
  rewrite Hh. simpl. unfold dict_mem.
  destruct (dict_get st s) as [n|] eqn:Hst; simpl.
  - eexists; split; [done|]. repeat split.
    + intros k. rewrite dict_get_set.
      destruct (key_eqb st k) eqn:Hk; simpl; [|lia].
      rewrite <- (dict_get_congr _ _ s Hk), Hst. simpl. lia.
    + intros k Hk. rewrite dict_get_set, Hk. by eexists.
    + intros k Hk. by rewrite dict_get_set, Hk.
    + pose proof (sum_values_set st (S n) s) as Hs. rewrite Hst in Hs. simpl in Hs. lia.
    + apply keys_distinct_set.
  - eexists; split; [done|]. repeat split.
    + intros k. rewrite dict_get_set.
      destruct (key_eqb st k) eqn:Hk; simpl; [|lia].
      by rewrite <- (dict_get_congr _ _ s Hk), Hst.
    + intros k Hk. rewrite dict_get_set, Hk. by eexists.
    + intros k Hk. by rewrite dict_get_set, Hk.
    + pose proof (sum_values_set st 1 s) as Hs. rewrite Hst in Hs. simpl in Hs. lia.
    + apply keys_distinct_set.
Qed.

Lemma count_status_cons k i l :
  count_status k (i :: l) = (if status_is k i then 1 else 0) + count_status k l.
Proof.
  unfold count_status. rewrite filter_cons.
  destruct (status_is k i); case_decide; simpl; congruence.
Qed.

Lemma summary_loop_spec l :
  Forall has_status l →
  ∀ s (c : pyval → nat),
    (∀ k, dict_get k s = shown (c k)) →
    ∃ s', summary_loop l s = Ret s'
        ∧ (∀ k, dict_get k s' = shown (c k + count_status k l))
        ∧ sum_values s' = sum_values s + length l
        ∧ (keys_distinct s → keys_distinct s').
Proof.
  induction 1 as [|i l Hi Hl IH]; intros s c Hc; simpl.
  - exists s. repeat split; [|lia|done].
    intros k. unfold count_status. simpl. by rewrite Nat.add_0_r.
  - destruct (summary_step_spec s i Hi) as (s1 & -> & Hcnt & Hin & Hout & Hsum & Hd).
    destruct (IH s1 (λ k, c k + (if status_is k i then 1 else 0))) as (s' & -> & Hc' & Hs' & Hd').
    + intros k. specialize (Hcnt k). rewrite Hc in Hcnt.
      destruct (status_is k i) eqn:Hk.
      * destruct (Hin k Hk) as [n Hn]. rewrite Hn in *. simpl in Hcnt.
        rewrite Hcnt. destruct (c k); simpl; f_equal; lia.
      * by rewrite (Hout k Hk), Hc, Nat.add_0_r.
    + exists s'. repeat split.
      * intros k. rewrite Hc', count_status_cons. f_equal. lia.
      * simpl. lia.
      * tauto.
Qed.

(** C3: for a list of entries that each carry a status label,
    [get_status_summary] returns a dict that maps every label to the
    number of entries with that label (labels that do not occur are
    absent), lists no label twice, and whose values add up to the length
    of the list.  That sum is the [total] which each of the three
    collection blocks of [main] reports beside the summary, together
    with the list itself under [detail]. *)
Theorem get_status_summary_counts (l : list pyval) :
  Forall has_status l →
  ∃ s, get_status_summary l = Ret s
     ∧ (∀ k, dict_get k s = shown (count_status k l))
     ∧ keys_distinct s
     ∧ sum_values s = length l
     ∧ ∀ import_results results,
         let reported_under (label : string) :=
           results ++
           [PDict [(PStr label,
                    PDict [(PStr "summary",
                            PDict [(PStr "total", PInt (Z.of_nat (sum_values s)));
                                   (PStr "status", summary_to_py s)]);
                           (PStr "detail", PList l)])]] in
         (∀ parent,
            py_getitem import_results "exec-script-results" = Ret parent →
            py_getitem parent "cfg-result" = Ret (PList l) →
            Config.exec_script_results_block import_results results
              = reported_under "exec-script-results")
         ∧ (∀ parent,
              py_getitem import_results "imported-files" = Ret parent →
              py_getitem parent "file" = Ret (PList l) →
              Config.imported_files_block import_results results
                = reported_under "imported-files")
         ∧ (∀ parent,
              py_getitem import_results "imported-objects" = Ret parent →
              py_getitem parent "object" = Ret (PList l) →
              Config.imported_objects_block import_results results
                = reported_under "imported-objects").
Proof.
  intros Hl.
  destruct (summary_loop_spec l Hl [] (λ _, 0)) as (s & Hs & Hc & Hsum & Hd); [done|].
  exists s. split; [done|]. split; [done|]. split; [by apply Hd|]. split; [done|].
  intros import_results results. simpl. rewrite Hsum. simpl.
  repeat split; intros parent Hparent Hmember;
    unfold Config.exec_script_results_block, Config.imported_files_block,
      Config.imported_objects_block, try_except;
    rewrite Hparent; simpl; rewrite Hmember; simpl;
    unfold get_status_summary; by rewrite Hs.
Qed.

Lemma get_status_summary_counts_witness :
  ∃ s, get_status_summary sample_entries = Ret s
     ∧ (∀ k, dict_get k s = shown (count_status k sample_entries))
     ∧ keys_distinct s
     ∧ sum_values s = length sample_entries
     ∧ ∀ results,
         Config.imported_files_block
           (PDict [(PStr "imported-files", PDict [(PStr "file", PList sample_entries)])])
           results
         = results ++
           [PDict [(PStr "imported-files",
                    PDict [(PStr "summary",
                            PDict [(PStr "total", PInt (Z.of_nat (sum_values s)));
                                   (PStr "status", summary_to_py s)]);
                           (PStr "detail", PList sample_entries)])]].
Proof.
  destruct (get_status_summary_counts sample_entries)
    as (s & Hs & Hc & Hd & Hsum & Hblocks).
  - repeat constructor; eexists; split; reflexivity.
  - exists s. repeat split; try done.
    intros results.
    destruct (Hblocks
                (PDict [(PStr "imported-files",
                         PDict [(PStr "file", PList sample_entries)])]) results)
      as (_ & Hfiles & _).
    by apply (Hfiles (PDict [(PStr "file", PList sample_entries)])).
Defined.

(** ** The closing loop *)

Lemma update_result_lookup (tmp_result r : gmap string pyval) (k : string) :
  update_result tmp_result r !! k =
    match tmp_result !! k with
    | Some PNone | None => r !! k
    | Some v => Some v
    end.
Proof.
  unfold update_result. revert k.
  apply (map_fold_weak_ind
           (λ acc m, ∀ k, acc !! k = match m !! k with
                                     | Some PNone | None => r !! k
                                     | Some v => Some v
                                     end)).
  - intros k. by rewrite lookup_empty.
  - intros i x m acc Hi IH k.
    destruct (decide (i = k)) as [->|Hne].
    + rewrite lookup_insert_eq.
      destruct x; rewrite ?lookup_insert_eq; try done.
      by rewrite IH, Hi.
    + rewrite lookup_insert_ne by done.
      destruct x; rewrite ?lookup_insert_ne by done; apply IH.
Qed.

Section Closing.
Context `{!idg_lib} `{!device}.

Lemma run_main_exit (body : M (gmap string pyval)) tmp_result tr :
  body [] = (Val tmp_result, tr) →
  run_main body = (ExitJson (update_result tmp_result result), tr).
Proof. intros Hb. unfold run_main. by rewrite Hb. Qed.

(** C10: the closing loop copies into the shared record exactly the
    fields of the intermediate result whose value is not [None]: such a
    field gets the intermediate value, and every other field of the
    shared record (one that is [None] in the intermediate result, e.g.
    [failed] on a path without failure, or that is missing from it)
    keeps the value it had before.  In each of the three modules the
    record passed to [exit_json] after the body is the shared record
    merged in this way. *)
Theorem update_result_frame (tmp_result r : gmap string pyval) :
  (∀ k v, tmp_result !! k = Some v → v ≠ PNone →
          update_result tmp_result r !! k = Some v)
  ∧ (∀ k, tmp_result !! k = Some PNone ∨ tmp_result !! k = None →
          update_result tmp_result r !! k = r !! k)
  ∧ (∀ p tr, Chkpoint.body p [] = (Val tmp_result, tr) →
             Chkpoint.main p = (ExitJson (update_result tmp_result result), tr))
  ∧ (∀ p tr, Config.body p [] = (Val tmp_result, tr) →
             Config.main p = (ExitJson (update_result tmp_result result), tr))
  ∧ (∀ tr, Discovery.body [] = (Val tmp_result, tr) →
           Discovery.main = (ExitJson (update_result tmp_result result), tr)).
Proof.
  split; [|split; [|split; [|split]]].
  - intros k v Hk Hv. rewrite update_result_lookup, Hk. by destruct v.
  - intros k [Hk|Hk]; by rewrite update_result_lookup, Hk.
  - intros p tr. apply run_main_exit.
  - intros p tr. apply run_main_exit.
  - intros tr. apply run_main_exit.
Qed.
End Closing.

Lemma update_result_frame_witness :
  let tmp := <["msg":=PList [PStr "default"]]> (<["msg":=PNone]> ∅) : gmap string pyval in
  let r := @result sample_lib in
  update_result tmp r !! "msg" = Some (PList [PStr "default"])
  ∧ update_result tmp r !! "changed" = r !! "changed"
  ∧ @Discovery.main sample_lib dev_one_domain =
      (ExitJson (update_result tmp r), [@domain_list_call sample_lib]).
Proof.
  intros tmp r.
  destruct (@update_result_frame sample_lib dev_one_domain tmp r)
    as (Hcopy & Hkeep & _ & _ & Hmain).
  split; [|split].
  - apply Hcopy; [reflexivity | discriminate].
  - apply Hkeep. right. reflexivity.
  - apply Hmain. reflexivity.
Defined.

(** ** Running a module *)

Ltac run :=
  unfold mbind, M_bind, mret, M_ret, do_api_call, do_wait_for_action_end,
    implement_check_mode, lift, fail_json; simpl.

Ltac split_run :=
  repeat first
    [ progress simpl
    | match goal with
      | |- context [match ?x with _ => _ end] =>
          lazymatch x with
          | context [match _ with _ => _ end] => fail
          | _ => destruct x as [[[? ?] ?]|?|?] || destruct x
          end
      end ].

Ltac lookups :=
  rewrite ?update_result_lookup;
  rewrite ?lookup_insert, ?lookup_empty;
  repeat case_decide; subst; try done.

Lemma cfg_update_untouched (p : Config.params) (r : gmap string pyval) :
  update_result (Config.tmp_result p) r = <["name":=PStr (Config.name p)]> r.
Proof.
  apply map_eq. intros k. unfold Config.tmp_result. lookups.
Qed.

Lemma discovery_update_none (r : gmap string pyval) :
  update_result Discovery.tmp_result r = r.
Proof.
  apply map_eq. intros k. unfold Discovery.tmp_result. lookups.
Qed.

Lemma discovery_update_msg (l : list pyval) (r : gmap string pyval) :
  update_result (<["msg":=PList l]> Discovery.tmp_result) r = <["msg":=PList l]> r.
Proof.
  apply map_eq. intros k. unfold Discovery.tmp_result. lookups.
Qed.

Lemma res_mapM_names (l names : list pyval) :
  Forall2 (λ d n, py_getitem d "name" = Ret n) l names →
  res_mapM (λ d, py_getitem d "name") l = Ret names.
Proof.
  induction 1 as [|d n l names Hd _ IH]; simpl; [done|].
  by rewrite Hd, IH.
Qed.

Section Precondition.
Context `{!idg_lib} `{!device}.

Lemma domain_missing chk_data domains :
  api_call [] (PStr URI_DOMAIN_LIST) "GET" None = Val (200%Z, "OK", chk_data) →
  configured_domains chk_data = Ret domains →
  (∀ p : Chkpoint.params,
     domain_in (Chkpoint.domain p) domains = false →
     Chkpoint.main p =
       (FailJson (format (ERROR_REACH_STATE +:+ " " +:+ ERROR_NOT_DOMAIN)
                    [Chkpoint.state_str (Chkpoint.state p); Chkpoint.domain p]),
        [domain_list_call]))
  ∧ (∀ p : Config.params,
       domain_in (Config.name p) domains = false →
       Config.main p =
         (FailJson (format (ERROR_REACH_STATE +:+ " " +:+ ERROR_NOT_DOMAIN)
                      [Config.state_str (Config.state p); Config.name p]),
          [domain_list_call])).
Proof.
  intros H1 H2. split; intros p H3.
  - unfold Chkpoint.main, run_main, Chkpoint.body. run.
    rewrite H1. simpl. rewrite H2. simpl. by rewrite H3.
  - unfold Config.main, run_main, Config.body. run.
    rewrite H1. simpl. rewrite H2. simpl. by rewrite H3.
Qed.

(** C8: in the configuration module with state [saved], when the domain
    status request is answered by anything but 200 OK, the invocation
    exits through [exit_json]; only [name] was written into the shared
    record, so [msg], [changed] and [failed] are as they were, and no
    request follows the status request. *)
Theorem saved_status_not_ok (p : Config.params) code msg data :
  domain_exists (Config.name p) →
  Config.state p = Config.saved →
  api_call [domain_list_call] (PStr URI_DOMAIN_STATUS) "GET" None = Val (code, msg, data) →
  is_http code msg 200 "OK" = false →
  Config.main p =
    (ExitJson (<["name":=PStr (Config.name p)]> result),
     [domain_list_call; domain_status_call]).
Proof.
  intros (chk_data & domains & H1 & H2 & H3) Hst Hq Hno.
  unfold Config.main, run_main, Config.body. run.
  rewrite H1. simpl. rewrite H2. simpl. rewrite H3, Hst.
  unfold Config.do_saved. run.
  unfold domain_list_call in Hq. rewrite Hq. simpl. rewrite Hno.
  by rewrite cfg_update_untouched.
Qed.

(** C9: in the discovery module, an answer to the domain list request
    other than 200 OK makes the invocation exit through [exit_json] with
    the shared record untouched ([msg] not set); a 200 OK answer sets
    [msg] to the configured domains: the one name of a dict body, the
    names of the members of a list body in their order. *)
Theorem discovery_msg chk_code chk_msg chk_data :
  api_call [] (PStr URI_DOMAIN_LIST) "GET" None = Val (chk_code, chk_msg, chk_data) →
  (is_http chk_code chk_msg 200 "OK" = false →
     Discovery.main = (ExitJson result, [domain_list_call]))
  ∧ (is_http chk_code chk_msg 200 "OK" = true →
     ∀ domain, py_getitem chk_data "domain" = Ret domain →
       (∀ name, is_dict domain = true → py_getitem domain "name" = Ret name →
          Discovery.main = (ExitJson (<["msg":=PList [name]]> result), [domain_list_call]))
       ∧ (∀ l names, domain = PList l →
            Forall2 (λ d n, py_getitem d "name" = Ret n) l names →
            Discovery.main = (ExitJson (<["msg":=PList names]> result), [domain_list_call]))).
Proof.
  intros H1. split.
  - intros Hno. unfold Discovery.main, run_main, Discovery.body. run.
    rewrite H1. simpl. rewrite Hno. by rewrite discovery_update_none.
  - intros Hok domain Hd. split.
    + intros name Hdict Hname.
      unfold Discovery.main, run_main, Discovery.body. run.
      rewrite H1. simpl. rewrite Hok. unfold configured_domains.
      rewrite Hd. simpl. rewrite Hdict, Hname. simpl.
      by rewrite discovery_update_msg.
    + intros l names -> Hnames.
      unfold Discovery.main, run_main, Discovery.body. run.
      rewrite H1. simpl. rewrite Hok. unfold configured_domains.
      rewrite Hd. simpl. rewrite (res_mapM_names _ _ Hnames).
      by rewrite discovery_update_msg.
Qed.
End Precondition.


Lemma saved_status_not_ok_witness :
  @Config.main sample_lib dev_status_down (cfg_params Config.saved "test") =
    (ExitJson (<["name":=PStr "test"]> (@result sample_lib)),
     [@domain_list_call sample_lib; @domain_status_call sample_lib]).
Proof.
  apply (@saved_status_not_ok sample_lib dev_status_down (cfg_params Config.saved "test")
           503%Z "Service Unavailable" PNone).
  - exists domains_body, [PStr "default"; PStr "test"]. repeat split; reflexivity.
  - reflexivity.
  - reflexivity.
  - reflexivity.
Defined.

Lemma discovery_msg_witness :
  @Discovery.main sample_lib dev_one_domain =
    (ExitJson (<["msg":=PList [PStr "default"]]> (@result sample_lib)),
     [@domain_list_call sample_lib])
  ∧ @Discovery.main sample_lib dev_domains_only =
    (ExitJson (<["msg":=PList [PStr "default"; PStr "test"]]> (@result sample_lib)),
     [@domain_list_call sample_lib])
  ∧ @Discovery.main sample_lib dev_list_down =
    (ExitJson (@result sample_lib), [@domain_list_call sample_lib]).
Proof.
  split; [|split].
  - destruct (@discovery_msg sample_lib dev_one_domain 200%Z "OK" one_domain_body eq_refl)
      as [_ Hok].
    destruct (Hok eq_refl (PDict [(PStr "name", PStr "default")]) eq_refl) as [Hdict _].
    apply Hdict; reflexivity.
  - destruct (@discovery_msg sample_lib dev_domains_only 200%Z "OK" domains_body eq_refl)
      as [_ Hok].
    destruct (Hok eq_refl _ eq_refl) as [_ Hlist].
    eapply Hlist; [reflexivity|].
    repeat constructor.
  - destruct (@discovery_msg sample_lib dev_list_down 503%Z "Service Unavailable" PNone
                eq_refl) as [Hdown _].
    apply Hdown. reflexivity.
Defined.

(** ** Substrings *)

Lemma prefix_app a b : String.prefix a (a +:+ b) = true.
Proof.
  induction a as [|c a IH]; simpl; [by destruct b|].
  by destruct (ascii_dec c c).
Qed.

Lemma prefix_length a b : String.prefix a b = true → String.length a ≤ String.length b.
Proof.
  revert a. induction b as [|c b IH]; intros [|d a]; simpl; try done; try lia.
  destruct (ascii_dec d c); [|done]. intros Hp. apply IH in Hp. lia.
Qed.

Lemma str_contains_length a b :
  str_contains a b = true → String.length a ≤ String.length b.
Proof.
  induction b as [|c b IH]; cbn [str_contains].
  - apply prefix_length.
  - intros [Hp|Hc]%orb_true_iff; simpl.
    + by apply prefix_length in Hp.
    + apply IH in Hc. lia.
Qed.

Lemma str_contains_prefix a b : String.prefix a b = true → str_contains a b = true.
Proof. destruct b; cbn [str_contains]; [done|]. by intros ->. Qed.

Lemma str_contains_app pre a post : str_contains a (pre +:+ a +:+ post) = true.
Proof.
  induction pre as [|c pre IH].
  - change (str_contains a (a +:+ post) = true).
    apply str_contains_prefix, prefix_app.
  - change (String.prefix a (String c (pre +:+ a +:+ post))
            || str_contains a (pre +:+ a +:+ post) = true).
    rewrite IH. apply orb_true_r.
Qed.

Lemma length_app_str a b : String.length (a +:+ b) = String.length a + String.length b.
Proof. induction a; simpl; [done|]. by rewrite IHa. Qed.

#[local] Arguments ascii_dec : simpl never.

Section Quotes.
Local Abbreviation q := "'"%char (only parsing).

Lemma prefix_same_tail (t : string) n' n :
  no_quote n' = true →
  String.prefix (n +:+ String q t) (n' +:+ String q t) = true → n = n'.
Proof.
  revert n. induction n' as [|c n' IH]; intros [|d n]; simpl; try done.
  - destruct (ascii_dec d q); [|done]. intros _ Hp%prefix_length.
    rewrite length_app_str in Hp. simpl in Hp. lia.
  - intros [Hc _]%andb_true_iff. destruct (ascii_dec q c) as [<-|]; [|done].
    by rewrite Ascii.eqb_refl in Hc.
  - intros [_ Hn]%andb_true_iff. destruct (ascii_dec d c) as [->|]; [|done].
    intros Hp. f_equal. by apply IH.
Qed.

Lemma prefix_split u m x y :
  no_quote u = true → no_quote m = true →
  String.prefix (u +:+ String q x) (m +:+ String q y) = true →
  u = m ∧ String.prefix x y = true.
Proof.
  revert m. induction u as [|a u IH]; intros [|c m]; simpl.
  - intros _ _. by destruct (ascii_dec q q).
  - intros _ [Hc _]%andb_true_iff. destruct (ascii_dec q c) as [<-|]; [|done].
    by rewrite Ascii.eqb_refl in Hc.
  - intros [Ha _]%andb_true_iff _. destruct (ascii_dec a q) as [->|]; [|done].
    by rewrite Ascii.eqb_refl in Ha.
  - intros [_ Hu]%andb_true_iff [_ Hm]%andb_true_iff.
    destruct (ascii_dec a c) as [->|]; [|done].
    intros Hp. destruct (IH m Hu Hm Hp) as [-> ?]. done.
Qed.

Lemma str_contains_cons a c h :
  str_contains a (String c h) = String.prefix a (String c h) || str_contains a h.
Proof. done. Qed.

(** The needle [u ' x] does not start inside [w ' t] when [w] has no
    apostrophe and [t] is shorter than [x]. *)
Lemma no_match_in_name u x t w :
  no_quote u = true → no_quote w = true →
  String.length t < String.length x →
  str_contains (u +:+ String q x) (w +:+ String q t) = false.
Proof.
  intros Hu Hw Ht. induction w as [|c w IH].
  - apply not_true_is_false. intros Hc%str_contains_length.
    rewrite length_app_str in Hc. simpl in Hc. lia.
  - change (String c w +:+ String q t) with (String c (w +:+ String q t)).
    rewrite str_contains_cons.
    pose proof Hw as Hcw. simpl in Hw. apply andb_true_iff in Hw as [_ Hw].
    rewrite IH by done. rewrite orb_false_r. apply not_true_is_false.
    intros Hp.
    change (String c (w +:+ String q t)) with (String c w +:+ String q t) in Hp.
    apply prefix_split in Hp as [_ Hp]; [|done..].
    apply prefix_length in Hp. lia.
Qed.

(** Nor inside a proper end [w] of [u], unless it occurs after it. *)
Lemma no_match_in_head u x t w :
  no_quote u = true → no_quote w = true →
  String.length w < String.length u →
  str_contains (u +:+ String q x) t = false →
  str_contains (u +:+ String q x) (w +:+ String q t) = false.
Proof.
  intros Hu Hw Hlen Ht. induction w as [|c w IH].
  - change ("" +:+ String q t) with (String q t).
    rewrite str_contains_cons, Ht, orb_false_r. apply not_true_is_false.
    intros Hp. change (String q t) with ("" +:+ String q t) in Hp.
    apply prefix_split in Hp as [-> _]; [simpl in Hlen; lia|done..].
  - change (String c w +:+ String q t) with (String c (w +:+ String q t)).
    rewrite str_contains_cons.
    pose proof Hw as Hcw. simpl in Hw. apply andb_true_iff in Hw as [_ Hw].
    rewrite IH; [|done|simpl in Hlen; lia].
    rewrite orb_false_r. apply not_true_is_false.
    intros Hp.
    change (String c (w +:+ String q t)) with (String c w +:+ String q t) in Hp.
    apply prefix_split in Hp as [-> _]; [lia|done..].
Qed.

(** A phrase [u 'n' t] occurs in the phrase [u 'm' t] about a name [m]
    without apostrophe only when the names are the same. *)
Lemma phrase_contained a u t n m :
  no_quote (String a u) = true → no_quote m = true →
  str_contains (String a u +:+ String q (n +:+ String q t))
               (String a u +:+ String q (m +:+ String q t)) = true →
  n = m.
Proof.
  intros Hu Hm Hc.
  change (String a u +:+ String q (m +:+ String q t))
    with (String a (u +:+ String q (m +:+ String q t))) in Hc.
  rewrite str_contains_cons in Hc.
  rewrite (no_match_in_head (String a u) _ _ u) in Hc.
  - rewrite orb_false_r in Hc.
    change (String a (u +:+ String q (m +:+ String q t)))
      with (String a u +:+ String q (m +:+ String q t)) in Hc.
    apply prefix_split in Hc as [_ Hp]; [|done..].
    by eapply prefix_same_tail.
  - done.
  - simpl in Hu. by apply andb_true_iff in Hu as [_ ?].
  - simpl. lia.
  - apply no_match_in_name; [done..|].
    rewrite length_app_str. simpl. lia.
Qed.
End Quotes.

Lemma already_exists_same_name n m :
  no_quote m = true →
  str_contains (Chkpoint.already_exists n) (Chkpoint.already_exists m) = true →
  n = m.
Proof.
  intros Hm Hc.
  apply (phrase_contained "C"%char "onfiguration Checkpoint " " already exists." n m);
    [reflexivity|done|exact Hc].
Qed.

Lemma app_str_inj_r t a b : a +:+ t = b +:+ t → a = b.
Proof.
  revert b. induction a as [|c a IH]; intros [|d b]; simpl; try done.
  - intros Heq. apply (f_equal String.length) in Heq. simpl in Heq.
    rewrite !length_app_str in Heq. simpl in Heq. lia.
  - intros Heq. apply (f_equal String.length) in Heq. simpl in Heq.
    rewrite !length_app_str in Heq. simpl in Heq. lia.
  - intros [= -> Heq]. f_equal. by apply IH.
Qed.

Lemma already_exists_inj n m :
  Chkpoint.already_exists n = Chkpoint.already_exists m → n = m.
Proof.
  unfold Chkpoint.already_exists. simpl. intros [= Heq].
  exact (app_str_inj_r "' already exists." n m Heq).
Qed.

(** ** Asynchronous actions *)

Section Async.
Context `{!idg_lib} `{!device}.

Lemma chk_async_run (p : Chkpoint.params) href detail :
  chk_detail_fetched p href detail →
  Chkpoint.main p = finish (chk_outcome p detail) (chk_async_trace p href).
Proof.
  intros ((chk_data & domains & H1 & H2 & H3) & action_result & Hcm & data
          & Hpost & Hhref & Hwait & Hget).
  unfold Chkpoint.main, run_main, Chkpoint.body. run.
  rewrite H1. simpl. rewrite H2. simpl. rewrite H3.
  unfold chk_outcome, chk_async_trace, chk_payload, async_calls, post_call,
    domain_list_call in *.
  destruct (Chkpoint.state p) eqn:Hst; simpl in *;
    unfold Chkpoint.do_present, Chkpoint.do_absent, Chkpoint.do_restored; run;
    rewrite Hcm; simpl; rewrite Hpost; simpl; rewrite Hhref; simpl;
    rewrite Hst; simpl; rewrite Hwait; simpl; rewrite Hget; simpl.
  - by destruct (Chkpoint.present_outcome p detail).
  - by destruct (Chkpoint.absent_outcome p detail).
  - by destruct (Chkpoint.restored_outcome p detail).
Qed.

Lemma cfg_async_run (p : Config.params) pre payload href action_result detail :
  cfg_detail_fetched p pre payload href action_result detail →
  Config.main p =
    finish (cfg_outcome p action_result detail)
      (pre ++ async_calls (Config.action_uri p) payload
                (Config.state_str (Config.state p)) href).
Proof.
  intros ((chk_data & domains & H1 & H2 & H3) & Hpre & Hpay & Hcm & data
          & Hpost & Hhref & Hwait & Hget).
  unfold Config.main, run_main, Config.body. run.
  rewrite H1. simpl. rewrite H2. simpl. rewrite H3.
  unfold cfg_outcome, cfg_before_post, cfg_payload, async_calls, post_call,
    domain_list_call, domain_status_call in *.
  destruct (Config.state p) eqn:Hst; simpl in *; try done.
  - subst pre. injection Hpay as <-. simpl in *.
    unfold Config.do_exported. run.
    rewrite Hcm; simpl; rewrite Hpost; simpl; rewrite Hhref; simpl;
      rewrite Hst; simpl; rewrite Hwait; simpl; rewrite Hget; simpl.
    by destruct (Config.exported_outcome p action_result detail).
  - subst pre. injection Hpay as <-. simpl in *.
    unfold Config.do_imported. run.
    rewrite Hcm; simpl; rewrite Hpost; simpl; rewrite Hhref; simpl;
      rewrite Hst; simpl; rewrite Hwait; simpl; rewrite Hget; simpl.
    by destruct (Config.import_outcome p detail).
  - subst pre. injection Hpay as <-. simpl in *.
    unfold Config.do_reseted. run.
    rewrite Hcm; simpl; rewrite Hpost; simpl; rewrite Hhref; simpl;
      rewrite Hst; simpl; rewrite Hwait; simpl; rewrite Hget; simpl.
    by destruct (Config.reseted_outcome p detail).
  - destruct Hpre as (qds_data & save_needed & Hq & Hsn & Hoff & ->).
    injection Hpay as <-. simpl in *.
    unfold Config.do_saved. run.
    rewrite Hq; simpl. rewrite Hsn; simpl. rewrite Hoff; simpl.
    rewrite Hcm; simpl; rewrite Hpost; simpl; rewrite Hhref; simpl;
      rewrite Hst; simpl; rewrite Hwait; simpl; rewrite Hget; simpl.
    done.
Qed.

Lemma chk_accepted (p : Chkpoint.params) msg data :
  domain_exists (Chkpoint.domain p) →
  check_mode = false →
  api_call [domain_list_call] (PStr (Chkpoint.action_uri p)) "POST"
    (Some (json_dumps (chk_payload p))) = Val (202%Z, msg, data) →
  let posted := [domain_list_call; post_call (Chkpoint.action_uri p) (chk_payload p)] in
  (msg = "Accepted" → ∀ href, location_href data = Ret href →
     ∃ rest, (Chkpoint.main p).2 =
       posted ++ WaitForActionEnd (Chkpoint.action_uri p) href
                   (Chkpoint.state_str (Chkpoint.state p)) :: rest)
  ∧ (∀ e, location_href data = Raise e → ∃ m, Chkpoint.main p = (FailJson m, posted))
  ∧ (msg ≠ "Accepted" → ∃ m, Chkpoint.main p = (FailJson m, posted)).
Proof.
  intros (chk_data & domains & H1 & H2 & H3) Hcm Hpost posted. subst posted.
  unfold Chkpoint.main, run_main, Chkpoint.body. run.
  rewrite H1. simpl. rewrite H2. simpl. rewrite H3.
  unfold chk_payload, post_call, domain_list_call in *.
  destruct (Chkpoint.state p) eqn:Hst; simpl in *;
    unfold Chkpoint.do_present, Chkpoint.do_absent, Chkpoint.do_restored; run;
    rewrite Hcm; simpl; rewrite Hpost; unfold is_http; simpl;
    (split; [|split]).
  all: try (intros -> href Hh; simpl; rewrite Hh, ?Hst; split_run; by eexists).
  all: try (intros e He; destruct (String.eqb msg "Accepted"); rewrite ?He; simpl;
            by eexists).
  all: intros Hne; destruct (String.eqb msg "Accepted") eqn:E;
    [by apply String.eqb_eq in E|]; simpl; by eexists.
Qed.

Lemma cfg_accepted (p : Config.params) pre payload msg data :
  domain_exists (Config.name p) →
  cfg_before_post p pre →
  cfg_payload p = Some payload →
  check_mode = false →
  api_call pre (PStr (Config.action_uri p)) "POST" (Some (json_dumps payload))
    = Val (202%Z, msg, data) →
  let posted := pre ++ [post_call (Config.action_uri p) payload] in
  (msg = "Accepted" → ∀ href, location_href data = Ret href →
     ∃ rest, (Config.main p).2 =
       posted ++ WaitForActionEnd (Config.action_uri p) href
                   (Config.state_str (Config.state p)) :: rest)
  ∧ (∀ e, location_href data = Raise e → ∃ m, Config.main p = (FailJson m, posted))
  ∧ (msg ≠ "Accepted" → ∃ m, Config.main p = (FailJson m, posted)).
Proof.
  intros (chk_data & domains & H1 & H2 & H3) Hpre Hpay Hcm Hpost posted.
  subst posted.
  unfold Config.main, run_main, Config.body. run.
  rewrite H1. simpl. rewrite H2. simpl. rewrite H3.
  unfold cfg_before_post, cfg_payload, post_call, domain_list_call,
    domain_status_call in *.
  destruct (Config.state p) eqn:Hst; try done; injection Hpay as <-;
    [subst pre..|destruct Hpre as (qds_data & save_needed & Hq & Hsn & Hoff & ->)];
    simpl in *;
    unfold Config.do_exported, Config.do_imported, Config.do_reseted, Config.do_saved;
    run; rewrite ?Hq; simpl; rewrite ?Hsn; simpl; rewrite ?Hoff; simpl;
    rewrite Hcm; simpl; rewrite Hpost; unfold is_http; simpl;
    (split; [|split]).
  all: try (intros -> href Hh; simpl; rewrite Hh, ?Hst; split_run; by eexists).
  all: try (intros e He; destruct (String.eqb msg "Accepted"); rewrite ?He; simpl;
            by eexists).
  all: intros Hne; destruct (String.eqb msg "Accepted") eqn:E;
    [by apply String.eqb_eq in E|]; simpl; by eexists.
Qed.

(** C6, amended: an action that is answered 202 with the
    reason [Accepted] and a body with a location link is followed at
    once by the wait on that location; answered 202 with a body from
    which the link cannot be read, whatever the reason, it ends in
    [fail_json] with no further request; answered 202 with another
    reason it ends in [fail_json] as well, link or not.  This holds for
    every action of the checkpoint and of the configuration module. *)
Theorem accepted_action_is_polled :
  (∀ (p : Chkpoint.params) msg data,
     domain_exists (Chkpoint.domain p) →
     check_mode = false →
     api_call [domain_list_call] (PStr (Chkpoint.action_uri p)) "POST"
       (Some (json_dumps (chk_payload p))) = Val (202%Z, msg, data) →
     let posted := [domain_list_call; post_call (Chkpoint.action_uri p) (chk_payload p)] in
     (msg = "Accepted" → ∀ href, location_href data = Ret href →
        ∃ rest, (Chkpoint.main p).2 =
          posted ++ WaitForActionEnd (Chkpoint.action_uri p) href
                      (Chkpoint.state_str (Chkpoint.state p)) :: rest)
     ∧ (∀ e, location_href data = Raise e →
          ∃ m, Chkpoint.main p = (FailJson m, posted))
     ∧ (msg ≠ "Accepted" → ∃ m, Chkpoint.main p = (FailJson m, posted)))
  ∧ (∀ (p : Config.params) pre payload msg data,
       domain_exists (Config.name p) →
       cfg_before_post p pre →
       cfg_payload p = Some payload →
       check_mode = false →
       api_call pre (PStr (Config.action_uri p)) "POST" (Some (json_dumps payload))
         = Val (202%Z, msg, data) →
       let posted := pre ++ [post_call (Config.action_uri p) payload] in
       (msg = "Accepted" → ∀ href, location_href data = Ret href →
          ∃ rest, (Config.main p).2 =
            posted ++ WaitForActionEnd (Config.action_uri p) href
                        (Config.state_str (Config.state p)) :: rest)
       ∧ (∀ e, location_href data = Raise e →
            ∃ m, Config.main p = (FailJson m, posted))
       ∧ (msg ≠ "Accepted" → ∃ m, Config.main p = (FailJson m, posted))).
Proof. split; [apply chk_accepted | apply cfg_accepted]. Qed.

Lemma existsb_eq_str (s : string) (l : list pyval) :
  PStr s ∈ l → existsb (λ x, eq_str x s) l = true.
Proof.
  intros Hin. induction l as [|y l IH]; [by apply elem_of_nil in Hin|].
  apply elem_of_cons in Hin as [<-|Hin]; simpl.
  - by rewrite String.eqb_refl.
  - rewrite IH by done. apply orb_true_r.
Qed.

(** C5, amended: with state [absent], when [RemoveCheckpoint] is answered
    400 with the reason [Bad Request] and the error text of the body
    contains the phrase that the requested checkpoint cannot be found
    (inside a string, or as a member of a list of messages), the
    invocation exits through [exit_json] after that one action; [msg] is
    the immutable message, and neither [changed] nor [failed] is
    written: they are those of the shared record, so [changed] is false
    and [failed] unset when the shared record starts that way. *)
Theorem absent_cannot_find (p : Chkpoint.params) rm_data error :
  domain_exists (Chkpoint.domain p) →
  Chkpoint.state p = Chkpoint.absent →
  check_mode = false →
  api_call [domain_list_call] (PStr (Chkpoint.action_uri p)) "POST"
    (Some (json_dumps (Chkpoint.remove_act_msg p)))
    = Val (400%Z, "Bad Request", rm_data) →
  py_getitem rm_data "error" = Ret error →
  (∃ before after,
      error = PStr (before +:+ Chkpoint.cannot_find (Chkpoint.name p) +:+ after))
  ∨ (∃ l, error = PList l ∧ PStr (Chkpoint.cannot_find (Chkpoint.name p)) ∈ l) →
  ∃ r,
    Chkpoint.main p =
      (ExitJson r,
       [domain_list_call; post_call (Chkpoint.action_uri p) (Chkpoint.remove_act_msg p)])
    ∧ r !! "msg" = Some (PStr IMMUTABLE_MESSAGE)
    ∧ r !! "changed" = result !! "changed"
    ∧ r !! "failed" = result !! "failed"
    ∧ (seed_unchanged → r !! "changed" = Some (PBool false) ∧ r !! "failed" = None).
Proof.
  intros (chk_data & domains & H1 & H2 & H3) Hst Hcm Hpost Herr Hin.
  assert (py_in (Chkpoint.cannot_find (Chkpoint.name p)) error = Ret true) as Hfound.
  { destruct Hin as [(before & after & ->)|(l & -> & Hl)]; simpl.
    - by rewrite str_contains_app.
    - by rewrite existsb_eq_str. }
  eexists. split.
  - unfold Chkpoint.main, run_main, Chkpoint.body. run.
    rewrite H1. simpl. rewrite H2. simpl. rewrite H3, Hst.
    unfold Chkpoint.do_absent, post_call, domain_list_call in *. run.
    rewrite Hcm. simpl. rewrite Hpost. simpl. rewrite Herr. simpl.
    rewrite Hfound. simpl. reflexivity.
  - unfold Chkpoint.tmp_result.
    assert (∀ k, k = "changed" ∨ k = "failed" →
              update_result
                (<["msg":=PStr IMMUTABLE_MESSAGE]>
                   (<["failed":=PNone]> (<["changed":=PNone]> (<["msg":=PNone]>
                      (<["domain":=PStr (Chkpoint.domain p)]>
                         (<["name":=PStr (Chkpoint.name p)]> ∅))))))
                result !! k = result !! k) as Hkeep.
    { intros k [->| ->]; lookups. }
    split; [lookups|]. split; [apply Hkeep; by left|].
    split; [apply Hkeep; by right|].
    intros [Hc Hf]. rewrite !Hkeep by auto. done.
Qed.

Lemma prefix_refl a : String.prefix a a = true.
Proof. induction a as [|c a IH]; simpl; [done|]. by destruct (ascii_dec c c). Qed.

Lemma str_contains_refl a : str_contains a a = true.
Proof. apply str_contains_prefix, prefix_refl. Qed.

#[local] Arguments Chkpoint.already_exists : simpl never.

(** How the phrase test of [present] comes out on the message about a
    checkpoint [m], alone in a list or as the whole error text. *)
Lemma already_exists_found (requested m : string) (error : pyval) :
  error = PList [PStr (Chkpoint.already_exists m)]
  ∨ (error = PStr (Chkpoint.already_exists m) ∧ no_quote m = true) →
  py_in (Chkpoint.already_exists requested) error = Ret (bool_decide (m = requested)).
Proof.
  intros [->|[-> Hq]]; cbn [py_in existsb eq_str]; f_equal.
  - rewrite orb_false_r. case_bool_decide as Hm.
    + subst. apply String.eqb_refl.
    + apply not_true_is_false. intros Heq%String.eqb_eq.
      by apply already_exists_inj in Heq.
  - case_bool_decide as Hm.
    + subst. apply str_contains_refl.
    + apply not_true_is_false. intros Hc.
      by apply already_exists_same_name in Hc.
Qed.

(** C4, amended: with state [present], when the fetched result of the
    action has status [error] and its error is the message that a
    checkpoint [m] already exists (alone in a list of messages, or as the
    error text when [m] has no apostrophe), [changed] is set to false
    and the invocation exits through [exit_json]; the message is the
    immutable one, with [failed] not written, exactly when [m] is the
    requested name, and otherwise it is the general error text built
    from the module name, the state, the domain and the device's error,
    with [failed] set. *)
Theorem present_already_exists (p : Chkpoint.params) href detail error m :
  chk_detail_fetched p href detail →
  Chkpoint.state p = Chkpoint.present →
  py_getitem detail "status" = Ret (PStr "error") →
  py_getitem detail "error" = Ret error →
  error = PList [PStr (Chkpoint.already_exists m)]
  ∨ (error = PStr (Chkpoint.already_exists m) ∧ no_quote m = true) →
  ∃ r,
    Chkpoint.main p = (ExitJson r, chk_async_trace p href)
    ∧ r !! "changed" = Some (PBool false)
    ∧ ((m = Chkpoint.name p
        ∧ r !! "msg" = Some (PStr IMMUTABLE_MESSAGE)
        ∧ r !! "failed" = result !! "failed")
       ∨ (m ≠ Chkpoint.name p
          ∧ r !! "msg" =
              Some (PStr (format GENERAL_ERROR
                            [Chkpoint.MODULE_FULLNAME; "present"; Chkpoint.domain p]
                          +:+ ErrorHandler_str error))
          ∧ r !! "failed" = Some (PBool true))).
Proof.
  intros Hfetched Hst Hstatus Herr Hshape.
  rewrite (chk_async_run p href detail Hfetched).
  unfold chk_outcome. rewrite Hst. unfold Chkpoint.present_outcome.
  rewrite Hstatus. simpl. rewrite Herr. simpl.
  rewrite (already_exists_found _ m error Hshape). simpl.
  unfold Chkpoint.tmp_result, Chkpoint.general_error. rewrite Hst. simpl.
  case_bool_decide as Hm; simpl; eexists; (split; [reflexivity|]).
  - split; [lookups|]. left. split; [done|]. split; lookups.
  - split; [lookups|]. right. split; [done|]. split; lookups.
Qed.

Lemma chk_outcome_error (p : Chkpoint.params) detail status :
  py_getitem detail "status" = Ret status →
  eq_str status "error" = true →
  match chk_outcome p detail with
  | Raise _ => True
  | Ret tmp =>
      tmp !! "changed" = Some (PBool false)
      ∧ ((tmp !! "failed" = Some (PBool true) ∧ ¬ already_there p detail)
         ∨ (already_there p detail
            ∧ tmp !! "msg" = Some (PStr IMMUTABLE_MESSAGE)
            ∧ tmp !! "failed" = Some PNone))
  end.
Proof.
  intros Hstatus Herror. unfold chk_outcome, already_there.
  destruct (Chkpoint.state p) eqn:Hst;
    unfold Chkpoint.present_outcome, Chkpoint.absent_outcome, Chkpoint.restored_outcome;
    rewrite Hstatus; simpl; rewrite Herror;
    (destruct (py_getitem detail "error") as [error|] eqn:Herr; simpl; [|done]).
  - destruct (py_in _ error) as [[]|] eqn:Hin; simpl; [| |done];
      unfold Chkpoint.tmp_result; (split; [lookups|]).
    + right. split; [split; [done|]; by exists error|]. split; lookups.
    + left. split; [lookups|]. intros (_ & error' & [= <-] & Hin'). congruence.
  - unfold Chkpoint.tmp_result. split; [lookups|]. left. split; [lookups|].
    by intros [? _].
  - unfold Chkpoint.tmp_result. split; [lookups|]. left. split; [lookups|].
    by intros [? _].
Qed.

Lemma import_outcome_error (p : Config.params) detail import_results detected :
  Config.import_results_of detail = Ret import_results →
  py_getitem import_results "detected-errors" = Ret detected →
  eq_str detected "false" = false →
  match Config.import_outcome p detail with
  | Raise _ => True
  | Ret tmp => tmp !! "changed" = Some (PBool false) ∧ tmp !! "failed" = Some (PBool true)
  end.
Proof.
  intros Hres Hdet Hne. unfold Config.import_outcome.
  rewrite Hres. simpl. rewrite Hdet. simpl. rewrite Hne. simpl.
  destruct (py_getitem detected "error") as [code|]; simpl; [|done].
  destruct (py_str_add _ code); simpl; [|done].
  unfold Config.tmp_result. split; lookups.
Qed.

(** C2, amended: in the checkpoint module, whatever the state, a fetched
    result whose status is [error] never gives [changed] true: the
    invocation either ends in [fail_json], or exits with [changed] false
    and [failed] true, or exits with [changed] false, the immutable
    message and [failed] not written, and this last outcome occurs only
    with state [present] when the error of the result tells that the
    requested checkpoint is already there (and then it is the outcome).
    In the configuration module with state [imported], a fetched result
    whose [detected-errors] is not the string [false] never gives
    [changed] true either: the invocation ends in [fail_json], or exits
    with [changed] false and [failed] true. *)
Theorem error_detail_not_changed :
  (∀ (p : Chkpoint.params) href detail status,
     chk_detail_fetched p href detail →
     py_getitem detail "status" = Ret status →
     eq_str status "error" = true →
     (∃ m, Chkpoint.main p = (FailJson m, chk_async_trace p href))
     ∨ (∃ r, Chkpoint.main p = (ExitJson r, chk_async_trace p href)
           ∧ r !! "changed" = Some (PBool false)
           ∧ ((r !! "failed" = Some (PBool true) ∧ ¬ already_there p detail)
              ∨ (already_there p detail
                 ∧ r !! "msg" = Some (PStr IMMUTABLE_MESSAGE)
                 ∧ r !! "failed" = result !! "failed"))))
  ∧ (∀ (p : Config.params) pre payload href action_result detail import_results detected,
       cfg_detail_fetched p pre payload href action_result detail →
       Config.state p = Config.imported →
       Config.import_results_of detail = Ret import_results →
       py_getitem import_results "detected-errors" = Ret detected →
       eq_str detected "false" = false →
       let tr := pre ++ async_calls (Config.action_uri p) payload "imported" href in
       (∃ m, Config.main p = (FailJson m, tr))
       ∨ (∃ r, Config.main p = (ExitJson r, tr)
             ∧ r !! "changed" = Some (PBool false)
             ∧ r !! "failed" = Some (PBool true))).
Proof.
  split.
  - intros p href detail status Hfetched Hstatus Herror.
    rewrite (chk_async_run p href detail Hfetched).
    pose proof (chk_outcome_error p detail status Hstatus Herror) as Hout.
    destruct (chk_outcome p detail) as [tmp|e]; simpl; [right|left; by eexists].
    destruct Hout as [Hc Hf]. eexists. split; [done|].
    split; [by rewrite update_result_lookup, Hc|].
    destruct Hf as [[Hf Hno]|(Hthere & Hm & Hf)].
    + left. split; [by rewrite update_result_lookup, Hf|done].
    + right. split; [done|]. by rewrite !update_result_lookup, Hm, Hf.
  - intros p pre payload href action_result detail import_results detected
      Hfetched Hst Hres Hdet Hne tr. subst tr.
    rewrite (cfg_async_run p pre payload href action_result detail Hfetched).
    unfold cfg_outcome. rewrite Hst. simpl.
    pose proof (import_outcome_error p detail import_results detected Hres Hdet Hne)
      as Hout.
    destruct (Config.import_outcome p detail) as [tmp|e]; simpl; [right|left; by eexists].
    destruct Hout as [Hc Hf]. eexists. split; [done|].
    by rewrite !update_result_lookup, Hc, Hf.
Qed.
End Async.

(** ** The result collections of an import *)

Lemma block_rule_exec import_results results :
  Config.exec_script_results_block import_results results =
    collection_block "exec-script-results" "cfg-result" import_results results.
Proof.
  unfold Config.exec_script_results_block, collection_block, try_except.
  destruct (py_getitem import_results _) as [parent|]; [|done].
  destruct (py_getitem parent _) as [[| | | |l|]|]; simpl; try done.
  by destruct (get_status_summary l).
Qed.

Lemma block_rule_files import_results results :
  Config.imported_files_block import_results results =
    collection_block "imported-files" "file" import_results results.
Proof.
  unfold Config.imported_files_block, collection_block, try_except.
  destruct (py_getitem import_results _) as [parent|]; [|done].
  destruct (py_getitem parent _) as [[| | | |l|]|]; simpl; try done.
  by destruct (get_status_summary l).
Qed.

Lemma block_rule_objects import_results results :
  Config.imported_objects_block import_results results =
    collection_block "imported-objects" "object" import_results results.
Proof.
  unfold Config.imported_objects_block, collection_block, try_except.
  destruct (py_getitem import_results _) as [parent|]; [|done].
  destruct (py_getitem parent _) as [[| | | |l|]|]; simpl; try done.
  by destruct (get_status_summary l).
Qed.

(** C1, amended: the three collection blocks of an import
    ([exec-script-results], [imported-files], [imported-objects]) apply
    one rule.  A member that is a list of entries with status labels is
    reported as that list, in its order, under [detail], with a summary
    holding its length as [total] and its status counts; a member that
    is not a list (a single object) is reported as that object itself,
    unchanged and not wrapped into a sequence. *)
Theorem collection_blocks_rule import_results results :
  (Config.exec_script_results_block import_results results =
     collection_block "exec-script-results" "cfg-result" import_results results
   ∧ Config.imported_files_block import_results results =
       collection_block "imported-files" "file" import_results results
   ∧ Config.imported_objects_block import_results results =
       collection_block "imported-objects" "object" import_results results)
  ∧ ∀ label member parent raw,
      py_getitem import_results label = Ret parent →
      py_getitem parent member = Ret raw →
      (∀ l, raw = PList l → Forall has_status l →
         ∃ s, get_status_summary l = Ret s
            ∧ sum_values s = length l
            ∧ collection_block label member import_results results =
                results ++
                [PDict [(PStr label,
                         PDict [(PStr "summary",
                                 PDict [(PStr "total", PInt (Z.of_nat (length l)));
                                        (PStr "status", summary_to_py s)]);
                                (PStr "detail", PList l)])]])
      ∧ (is_list raw = false →
         collection_block label member import_results results =
           results ++ [PDict [(PStr label, raw)]]).
Proof.
  split.
  - auto using block_rule_exec, block_rule_files, block_rule_objects.
  - intros label member parent raw Hparent Hraw. split.
    + intros l -> Hl.
      destruct (summary_loop_spec l Hl [] (λ _, 0)) as (s & Hs & _ & Hsum & _); [done|].
      exists s. split; [done|]. split; [done|].
      unfold collection_block. rewrite Hparent, Hraw.
      unfold get_status_summary. by rewrite Hs.
    + intros Hnl. unfold collection_block. rewrite Hparent, Hraw.
      by destruct raw.
Qed.

(** ** Runs on sample devices *)

Lemma sample_domain_exists (dev : device) (answers : list (Z * string * pyval)) w :
  dev = scripted ((200%Z, "OK", domains_body) :: answers) w false →
  @domain_exists sample_lib dev "test".
Proof.
  intros ->. exists domains_body, [PStr "default"; PStr "test"].
  repeat split; reflexivity.
Qed.

Lemma collection_blocks_rule_witness :
  collection_block "imported-files" "file"
    (files_results (PList sample_entries)) [] =
    [PDict [(PStr "imported-files",
             PDict [(PStr "summary",
                     PDict [(PStr "total", PInt 3);
                            (PStr "status",
                             PDict [(PStr "ok", PInt 2); (PStr "error", PInt 1)])]);
                    (PStr "detail", PList sample_entries)])]]
  ∧ collection_block "imported-files" "file" (files_results one_object) [] =
      [PDict [(PStr "imported-files", one_object)]].
Proof.
  destruct (collection_blocks_rule (files_results (PList sample_entries)) [])
    as [_ Hlist].
  destruct (Hlist "imported-files" "file" _ _ eq_refl eq_refl) as [Hl _].
  destruct (Hl sample_entries eq_refl) as (s & Hs & _ & Hblock).
  { repeat constructor; eexists; split; reflexivity. }
  destruct (collection_blocks_rule (files_results one_object) []) as [_ Hone].
  destruct (Hone "imported-files" "file" _ _ eq_refl eq_refl) as [_ Hraw].
  split.
  - rewrite Hblock. injection Hs as <-. reflexivity.
  - apply Hraw. reflexivity.
Defined.

(** C1 as stated fails: a single object is reported as it is, not as a
    sequence of one element. *)
Lemma single_object_not_wrapped :
  Config.imported_files_block (files_results one_object) [] =
    [PDict [(PStr "imported-files", one_object)]]
  ∧ Config.imported_files_block (files_results one_object) [] ≠
      [PDict [(PStr "imported-files", PList [one_object])]].
Proof. split; [reflexivity|discriminate]. Qed.

Lemma sample_detail_fetched (st : Chkpoint.state_t) detail :
  @chk_detail_fetched sample_lib (dev_async detail) (chk_params st "test" "cp1")
    sample_href detail.
Proof.
  split; [by eapply sample_domain_exists|].
  exists (PStr "Completed"). split; [done|]. exists accepted_body.
  destruct st; repeat split; reflexivity.
Qed.

Lemma present_already_exists_witness :
  ∃ r,
    @Chkpoint.main sample_lib
      (dev_async (error_detail (PList [PStr (Chkpoint.already_exists "cp1")])))
      (chk_params Chkpoint.present "test" "cp1")
    = (ExitJson r,
       @chk_async_trace sample_lib (chk_params Chkpoint.present "test" "cp1") sample_href)
    ∧ r !! "changed" = Some (PBool false)
    ∧ r !! "msg" = Some (PStr (@IMMUTABLE_MESSAGE sample_lib))
    ∧ r !! "failed" = None.
Proof.
  destruct (@present_already_exists sample_lib
              (dev_async (error_detail (PList [PStr (Chkpoint.already_exists "cp1")])))
              (chk_params Chkpoint.present "test" "cp1") sample_href
              (error_detail (PList [PStr (Chkpoint.already_exists "cp1")]))
              (PList [PStr (Chkpoint.already_exists "cp1")]) "cp1")
    as (r & Hmain & Hchanged & [(_ & Hmsg & Hfailed)|(Hne & _)]).
  - apply sample_detail_fetched.
  - reflexivity.
  - reflexivity.
  - reflexivity.
  - left. reflexivity.
  - exists r. rewrite Hfailed. repeat split; done.
  - by destruct Hne.
Defined.

(** C4 as stated fails: the message about another checkpoint, whose name
    ends like the phrase itself, passes the test for the requested name
    and is reported as already in the desired state. *)
Lemma other_name_taken_as_same :
  odd_name ≠ "cp1"
  ∧ ∃ r tr,
      @Chkpoint.main sample_lib
        (dev_async (error_detail (PStr (Chkpoint.already_exists odd_name))))
        (chk_params Chkpoint.present "test" "cp1")
      = (ExitJson r, tr)
      ∧ r !! "msg" = Some (PStr (@IMMUTABLE_MESSAGE sample_lib))
      ∧ r !! "failed" = None.
Proof.
  split; [discriminate|].
  eexists _, _. split; [vm_compute; reflexivity|]. split; reflexivity.
Qed.

Lemma absent_cannot_find_witness :
  ∃ r,
    @Chkpoint.main sample_lib (dev_answer 400 "Bad Request" cannot_find_body)
      (chk_params Chkpoint.absent "test" "cp1")
    = (ExitJson r,
       [@domain_list_call sample_lib;
        @post_call sample_lib "/mgmt/actionqueue/{0} <- test"
          (@Chkpoint.remove_act_msg (chk_params Chkpoint.absent "test" "cp1"))])
    ∧ r !! "msg" = Some (PStr (@IMMUTABLE_MESSAGE sample_lib))
    ∧ r !! "changed" = Some (PBool false)
    ∧ r !! "failed" = None.
Proof.
  destruct (@absent_cannot_find sample_lib (dev_answer 400 "Bad Request" cannot_find_body)
              (chk_params Chkpoint.absent "test" "cp1") cannot_find_body
              (PStr ("Bad request: " +:+ Chkpoint.cannot_find "cp1"
                     +:+ " (RemoveCheckpoint)")))
    as (r & Hmain & Hmsg & _ & _ & Hseed).
  - by eapply sample_domain_exists.
  - reflexivity.
  - reflexivity.
  - reflexivity.
  - reflexivity.
  - left. by exists "Bad request: ", " (RemoveCheckpoint)".
  - destruct Hseed as [Hchanged Hfailed]; [split; reflexivity|].
    exists r. repeat split; done.
Defined.

(** C5 as stated fails: a 400 whose reason is not [Bad Request] is not
    looked into; the invocation ends in [fail_json]. *)
Lemma bad_request_needs_its_reason :
  ∃ m,
    @Chkpoint.main sample_lib (dev_answer 400 "" cannot_find_body)
      (chk_params Chkpoint.absent "test" "cp1")
    = (FailJson m,
       [@domain_list_call sample_lib;
        @post_call sample_lib "/mgmt/actionqueue/{0} <- test"
          (@Chkpoint.remove_act_msg (chk_params Chkpoint.absent "test" "cp1"))]).
Proof. eexists. vm_compute. reflexivity. Qed.

Lemma accepted_action_is_polled_witness :
  (∃ rest,
     (@Chkpoint.main sample_lib (dev_async (error_detail PNone))
        (chk_params Chkpoint.restored "test" "cp1")).2
     = [@domain_list_call sample_lib;
        @post_call sample_lib "/mgmt/actionqueue/{0} <- test"
          (@Chkpoint.rollback_act_msg (chk_params Chkpoint.restored "test" "cp1"))]
       ++ WaitForActionEnd "/mgmt/actionqueue/{0} <- test" sample_href "restored" :: rest)
  ∧ (∃ m,
       @Config.main sample_lib (dev_answer 202 "Accepted" (PDict []))
         (cfg_params Config.reseted "test")
       = (FailJson m,
          [@domain_list_call sample_lib]
          ++ [@post_call sample_lib "/mgmt/actionqueue/{0} <- test" Config.reset_act_msg])).
Proof.
  split.
  - destruct (@accepted_action_is_polled sample_lib (dev_async (error_detail PNone)))
      as [Hchk _].
    destruct (Hchk (chk_params Chkpoint.restored "test" "cp1") "Accepted" accepted_body)
      as [Hpoll _].
    + by eapply sample_domain_exists.
    + reflexivity.
    + reflexivity.
    + apply Hpoll; reflexivity.
  - destruct (@accepted_action_is_polled sample_lib (dev_answer 202 "Accepted" (PDict [])))
      as [_ Hcfg].
    destruct (Hcfg (cfg_params Config.reseted "test") [@domain_list_call sample_lib]
                Config.reset_act_msg "Accepted" (PDict []))
      as (_ & Hnolink & _).
    + by eapply sample_domain_exists.
    + reflexivity.
    + reflexivity.
    + reflexivity.
    + reflexivity.
    + apply (Hnolink (KeyError "_links")). reflexivity.
Defined.

(** C6 as stated fails: a 202 whose reason is not [Accepted] is not
    polled although its body has a location link; the invocation ends in
    [fail_json] right after the action. *)
Lemma accepted_needs_its_reason :
  location_href accepted_body = Ret sample_href
  ∧ ∃ m,
      @Chkpoint.main sample_lib (dev_answer 202 "" accepted_body)
        (chk_params Chkpoint.present "test" "cp1")
      = (FailJson m,
         [@domain_list_call sample_lib;
          @post_call sample_lib "/mgmt/actionqueue/{0} <- test"
            (@Chkpoint.save_act_msg (chk_params Chkpoint.present "test" "cp1"))]).
Proof. split; [reflexivity|]. eexists. vm_compute. reflexivity. Qed.

Lemma sample_import_fetched detail :
  @cfg_detail_fetched sample_lib (dev_async detail) (cfg_params Config.imported "test")
    [@domain_list_call sample_lib]
    (@Config.import_action_msg sample_lib (cfg_params Config.imported "test"))
    sample_href (PStr "Completed") detail.
Proof.
  split; [by eapply sample_domain_exists|].
  split; [reflexivity|]. split; [reflexivity|]. split; [reflexivity|].
  exists accepted_body. repeat split; reflexivity.
Qed.

Lemma error_detail_not_changed_witness :
  (∃ r tr,
     @Chkpoint.main sample_lib (dev_async (error_detail (PStr "No such checkpoint")))
       (chk_params Chkpoint.absent "test" "cp1") = (ExitJson r, tr)
     ∧ r !! "changed" = Some (PBool false)
     ∧ r !! "failed" = Some (PBool true))
  ∧ (∃ r tr,
       @Chkpoint.main sample_lib
         (dev_async (error_detail (PList [PStr (Chkpoint.already_exists "cp1")])))
         (chk_params Chkpoint.present "test" "cp1") = (ExitJson r, tr)
       ∧ r !! "changed" = Some (PBool false)
       ∧ r !! "msg" = Some (PStr (@IMMUTABLE_MESSAGE sample_lib)))
  ∧ (∃ r tr,
       @Config.main sample_lib
         (dev_async (import_detail (PDict [(PStr "error", PStr "0x00d30003")])))
         (cfg_params Config.imported "test") = (ExitJson r, tr)
       ∧ r !! "changed" = Some (PBool false)
       ∧ r !! "failed" = Some (PBool true)).
Proof.
  split; [|split].
  - destruct (@error_detail_not_changed sample_lib
                (dev_async (error_detail (PStr "No such checkpoint")))) as [Hchk _].
    destruct (Hchk (chk_params Chkpoint.absent "test" "cp1") sample_href
                (error_detail (PStr "No such checkpoint")) (PStr "error"))
      as [(m & Hfail)|(r & Hmain & Hchanged & [[Hfailed _]|([Hst _] & _)])].
    + apply sample_detail_fetched.
    + reflexivity.
    + reflexivity.
    + discriminate Hfail.
    + eexists r, _. split; [exact Hmain|]. by split.
    + discriminate Hst.
  - destruct (@error_detail_not_changed sample_lib
                (dev_async (error_detail (PList [PStr (Chkpoint.already_exists "cp1")]))))
      as [Hchk _].
    destruct (Hchk (chk_params Chkpoint.present "test" "cp1") sample_href
                (error_detail (PList [PStr (Chkpoint.already_exists "cp1")]))
                (PStr "error"))
      as [(m & Hfail)|(r & Hmain & Hchanged & [[_ Hno]|(_ & Hmsg & _)])].
    + apply sample_detail_fetched.
    + reflexivity.
    + reflexivity.
    + discriminate Hfail.
    + destruct Hno. split; [reflexivity|]. eexists. split; reflexivity.
    + eexists r, _. split; [exact Hmain|]. by split.
  - destruct (@error_detail_not_changed sample_lib
                (dev_async (import_detail (PDict [(PStr "error", PStr "0x00d30003")]))))
      as [_ Hcfg].
    destruct (Hcfg (cfg_params Config.imported "test") _ _ _ _ _
                (PDict [(PStr "detected-errors", PDict [(PStr "error", PStr "0x00d30003")]);
                        (PStr "export-details", PDict [])])
                (PDict [(PStr "error", PStr "0x00d30003")])
                (sample_import_fetched _))
      as [(m & Hfail)|(r & Hmain & Hchanged & Hfailed)].
    + reflexivity.
    + reflexivity.
    + reflexivity.
    + reflexivity.
    + discriminate Hfail.
    + eexists r, _. split; [exact Hmain|]. by split.
Defined.

(** C2 as stated fails: in the configuration module the status of the
    fetched result is not inspected, so a reset whose result has status
    [error] is reported as changed; and an action answered 200 OK at
    once is reported as changed whatever its body says. *)
Lemma error_status_reported_as_changed :
  (∃ r tr,
     @Config.main sample_lib (dev_polled "Error" (error_detail (PStr "Reset failed")))
       (cfg_params Config.reseted "test") = (ExitJson r, tr)
     ∧ r !! "changed" = Some (PBool true)
     ∧ r !! "msg" = Some (PStr "Error")
     ∧ r !! "failed" = None)
  ∧ (∃ r tr,
       @Chkpoint.main sample_lib
         (dev_answer 200 "OK"
            (PDict [(PStr "status", PStr "error"); (PStr "SaveCheckpoint", PStr "failed")]))
         (chk_params Chkpoint.present "test" "cp1") = (ExitJson r, tr)
       ∧ r !! "changed" = Some (PBool true)
       ∧ r !! "failed" = None).
Proof.
  split; eexists _, _; (split; [vm_compute; reflexivity|]); repeat split; reflexivity.
Qed.

(** ** Nothing is requested before the domain is known to exist *)

Section Order.
Context `{!idg_lib} `{!device}.

Lemma is_http_true code msg c m :
  is_http code msg c m = true → code = c ∧ msg = m.
Proof.
  unfold is_http. intros [Hc Hm]%andb_true_iff.
  split; [by apply Z.eqb_eq|by apply String.eqb_eq].
Qed.

Lemma chk_requests_after_check (p : Chkpoint.params) :
  ∃ rest, (Chkpoint.main p).2 = domain_list_call :: rest
        ∧ (rest ≠ [] → domain_exists (Chkpoint.domain p)).
Proof.
  unfold Chkpoint.main, run_main, Chkpoint.body, domain_exists. run.
  destruct (api_call [] (PStr URI_DOMAIN_LIST) "GET" None) as [[[c m] d]|e|h] eqn:H1;
    simpl; [|by eexists..].
  destruct (is_http c m 200 "OK") eqn:Hok; simpl; [|by eexists].
  apply is_http_true in Hok as [-> ->].
  destruct (configured_domains d) as [domains|e] eqn:H2; simpl; [|by eexists].
  destruct (domain_in (Chkpoint.domain p) domains) eqn:H3; simpl; [|by eexists].
  assert (∀ x : step (gmap string pyval) * list call,
            (∃ rest, x.2 = domain_list_call :: rest) →
            ∃ rest,
              (let (s, tr) := x in
               match s with
               | Val tmp_result => (ExitJson (update_result tmp_result result), tr)
               | Exc e => (FailJson (format (UNCONTROLLED_EXCEPTION +:+ ". {0}")
                                       [to_native e]), tr)
               | Halt h => (h, tr)
               end).2 = domain_list_call :: rest
              ∧ (rest ≠ [] → ∃ chk_data domains0,
                   Val (200%Z, "OK", d) = Val (200%Z, "OK", chk_data)
                   ∧ configured_domains chk_data = Ret domains0
                   ∧ domain_in (Chkpoint.domain p) domains0 = true)) as Hwrap.
  { intros [s tr] [rest Hrest]. exists rest. split; [by destruct s|].
    intros _. by exists d, domains. }
  apply Hwrap. unfold domain_list_call.
  destruct (Chkpoint.state p);
    unfold Chkpoint.do_present, Chkpoint.do_absent, Chkpoint.do_restored; run;
    split_run; by eexists.
Qed.

Lemma cfg_requests_after_check (p : Config.params) :
  ∃ rest, (Config.main p).2 = domain_list_call :: rest
        ∧ (rest ≠ [] → domain_exists (Config.name p)).
Proof.
  unfold Config.main, run_main, Config.body, domain_exists. run.
  destruct (api_call [] (PStr URI_DOMAIN_LIST) "GET" None) as [[[c m] d]|e|h] eqn:H1;
    simpl; [|by eexists..].
  destruct (is_http c m 200 "OK") eqn:Hok; simpl; [|by eexists].
  apply is_http_true in Hok as [-> ->].
  destruct (configured_domains d) as [domains|e] eqn:H2; simpl; [|by eexists].
  destruct (domain_in (Config.name p) domains) eqn:H3; simpl; [|by eexists].
  assert (∀ x : step (gmap string pyval) * list call,
            (∃ rest, x.2 = domain_list_call :: rest) →
            ∃ rest,
              (let (s, tr) := x in
               match s with
               | Val tmp_result => (ExitJson (update_result tmp_result result), tr)
               | Exc e => (FailJson (format (UNCONTROLLED_EXCEPTION +:+ ". {0}")
                                       [to_native e]), tr)
               | Halt h => (h, tr)
               end).2 = domain_list_call :: rest
              ∧ (rest ≠ [] → ∃ chk_data domains0,
                   Val (200%Z, "OK", d) = Val (200%Z, "OK", chk_data)
                   ∧ configured_domains chk_data = Ret domains0
                   ∧ domain_in (Config.name p) domains0 = true)) as Hwrap.
  { intros [s tr] [rest Hrest]. exists rest. split; [by destruct s|].
    intros _. by exists d, domains. }
  apply Hwrap. unfold domain_list_call.
  destruct (Config.state p);
    unfold Config.do_exported, Config.do_imported, Config.do_reseted, Config.do_saved,
      Config.do_stored; run; split_run; by eexists.
Qed.

(** C7: when the domain list was read and does not name the requested
    domain, the checkpoint and the configuration module both end in
    [fail_json] with the message built from [ERROR_REACH_STATE] and
    [ERROR_NOT_DOMAIN] for the requested state and domain, and the only
    request ever made is the one for the domain list.  In every
    invocation of the two modules that request comes first, and any
    further request (an action among them) is made only after the
    domain list was read and named the domain: the check is made once,
    before any action. *)
Theorem domain_must_exist :
  (∀ chk_data domains,
     api_call [] (PStr URI_DOMAIN_LIST) "GET" None = Val (200%Z, "OK", chk_data) →
     configured_domains chk_data = Ret domains →
     (∀ p : Chkpoint.params,
        domain_in (Chkpoint.domain p) domains = false →
        Chkpoint.main p =
          (FailJson (format (ERROR_REACH_STATE +:+ " " +:+ ERROR_NOT_DOMAIN)
                       [Chkpoint.state_str (Chkpoint.state p); Chkpoint.domain p]),
           [domain_list_call]))
     ∧ (∀ p : Config.params,
          domain_in (Config.name p) domains = false →
          Config.main p =
            (FailJson (format (ERROR_REACH_STATE +:+ " " +:+ ERROR_NOT_DOMAIN)
                         [Config.state_str (Config.state p); Config.name p]),
             [domain_list_call])))
  ∧ (∀ p : Chkpoint.params,
       ∃ rest, (Chkpoint.main p).2 = domain_list_call :: rest
             ∧ (rest ≠ [] → domain_exists (Chkpoint.domain p)))
  ∧ (∀ p : Config.params,
       ∃ rest, (Config.main p).2 = domain_list_call :: rest
             ∧ (rest ≠ [] → domain_exists (Config.name p))).
Proof.
  split; [|split].
  - apply domain_missing.
  - apply chk_requests_after_check.
  - apply cfg_requests_after_check.
Qed.
End Order.

Lemma domain_must_exist_witness :
  (∃ msg, @Chkpoint.main sample_lib dev_domains_only
            (chk_params Chkpoint.present "prod" "cp1")
          = (FailJson msg, [@domain_list_call sample_lib]))
  ∧ (∃ msg, @Config.main sample_lib dev_domains_only (cfg_params Config.reseted "prod")
            = (FailJson msg, [@domain_list_call sample_lib]))
  ∧ @domain_exists sample_lib (dev_async (error_detail PNone)) "test".
Proof.
  destruct (@domain_must_exist sample_lib dev_domains_only) as [Hmissing _].
  destruct (Hmissing domains_body [PStr "default"; PStr "test"] eq_refl eq_refl)
    as [Hchk Hcfg].
  destruct (@domain_must_exist sample_lib (dev_async (error_detail PNone)))
    as (_ & Horder & _).
  destruct (Horder (chk_params Chkpoint.absent "test" "cp1")) as (rest & Htrace & Hex).
  split; [|split].
  - eexists. apply Hchk. reflexivity.
  - eexists. apply Hcfg. reflexivity.
  - apply Hex. vm_compute in Htrace. injection Htrace as <-. discriminate.
Defined.

(** * Further properties of the modules *)

#[local] Set Warnings "-unused-intro-pattern".

(** ** The domain list *)

Section DomainList.
Context `{!idg_lib} `{!device}.

(** X1: when the request for the domain list is answered by anything
    but 200 OK, the checkpoint and the configuration module end in
    [fail_json] with [ERROR_GET_DOMAIN_LIST], whatever the state, and
    nothing else is requested. *)
Theorem domain_list_not_ok code msg data :
  api_call [] (PStr URI_DOMAIN_LIST) "GET" None = Val (code, msg, data) →
  is_http code msg 200 "OK" = false →
  (∀ p : Chkpoint.params,
     Chkpoint.main p = (FailJson ERROR_GET_DOMAIN_LIST, [domain_list_call]))
  ∧ (∀ p : Config.params,
       Config.main p = (FailJson ERROR_GET_DOMAIN_LIST, [domain_list_call])).
Proof.
  intros H1 Hno. split; intros p.
  - unfold Chkpoint.main, run_main, Chkpoint.body. run. rewrite H1. simpl.
    by rewrite Hno.
  - unfold Config.main, run_main, Config.body. run. rewrite H1. simpl.
    by rewrite Hno.
Qed.

(** X2: when the domain list is answered 200 OK but the configured
    domains cannot be read from its body (no [domain] member, a member
    without [name], a body of another shape), the exception reaches the
    outer handler: each of the three modules ends in [fail_json] with
    the uncontrolled-exception message, after that one request.  A body
    that is a dict without [domain] raises [KeyError]. *)
Theorem domain_list_unreadable data e :
  api_call [] (PStr URI_DOMAIN_LIST) "GET" None = Val (200%Z, "OK", data) →
  configured_domains data = Raise e →
  (∀ p : Chkpoint.params, Chkpoint.main p = (FailJson (uncontrolled e), [domain_list_call]))
  ∧ (∀ p : Config.params, Config.main p = (FailJson (uncontrolled e), [domain_list_call]))
  ∧ Discovery.main = (FailJson (uncontrolled e), [domain_list_call])
  ∧ (∀ kvs, data = PDict kvs → dict_get (PStr "domain") kvs = None →
            e = KeyError "domain").
Proof.
  intros H1 H2. split; [|split; [|split]].
  - intros p. unfold Chkpoint.main, run_main, Chkpoint.body. run. rewrite H1. simpl.
    by rewrite H2.
  - intros p. unfold Config.main, run_main, Config.body. run. rewrite H1. simpl.
    by rewrite H2.
  - unfold Discovery.main, run_main, Discovery.body. run. rewrite H1. simpl.
    by rewrite H2.
  - intros kvs -> Hk. unfold configured_domains in H2. simpl in H2.
    rewrite Hk in H2. simpl in H2. congruence.
Qed.
End DomainList.

(** ** What an invocation never does *)

Section Never.
Context `{!idg_lib} `{!device}.

Ltac explore :=
  unfold Chkpoint.main, Config.main, Discovery.main, run_main,
    Chkpoint.body, Config.body, Discovery.body; run;
  repeat match goal with
         | |- context [Chkpoint.state ?p] => destruct (Chkpoint.state p)
         | |- context [Config.state ?p] => destruct (Config.state p)
         end;
  unfold Chkpoint.do_present, Chkpoint.do_absent, Chkpoint.do_restored,
    Config.do_exported, Config.do_imported, Config.do_reseted, Config.do_saved,
    Config.do_stored; run; split_run.

(** X3: no retries.  Whatever the device answers, an invocation of the
    checkpoint module submits at most one action and waits at most once,
    within four requests in all; an invocation of the configuration
    module submits at most one action or file and waits at most once,
    within five requests; an invocation of the discovery module makes
    exactly one request, a read. *)
Theorem at_most_one_submission :
  (∀ p : Chkpoint.params,
     let tr := (Chkpoint.main p).2 in
     submissions tr ≤ 1 ∧ waits tr ≤ 1 ∧ length tr ≤ 4)
  ∧ (∀ p : Config.params,
       let tr := (Config.main p).2 in
       submissions tr ≤ 1 ∧ waits tr ≤ 1 ∧ length tr ≤ 5)
  ∧ Discovery.main.2 = [domain_list_call].
Proof.
  split; [|split].
  - intros p. explore; simpl; lia.
  - intros p. explore; simpl; lia.
  - explore; reflexivity.
Qed.

(** X4: in check mode nothing is submitted.  Every request of an
    invocation of the checkpoint or the configuration module is then a
    read; and when the domain exists, the checkpoint module exits
    through [exit_json] with the shared record as it was, right after
    the domain list. *)
Theorem check_mode_only_reads :
  check_mode = true →
  (∀ p : Chkpoint.params, Forall (λ c, is_get c = true) (Chkpoint.main p).2)
  ∧ (∀ p : Config.params, Forall (λ c, is_get c = true) (Config.main p).2)
  ∧ (∀ p : Chkpoint.params, domain_exists (Chkpoint.domain p) →
       Chkpoint.main p = (ExitJson result, [domain_list_call])).
Proof.
  intros Hcm. split; [|split].
  - intros p. unfold Chkpoint.main, run_main, Chkpoint.body,
      Chkpoint.do_present, Chkpoint.do_absent, Chkpoint.do_restored. run.
    rewrite Hcm. split_run; repeat constructor.
  - intros p. unfold Config.main, run_main, Config.body,
      Config.do_exported, Config.do_imported, Config.do_reseted, Config.do_saved,
      Config.do_stored. run.
    rewrite Hcm. split_run; repeat constructor.
  - intros p (chk_data & domains & H1 & H2 & H3).
    unfold Chkpoint.main, run_main, Chkpoint.body. run.
    rewrite H1. simpl. rewrite H2. simpl. rewrite H3.
    unfold Chkpoint.do_present, Chkpoint.do_absent, Chkpoint.do_restored. run.
    rewrite Hcm. by destruct (Chkpoint.state p).
Qed.
End Never.

(** ** How an action ends *)

Section Outcomes.
Context `{!idg_lib} `{!device}.

(** X5: in the checkpoint module, whatever the state, when the fetched
    result of the action has a status other than [error], the invocation
    exits through [exit_json] with [changed] true and the capitalised
    status as [msg] (stated for a status in ASCII, where [capitalize] is
    Python's); [failed] is not written and [name] and [domain] are the
    requested ones.  A status that is not a string ends the invocation
    in [fail_json] ([AttributeError]). *)
Theorem checkpoint_action_completed (p : Chkpoint.params) href detail status :
  chk_detail_fetched p href detail →
  py_getitem detail "status" = Ret status →
  eq_str status "error" = false →
  (∀ s, status = PStr s → ascii_only s = true →
     ∃ r, Chkpoint.main p = (ExitJson r, chk_async_trace p href)
        ∧ r !! "changed" = Some (PBool true)
        ∧ r !! "msg" = Some (PStr (capitalize s))
        ∧ r !! "failed" = result !! "failed"
        ∧ r !! "name" = Some (PStr (Chkpoint.name p))
        ∧ r !! "domain" = Some (PStr (Chkpoint.domain p)))
  ∧ ((∀ s, status ≠ PStr s) →
     Chkpoint.main p = (FailJson (uncontrolled AttributeError), chk_async_trace p href)).
Proof.
  intros Hfetched Hstatus Hne.
  rewrite (chk_async_run p href detail Hfetched). unfold chk_outcome.
  split.
  - intros s -> _. simpl in Hne.
    destruct (Chkpoint.state p);
      unfold Chkpoint.present_outcome, Chkpoint.absent_outcome,
        Chkpoint.restored_outcome;
      rewrite Hstatus; simpl; rewrite Hne; simpl;
      eexists; (split; [reflexivity|]); unfold Chkpoint.tmp_result;
      repeat split; lookups.
  - intros Hns.
    destruct (Chkpoint.state p);
      unfold Chkpoint.present_outcome, Chkpoint.absent_outcome,
        Chkpoint.restored_outcome;
      rewrite Hstatus; simpl; rewrite Hne; simpl;
      destruct status; simpl; try done; by destruct (Hns s).
Qed.

(** X6: when an accepted action was waited for and the fetch of its
    result is answered by anything but 200 OK, the invocation ends in
    [fail_json] with [ERROR_RETRIEVING_RESULT] for the state and the
    domain, in every state of the checkpoint module and for every action
    of the configuration module. *)
Theorem result_fetch_refused :
  (∀ (p : Chkpoint.params) href,
     domain_exists (Chkpoint.domain p) →
     detail_refused [domain_list_call] (Chkpoint.action_uri p) (chk_payload p)
       (Chkpoint.state_str (Chkpoint.state p)) href →
     Chkpoint.main p =
       (FailJson (format ERROR_RETRIEVING_RESULT
                    [Chkpoint.state_str (Chkpoint.state p); Chkpoint.domain p]),
        chk_async_trace p href))
  ∧ (∀ (p : Config.params) pre payload href,
       domain_exists (Config.name p) →
       cfg_before_post p pre →
       cfg_payload p = Some payload →
       detail_refused pre (Config.action_uri p) payload
         (Config.state_str (Config.state p)) href →
       Config.main p =
         (FailJson (format ERROR_RETRIEVING_RESULT
                      [Config.state_str (Config.state p); Config.name p]),
          pre ++ async_calls (Config.action_uri p) payload
                   (Config.state_str (Config.state p)) href)).
Proof.
  split.
  - intros p href (chk_data & domains & H1 & H2 & H3)
      (Hcm & data & ar & code & msg & body & Hpost & Hhref & Hwait & Hget & Hno).
    unfold Chkpoint.main, run_main, Chkpoint.body. run.
    rewrite H1. simpl. rewrite H2. simpl. rewrite H3.
    unfold chk_async_trace, chk_payload, async_calls, post_call, domain_list_call in *.
    destruct (Chkpoint.state p) eqn:Hst; simpl in *;
      unfold Chkpoint.do_present, Chkpoint.do_absent, Chkpoint.do_restored; run;
      rewrite Hcm; simpl; rewrite Hpost; simpl; rewrite Hhref; simpl;
      rewrite Hst; simpl; rewrite Hwait; simpl; rewrite Hget; simpl;
      by rewrite Hno.
  - intros p pre payload href (chk_data & domains & H1 & H2 & H3) Hpre Hpay
      (Hcm & data & ar & code & msg & body & Hpost & Hhref & Hwait & Hget & Hno).
    unfold Config.main, run_main, Config.body. run.
    rewrite H1. simpl. rewrite H2. simpl. rewrite H3.
    unfold cfg_before_post, cfg_payload, async_calls, post_call,
      domain_list_call, domain_status_call in *.
    destruct (Config.state p) eqn:Hst; try done; injection Hpay as <-;
      [subst pre..|destruct Hpre as (qds_data & save_needed & Hq & Hsn & Hoff & ->)];
      simpl in *;
      unfold Config.do_exported, Config.do_imported, Config.do_reseted, Config.do_saved;
      run; rewrite ?Hq; simpl; rewrite ?Hsn; simpl; rewrite ?Hoff; simpl;
      rewrite Hcm; simpl; rewrite Hpost; simpl; rewrite Hhref; simpl;
      rewrite Hst; simpl; rewrite Hwait; simpl; rewrite Hget; simpl;
      by rewrite Hno.
Qed.

(** X7: an action answered at once with 200 OK is taken as done: the
    result has [changed] true and as [msg] the status text of the member
    of the body named after the action ([SaveCheckpoint],
    [RemoveCheckpoint], [RollbackCheckpoint], [Export],
    [ResetThisDomain], [SaveConfig], [Import]); nothing is waited for or
    fetched.  A body without that member ends the invocation in
    [fail_json]. *)
Theorem action_done_at_once :
  (∀ (p : Chkpoint.params) data,
     domain_exists (Chkpoint.domain p) →
     check_mode = false →
     api_call [domain_list_call] (PStr (Chkpoint.action_uri p)) "POST"
       (Some (json_dumps (chk_payload p))) = Val (200%Z, "OK", data) →
     Chkpoint.main p =
       finish (sync_outcome (Chkpoint.tmp_result p) (chk_action_name p) data)
         [domain_list_call; post_call (Chkpoint.action_uri p) (chk_payload p)])
  ∧ (∀ (p : Config.params) pre payload data,
       domain_exists (Config.name p) →
       cfg_before_post p pre →
       cfg_payload p = Some payload →
       check_mode = false →
       api_call pre (PStr (Config.action_uri p)) "POST" (Some (json_dumps payload))
         = Val (200%Z, "OK", data) →
       Config.main p =
         finish (sync_outcome (Config.tmp_result p) (cfg_action_name p) data)
           (pre ++ [post_call (Config.action_uri p) payload]))
  ∧ (∀ tmp member data,
       (∀ msg, py_getitem data member ≫= status_text = Ret msg →
          sync_outcome tmp member data =
            Ret (<["changed":=PBool true]> (<["msg":=msg]> tmp)))
       ∧ (∀ kvs, data = PDict kvs → dict_get (PStr member) kvs = None →
            sync_outcome tmp member data = Raise (KeyError member))).
Proof.
  split; [|split].
  - intros p data (chk_data & domains & H1 & H2 & H3) Hcm Hpost.
    unfold Chkpoint.main, run_main, Chkpoint.body. run.
    rewrite H1. simpl. rewrite H2. simpl. rewrite H3.
    unfold chk_payload, chk_action_name, sync_outcome, post_call, domain_list_call in *.
    destruct (Chkpoint.state p) eqn:Hst; simpl in *;
      unfold Chkpoint.do_present, Chkpoint.do_absent, Chkpoint.do_restored; run;
      rewrite Hcm; simpl; rewrite Hpost; simpl;
      match goal with
      | |- context [py_getitem data ?k] =>
          destruct (py_getitem data k) as [v|]; simpl; [destruct (status_text v)|]; done
      end.
  - intros p pre payload data (chk_data & domains & H1 & H2 & H3) Hpre Hpay Hcm Hpost.
    unfold Config.main, run_main, Config.body. run.
    rewrite H1. simpl. rewrite H2. simpl. rewrite H3.
    unfold cfg_before_post, cfg_payload, cfg_action_name, sync_outcome, post_call,
      domain_list_call, domain_status_call in *.
    destruct (Config.state p) eqn:Hst; try done; injection Hpay as <-;
      [subst pre..|destruct Hpre as (qds_data & save_needed & Hq & Hsn & Hoff & ->)];
      simpl in *;
      unfold Config.do_exported, Config.do_imported, Config.do_reseted, Config.do_saved;
      run; rewrite ?Hq; simpl; rewrite ?Hsn; simpl; rewrite ?Hoff; simpl;
      rewrite Hcm; simpl; rewrite Hpost; simpl;
      match goal with
      | |- context [py_getitem data ?k] =>
          destruct (py_getitem data k) as [v|]; simpl; [destruct (status_text v)|]; done
      end.
  - intros tmp member data. unfold sync_outcome. split.
    + by intros msg ->.
    + intros kvs -> Hk. simpl. by rewrite Hk.
Qed.
End Outcomes.

(** ** Actions that are turned down *)

Section Rejected.
Context `{!idg_lib} `{!device}.

(** X8: an action answered by something that is neither 202 Accepted
    nor 200 OK (nor, for [absent], 400 Bad Request) ends the invocation
    in [fail_json] right after it.  The message is
    [ERROR_ACCEPTING_ACTION] for the state and the domain, except that
    [saved] reports [ERROR_RETRIEVING_RESULT] and [imported] appends the
    action message it had sent. *)
Theorem action_turned_down :
  (∀ (p : Chkpoint.params) code msg data,
     domain_exists (Chkpoint.domain p) →
     check_mode = false →
     api_call [domain_list_call] (PStr (Chkpoint.action_uri p)) "POST"
       (Some (json_dumps (chk_payload p))) = Val (code, msg, data) →
     is_http code msg 202 "Accepted" = false →
     is_http code msg 200 "OK" = false →
     (Chkpoint.state p = Chkpoint.absent → is_http code msg 400 "Bad Request" = false) →
     Chkpoint.main p =
       (FailJson (format ERROR_ACCEPTING_ACTION
                    [Chkpoint.state_str (Chkpoint.state p); Chkpoint.domain p]),
        [domain_list_call; post_call (Chkpoint.action_uri p) (chk_payload p)]))
  ∧ (∀ (p : Config.params) pre payload code msg data,
       domain_exists (Config.name p) →
       cfg_before_post p pre →
       cfg_payload p = Some payload →
       check_mode = false →
       api_call pre (PStr (Config.action_uri p)) "POST" (Some (json_dumps payload))
         = Val (code, msg, data) →
       is_http code msg 202 "Accepted" = false →
       is_http code msg 200 "OK" = false →
       Config.main p =
         (FailJson (cfg_rejection p), pre ++ [post_call (Config.action_uri p) payload])).
Proof.
  split.
  - intros p code msg data (chk_data & domains & H1 & H2 & H3) Hcm Hpost Ha Hok Hbad.
    unfold Chkpoint.main, run_main, Chkpoint.body. run.
    rewrite H1. simpl. rewrite H2. simpl. rewrite H3.
    unfold chk_payload, post_call, domain_list_call in *.
    destruct (Chkpoint.state p) eqn:Hst; simpl in *;
      unfold Chkpoint.do_present, Chkpoint.do_absent, Chkpoint.do_restored; run;
      rewrite Hcm; simpl; rewrite Hpost; simpl; rewrite Ha, Hok, ?Hbad by done;
      by rewrite ?Hst.
  - intros p pre payload code msg data (chk_data & domains & H1 & H2 & H3)
      Hpre Hpay Hcm Hpost Ha Hok.
    unfold Config.main, run_main, Config.body. run.
    rewrite H1. simpl. rewrite H2. simpl. rewrite H3.
    unfold cfg_before_post, cfg_payload, cfg_rejection, post_call,
      domain_list_call, domain_status_call in *.
    destruct (Config.state p) eqn:Hst; try done; injection Hpay as <-;
      [subst pre..|destruct Hpre as (qds_data & save_needed & Hq & Hsn & Hoff & ->)];
      simpl in *;
      unfold Config.do_exported, Config.do_imported, Config.do_reseted, Config.do_saved;
      run; rewrite ?Hq; simpl; rewrite ?Hsn; simpl; rewrite ?Hoff; simpl;
      rewrite Hcm; simpl; rewrite Hpost; simpl; rewrite Ha, Hok;
      by rewrite ?Hst.
Qed.

(** X9: with state [absent], when [RemoveCheckpoint] is answered 400 Bad
    Request and the error of the body does not hold the phrase about the
    requested checkpoint, the invocation exits through [exit_json] with
    [failed] true and the general error text as [msg]; [changed] is not
    written.  A body without [error], or an error in which nothing can
    be looked for, ends the invocation in [fail_json]. *)
Theorem absent_other_error (p : Chkpoint.params) rm_data :
  domain_exists (Chkpoint.domain p) →
  Chkpoint.state p = Chkpoint.absent →
  check_mode = false →
  api_call [domain_list_call] (PStr (Chkpoint.action_uri p)) "POST"
    (Some (json_dumps (Chkpoint.remove_act_msg p)))
    = Val (400%Z, "Bad Request", rm_data) →
  let posted :=
    [domain_list_call; post_call (Chkpoint.action_uri p) (Chkpoint.remove_act_msg p)] in
  (∀ error,
     py_getitem rm_data "error" = Ret error →
     py_in (Chkpoint.cannot_find (Chkpoint.name p)) error = Ret false →
     ∃ r, Chkpoint.main p = (ExitJson r, posted)
        ∧ r !! "failed" = Some (PBool true)
        ∧ r !! "msg" =
            Some (PStr (format GENERAL_ERROR
                          [Chkpoint.MODULE_FULLNAME; "absent"; Chkpoint.domain p]
                        +:+ ErrorHandler_str error))
        ∧ r !! "changed" = result !! "changed")
  ∧ (∀ e, py_getitem rm_data "error" = Raise e →
          Chkpoint.main p = (FailJson (uncontrolled e), posted))
  ∧ (∀ error, py_getitem rm_data "error" = Ret error →
       hashable error = true → (∀ s, error ≠ PStr s) →
       Chkpoint.main p = (FailJson (uncontrolled TypeError), posted)).
Proof.
  intros (chk_data & domains & H1 & H2 & H3) Hst Hcm Hpost posted. subst posted.
  unfold Chkpoint.main, run_main, Chkpoint.body. run.
  rewrite H1. simpl. rewrite H2. simpl. rewrite H3, Hst.
  unfold Chkpoint.do_absent, post_call, domain_list_call in *. run.
  rewrite Hcm. simpl. rewrite Hpost. simpl.
  split; [|split].
  - intros error Herr Hin. rewrite Herr. simpl. rewrite Hin. simpl.
    eexists. split; [reflexivity|].
    unfold Chkpoint.tmp_result, Chkpoint.general_error. rewrite Hst. simpl.
    repeat split; lookups.
  - intros e Herr. by rewrite Herr.
  - intros error Herr Hh Hns. rewrite Herr. simpl.
    destruct error; simpl in *; try done. by destruct (Hns s).
Qed.
End Rejected.

(** ** Saving a domain *)

Lemma save_needed_of_others domain_name ds :
  Forall (other_domain domain_name) ds → Config.save_needed_of domain_name ds = Ret [].
Proof.
  induction 1 as [|d ds (dom & Hd & Hne) _ IH]; simpl; [done|].
  rewrite Hd. simpl. by rewrite Hne.
Qed.

Lemma save_needed_of_app domain_name ds1 ds2 :
  Forall (other_domain domain_name) ds1 →
  Config.save_needed_of domain_name (ds1 ++ ds2) = Config.save_needed_of domain_name ds2.
Proof.
  induction 1 as [|d ds (dom & Hd & Hne) _ IH]; simpl; [done|].
  rewrite Hd. simpl. by rewrite Hne.
Qed.

(** X10: how [domain_save_needed] reads the domain status.  From a list
    it takes the [SaveNeeded] of the first entry about the domain,
    provided the entries after it can be read as well (the whole list is
    gone through, so an unreadable later entry raises); without an entry
    about the domain it raises [IndexError].  From a single object it
    takes [SaveNeeded] whatever domain the object is about. *)
Theorem domain_save_needed_reads (domain_name : string) :
  (∀ before d after v,
     Forall (other_domain domain_name) before →
     py_getitem d "Domain" = Ret (PStr domain_name) →
     py_getitem d "SaveNeeded" = Ret v →
     (∀ vs, Config.save_needed_of domain_name after = Ret vs →
        Config.domain_save_needed domain_name
          (PDict [(PStr "DomainStatus", PList (before ++ d :: after))]) = Ret v)
     ∧ (∀ e, Config.save_needed_of domain_name after = Raise e →
          Config.domain_save_needed domain_name
            (PDict [(PStr "DomainStatus", PList (before ++ d :: after))]) = Raise e))
  ∧ (∀ ds, Forall (other_domain domain_name) ds →
       Config.domain_save_needed domain_name
         (PDict [(PStr "DomainStatus", PList ds)]) = Raise IndexError)
  ∧ (∀ kvs,
       Config.domain_save_needed domain_name
         (PDict [(PStr "DomainStatus", PDict kvs)]) = py_getitem (PDict kvs) "SaveNeeded").
Proof.
  split; [|split].
  - intros before d after v Hbefore Hd Hv.
    unfold Config.domain_save_needed. simpl.
    rewrite (save_needed_of_app _ _ _ Hbefore). simpl.
    rewrite Hd. simpl. rewrite String.eqb_refl, Hv. simpl.
    split; [by intros vs ->|by intros e ->].
  - intros ds Hds. unfold Config.domain_save_needed. simpl.
    by rewrite (save_needed_of_others _ _ Hds).
  - done.
Qed.

Section Saved.
Context `{!idg_lib} `{!device}.

(** X11: with state [saved], once the domain status is read (200 OK):
    if the domain needs no save ([SaveNeeded] is [off]) the invocation
    exits through [exit_json] with the immutable message, only [name]
    and [msg] written, and nothing is submitted, in check mode or not;
    if the status body cannot be read the invocation ends in
    [fail_json]. *)
Theorem saved_when_status_read (p : Config.params) qds_data :
  domain_exists (Config.name p) →
  Config.state p = Config.saved →
  api_call [domain_list_call] (PStr URI_DOMAIN_STATUS) "GET" None
    = Val (200%Z, "OK", qds_data) →
  (∀ v, Config.domain_save_needed (Config.name p) qds_data = Ret v →
        eq_str v "off" = true →
        Config.main p =
          (ExitJson (<["msg":=PStr IMMUTABLE_MESSAGE]>
                       (<["name":=PStr (Config.name p)]> result)),
           [domain_list_call; domain_status_call]))
  ∧ (∀ e, Config.domain_save_needed (Config.name p) qds_data = Raise e →
          Config.main p =
            (FailJson (uncontrolled e), [domain_list_call; domain_status_call])).
Proof.
  intros (chk_data & domains & H1 & H2 & H3) Hst Hq.
  unfold Config.main, run_main, Config.body. run.
  rewrite H1. simpl. rewrite H2. simpl. rewrite H3, Hst.
  unfold Config.do_saved, domain_list_call in *. run.
  rewrite Hq. simpl. split.
  - intros v Hv Hoff. rewrite Hv. simpl. rewrite Hoff. simpl.
    assert (update_result (<["msg":=PStr IMMUTABLE_MESSAGE]> (Config.tmp_result p)) result
            = <["msg":=PStr IMMUTABLE_MESSAGE]> (<["name":=PStr (Config.name p)]> result))
      as ->; [|done].
    apply map_eq. intros k. unfold Config.tmp_result. lookups.
  - intros e He. by rewrite He.
Qed.

(** X12: with state [stored], the file goes to the file store of the
    domain under the path with its spaces encoded, named by what follows
    the last slash of the path.  An answer 201 (whatever its reason) or
    200 OK gives [changed] true and the status text of the [result]
    member as [msg]; any other answer ends in [fail_json].  A path
    without slash ends the invocation in [fail_json] before anything is
    uploaded, and before check mode is looked at. *)
Theorem stored_upload (p : Config.params) filename :
  domain_exists (Config.name p) →
  Config.state p = Config.stored →
  Config.output_path p = Some filename →
  (∀ base code msg data,
     Config.after_last_slash filename = Some base →
     check_mode = false →
     api_call [domain_list_call]
       (PStr (format URI_FILESTORE [Config.name p] +:+ Config.encode_spaces filename))
       "PUT"
       (Some (json_dumps
                (PDict [(PStr "file",
                         PDict [(PStr "name", PStr base);
                                (PStr "content", Config.opt_str (Config.input_file p))])])))
       = Val (code, msg, data) →
     (code = 201%Z ∨ (code = 200%Z ∧ msg = "OK") →
        Config.main p =
          finish (sync_outcome (Config.tmp_result p) "result" data)
            [domain_list_call; store_call p filename base])
     ∧ (code ≠ 201%Z → (code ≠ 200%Z ∨ msg ≠ "OK") →
        Config.main p =
          (FailJson (format ERROR_REACH_STATE ["stored"; Config.name p]
                     +:+ " HTTP response code: " +:+ str_of_int code
                     +:+ " Response body: " +:+ json_dumps data),
           [domain_list_call; store_call p filename base])))
  ∧ (Config.after_last_slash filename = None →
     Config.main p = (FailJson (uncontrolled IndexError), [domain_list_call])).
Proof.
  intros (chk_data & domains & H1 & H2 & H3) Hst Hpath.
  unfold Config.main, run_main, Config.body. run.
  rewrite H1. simpl. rewrite H2. simpl. rewrite H3, Hst.
  unfold Config.do_stored, store_call, domain_list_call in *. run.
  rewrite Hpath. simpl. split.
  - intros base code msg data Hbase Hcm Hput. rewrite Hbase. simpl.
    rewrite Hcm. simpl. rewrite Hput. simpl. split.
    + intros Hok.
      assert ((msg =? "OK")%string && (code =? 200)%Z || (code =? 201)%Z = true) as ->.
      { destruct Hok as [->|[-> ->]]; [apply orb_true_r|done]. }
      unfold sync_outcome.
      destruct (py_getitem data "result") as [v|]; simpl; [|done].
      by destruct (status_text v).
    + intros H201 H200.
      assert ((msg =? "OK")%string && (code =? 200)%Z || (code =? 201)%Z = false) as ->.
      { apply orb_false_iff. split; [|by apply Z.eqb_neq].
        apply andb_false_iff. destruct H200 as [Hc|Hm].
        - right. by apply Z.eqb_neq.
        - left. by apply String.eqb_neq. }
      by rewrite Hst.
  - intros Hnone. by rewrite Hnone.
Qed.
End Saved.

(** ** Paths of stored files *)

Lemma str_app_cons a s t : String a s +:+ t = String a (s +:+ t).
Proof. reflexivity. Qed.

Lemma str_app_nil t : "" +:+ t = t.
Proof. reflexivity. Qed.

Lemma lacks_after c dir rest : lacks c (dir +:+ String c rest) = false.
Proof.
  induction dir as [|a dir IH]; rewrite ?str_app_cons, ?str_app_nil; simpl.
  - by rewrite Ascii.eqb_refl.
  - rewrite IH. apply andb_false_r.
Qed.

Lemma after_last_slash_none s :
  Config.after_last_slash s = None ↔ lacks "/" s = true.
Proof.
  induction s as [|c s IH]; simpl; [done|].
  destruct (Config.after_last_slash s) as [t|].
  - split; [done|]. intros [_ Hs]%andb_true_iff. by apply IH in Hs.
  - destruct (Ascii.eqb c "/") eqn:Hc; simpl.
    + split; done.
    + split; [intros _; by apply IH|done].
Qed.

(** X13: [after_last_slash] splits a path at its last slash: it returns
    [base] exactly when the path is some directory part, a slash, and
    [base], with no slash in [base]; it returns nothing exactly when the
    path has no slash at all. *)
Theorem after_last_slash_spec (s : string) :
  (∀ base, Config.after_last_slash s = Some base ↔
           (∃ dir, s = dir +:+ String "/" base) ∧ lacks "/" base = true)
  ∧ (Config.after_last_slash s = None ↔ lacks "/" s = true).
Proof.
  split; [|apply after_last_slash_none].
  induction s as [|c s IH]; intros base; simpl.
  - split; [done|]. intros [[[|a dir] Hdir] _]; discriminate.
  - destruct (Config.after_last_slash s) as [t|] eqn:Hs.
    + split.
      * intros [= ->]. destruct (proj1 (IH base) eq_refl) as [[dir ->] Hb].
        split; [by exists (String c dir)|done].
      * intros [[dir Hdir] Hb].
        destruct dir as [|a dir]; rewrite ?str_app_cons, ?str_app_nil in Hdir;
          injection Hdir as -> ->.
        -- apply after_last_slash_none in Hb. rewrite Hb in Hs. discriminate.
        -- apply IH. split; [by exists dir|done].
    + apply after_last_slash_none in Hs.
      split.
      * destruct (Ascii.eqb c "/") eqn:Hc; [|done].
        apply Ascii.eqb_eq in Hc as ->. intros [= ->].
        split; [by exists ""|done].
      * intros [[dir Hdir] Hb].
        destruct dir as [|a dir]; rewrite ?str_app_cons, ?str_app_nil in Hdir;
          injection Hdir as -> ->.
        -- by rewrite Ascii.eqb_refl.
        -- by rewrite lacks_after in Hs.
Qed.

(** X14: [encode_spaces] leaves no space in a path, changes nothing in a
    path without spaces, and works part by part: the encoding of two
    pieces put together is their encodings put together. *)
Theorem encode_spaces_spec (a b : string) :
  lacks " " (Config.encode_spaces a) = true
  ∧ (lacks " " a = true → Config.encode_spaces a = a)
  ∧ Config.encode_spaces (a +:+ b) = Config.encode_spaces a +:+ Config.encode_spaces b.
Proof.
  split; [|split].
  - induction a as [|c a IH]; simpl; [done|].
    destruct (Ascii.eqb c " ") eqn:Hc; simpl; [done|].
    by rewrite Hc, IH.
  - induction a as [|c a IH]; simpl; [done|].
    intros [Hc Ha]%andb_true_iff. apply negb_true_iff in Hc. rewrite Hc.
    by rewrite IH.
  - induction a as [|c a IH]; simpl; [done|].
    destruct (Ascii.eqb c " "); simpl; by rewrite IH.
Qed.

(** ** Summaries, once more *)

Lemma summary_loop_app l1 l2 s :
  summary_loop (l1 ++ l2) s =
    match summary_loop l1 s with
    | Ret s' => summary_loop l2 s'
    | Raise e => Raise e
    end.
Proof.
  revert s. induction l1 as [|i l1 IH]; intros s; simpl; [done|].
  destruct (summary_step s i); [apply IH|done].
Qed.

Lemma summary_step_ret s i s' : summary_step s i = Ret s' → has_status i.
Proof.
  unfold summary_step, has_status.
  destruct (py_getitem i "status") as [st|]; simpl; [|done].
  destruct (hashable st) eqn:Hh; simpl; [|done]. intros _. by exists st.
Qed.

Lemma summary_step_raise s i : ¬ has_status i → summary_step s i = Raise (status_error i).
Proof.
  unfold summary_step, has_status, status_error. intros Hno.
  destruct (py_getitem i "status") as [st|]; simpl; [|done].
  destruct (hashable st) eqn:Hh; simpl; [|done].
  destruct Hno. by exists st.
Qed.

Lemma summary_loop_ret l s s' : summary_loop l s = Ret s' → Forall has_status l.
Proof.
  revert s. induction l as [|i l IH]; intros s; simpl; [by constructor|].
  destruct (summary_step s i) as [s1|] eqn:Hstep; [|done].
  intros Hl. constructor; [by eapply summary_step_ret|by eapply IH].
Qed.

(** X15: [get_status_summary] returns a summary exactly when every entry
    carries a status label; otherwise it raises at the first entry that
    does not, with the exception of reading it: [KeyError] for a dict
    without [status], [TypeError] for an entry that is no dict or whose
    status cannot be a dict key. *)
Theorem get_status_summary_total (l : list pyval) :
  ((∃ s, get_status_summary l = Ret s) ↔ Forall has_status l)
  ∧ (∀ good bad rest,
       l = good ++ bad :: rest → Forall has_status good → ¬ has_status bad →
       get_status_summary l = Raise (status_error bad)).
Proof.
  split; [split|].
  - intros [s Hs]. by eapply summary_loop_ret.
  - intros Hl.
    destruct (summary_loop_spec l Hl [] (λ _, 0)) as (s & Hs & _); [done|].
    by exists s.
  - intros good bad rest -> Hgood Hbad. unfold get_status_summary.
    rewrite summary_loop_app.
    destruct (summary_loop_spec good Hgood [] (λ _, 0)) as (s & -> & _); [done|].
    simpl. by rewrite summary_step_raise.
Qed.

Lemma count_status_perm k l l' : l ≡ₚ l' → count_status k l = count_status k l'.
Proof. intros Hp. unfold count_status. by rewrite Hp. Qed.

(** X16: the counts of a summary do not depend on the order of the
    entries: for two lists that are permutations of each other
    [get_status_summary] returns summaries that give every label the
    same count and have the same sum (the order of the labels in the
    dict may differ). *)
Theorem get_status_summary_perm (l l' : list pyval) s :
  l ≡ₚ l' →
  get_status_summary l = Ret s →
  ∃ s', get_status_summary l' = Ret s'
      ∧ (∀ k, dict_get k s' = dict_get k s)
      ∧ sum_values s' = sum_values s.
Proof.
  intros Hp Hs.
  assert (Forall has_status l) as Hl by by eapply summary_loop_ret.
  assert (Forall has_status l') as Hl' by by rewrite <- Hp.
  destruct (summary_loop_spec l Hl [] (λ _, 0)) as (s0 & Hs0 & Hc & Hsum & _); [done|].
  destruct (summary_loop_spec l' Hl' [] (λ _, 0)) as (s' & Hs' & Hc' & Hsum' & _); [done|].
  unfold get_status_summary in Hs. rewrite Hs in Hs0. injection Hs0 as <-.
  exists s'. split; [done|]. split.
  - intros k. rewrite Hc, Hc'. simpl. by rewrite (count_status_perm k l l').
  - rewrite Hsum, Hsum'. simpl. by rewrite Hp.
Qed.

(** ** The sections of an import *)

(** X17: what the three collection blocks of an import fall back to.  A
    section that is missing from the import results adds nothing to
    [results]; a section whose member ([cfg-result], [file], [object])
    is missing, or is a list that cannot be summarised because an entry
    has no status label, is reported whole, as the device sent it. *)
Theorem collection_block_fallback label member block import_results results :
  (label, member, block) ∈ import_blocks →
  (∀ e, py_getitem import_results label = Raise e →
        block import_results results = results)
  ∧ (∀ parent, py_getitem import_results label = Ret parent →
       (∀ e, py_getitem parent member = Raise e →
             block import_results results = results ++ [PDict [(PStr label, parent)]])
       ∧ (∀ l e, py_getitem parent member = Ret (PList l) →
                 get_status_summary l = Raise e →
                 block import_results results = results ++ [PDict [(PStr label, parent)]])).
Proof.
  intros Hin.
  assert (block import_results results =
          collection_block label member import_results results) as ->.
  { unfold import_blocks in Hin.
    repeat (apply elem_of_cons in Hin as [[= -> -> ->]|Hin]);
      [apply block_rule_exec|apply block_rule_files|apply block_rule_objects|].
    by apply elem_of_nil in Hin. }
  unfold collection_block. split.
  - by intros e ->.
  - intros parent ->. split.
    + by intros e ->.
    + by intros l e -> ->.
Qed.

Lemma block_appends label member import_results results :
  collection_block label member import_results results = results
  ∨ ∃ v, collection_block label member import_results results
         = results ++ [PDict [(PStr label, v)]].
Proof.
  unfold collection_block.
  destruct (py_getitem import_results label) as [parent|]; [|by left].
  right. destruct (py_getitem parent member) as [[| | | |l|]|]; try by eexists.
  destruct (get_status_summary l); by eexists.
Qed.

Lemma import_results_list_shape (import_results details : pyval) :
  py_getitem import_results "export-details" = Ret details →
  ∃ rest labels,
    Config.import_results_list import_results
      = Ret (PDict [(PStr "export-details", details)] :: rest)
    ∧ mapM entry_label rest = Some labels
    ∧ sublist labels later_sections.
Proof.
  unfold Config.import_results_list.
  intros ->. simpl.
  rewrite block_rule_objects, block_rule_files, block_rule_exec.
  unfold Config.imported_debug_block, Config.file_copy_log_block.
  set (r0 := [Config.entry "export-details" details]).
  destruct (block_appends "exec-script-results" "cfg-result" import_results r0)
    as [->|[v1 ->]];
  (destruct (py_getitem import_results "file-copy-log" ≫= _) as [v2|]);
  (destruct (py_getitem import_results "imported-debug") as [v3|]);
  match goal with
  | |- context [collection_block "imported-files" "file" import_results ?r] =>
      destruct (block_appends "imported-files" "file" import_results r)
        as [->|[v4 ->]]
  end;
  match goal with
  | |- context [collection_block "imported-objects" "object" import_results ?r] =>
      destruct (block_appends "imported-objects" "object" import_results r)
        as [->|[v5 ->]]
  end;
  subst r0; simpl; eexists _, _; (split; [reflexivity|]);
  (split; [reflexivity|]); unfold later_sections;
  repeat first [apply sublist_nil | apply sublist_skip | apply sublist_cons].
Qed.

(** X18: the [results] of a successful import.  They need the
    [export-details] of the import results (without them the exception
    is raised); they start with the entry for [export-details], and the
    entries after it are labelled by some of [exec-script-results],
    [file-copy-log], [imported-debug], [imported-files],
    [imported-objects], each at most once and in this order. *)
Theorem import_results_sections (import_results : pyval) :
  (∀ e, py_getitem import_results "export-details" = Raise e →
        Config.import_results_list import_results = Raise e)
  ∧ (∀ details, py_getitem import_results "export-details" = Ret details →
       ∃ rest labels,
         Config.import_results_list import_results
           = Ret (PDict [(PStr "export-details", details)] :: rest)
         ∧ mapM entry_label rest = Some labels
         ∧ sublist labels later_sections).
Proof.
  split.
  - unfold Config.import_results_list. by intros e ->.
  - apply import_results_list_shape.
Qed.

(** ** How the actions of the configuration module end *)

Section ConfigOutcomes.
Context `{!idg_lib} `{!device}.

(** X19: how a fetched import result is reported.  With
    [detected-errors] equal to the string [false], [export-details]
    present and a string status, the invocation exits with [changed]
    true, the capitalised status as [msg] (stated for a status in ASCII,
    where [capitalize] is Python's) and the [results] list, which starts
    with the export details.  With [detected-errors] an object
    whose [error] is a string, it exits with [failed] true, [changed]
    false, the message [Import failed with error code: "<error>"] and no
    [results].  With [detected-errors] a string other than [false], the
    error code cannot be read from it and the invocation ends in
    [fail_json]. *)
Theorem import_reported (p : Config.params) pre payload href action_result detail
    import_results detected :
  cfg_detail_fetched p pre payload href action_result detail →
  Config.state p = Config.imported →
  Config.import_results_of detail = Ret import_results →
  py_getitem import_results "detected-errors" = Ret detected →
  let tr := pre ++ async_calls (Config.action_uri p) payload "imported" href in
  (detected = PStr "false" →
     ∀ details s,
       py_getitem import_results "export-details" = Ret details →
       py_getitem detail "status" = Ret (PStr s) →
       ascii_only s = true →
       ∃ r rest,
         Config.main p = (ExitJson r, tr)
         ∧ r !! "changed" = Some (PBool true)
         ∧ r !! "msg" = Some (PStr (capitalize s))
         ∧ r !! "results" = Some (PList (PDict [(PStr "export-details", details)] :: rest))
         ∧ r !! "failed" = result !! "failed")
  ∧ (∀ code, py_getitem detected "error" = Ret (PStr code) →
       ∃ r,
         Config.main p = (ExitJson r, tr)
         ∧ r !! "failed" = Some (PBool true)
         ∧ r !! "changed" = Some (PBool false)
         ∧ r !! "msg" =
             Some (PStr ("Import failed with error code: " +:+ Config.dquote
                         +:+ code +:+ Config.dquote))
         ∧ r !! "results" = result !! "results")
  ∧ (∀ s, detected = PStr s → s ≠ "false" →
       Config.main p = (FailJson (uncontrolled TypeError), tr)).
Proof.
  intros Hfetched Hst Hres Hdet tr. subst tr.
  rewrite (cfg_async_run p pre payload href action_result detail Hfetched).
  unfold cfg_outcome. rewrite Hst. simpl.
  unfold Config.import_outcome. rewrite Hres. simpl. rewrite Hdet. simpl.
  split; [|split].
  - intros -> details s Hdetails Hstatus _. simpl.
    destruct (import_results_list_shape import_results details Hdetails)
      as (rest & labels & -> & _).
    simpl. rewrite Hstatus. simpl.
    exists (update_result
              (<["changed":=PBool true]> (<["msg":=PStr (capitalize s)]>
                 (<["results":=PList (PDict [(PStr "export-details", details)] :: rest)]>
                    (Config.tmp_result p)))) result), rest.
    split; [reflexivity|].
    unfold Config.tmp_result. repeat split; lookups.
  - intros code Hcode.
    assert (eq_str detected "false" = false) as ->.
    { destruct detected; try done. }
    simpl. rewrite Hcode. simpl.
    eexists. split; [reflexivity|].
    unfold Config.tmp_result. repeat split; lookups.
  - intros s -> Hs. simpl.
    assert ((s =? "false")%string = false) as -> by by apply String.eqb_neq.
    done.
Qed.
End ConfigOutcomes.

Section ConfigCompleted.
Context `{!idg_lib} `{!device}.

(** X20: how the other fetched results of the configuration module are
    reported.  An export gives [changed] true, the word the wait
    returned as [msg] and the [file] of the result (a result without it
    ends in [fail_json]); a save gives [changed] true and the word the
    wait returned, whatever the fetched body holds; a reset gives
    [changed] true and the capitalised status of the body, whatever
    that status is (stated for a status in ASCII, where [capitalize] is
    Python's).  Where the word of the wait or the [file] is [None], the
    closing loop skips it and the record keeps what it held there. *)
Theorem config_action_completed (p : Config.params) pre payload href action_result detail :
  cfg_detail_fetched p pre payload href action_result detail →
  let tr := pre ++ async_calls (Config.action_uri p) payload
                     (Config.state_str (Config.state p)) href in
  (Config.state p = Config.exported →
     (∀ file, py_getitem detail "result" ≫= (λ r, py_getitem r "file") = Ret file →
        ∃ r, Config.main p = (ExitJson r, tr)
           ∧ r !! "changed" = Some (PBool true)
           ∧ r !! "msg" = reported action_result (result !! "msg")
           ∧ r !! "file" = reported file (result !! "file"))
     ∧ (∀ e, py_getitem detail "result" ≫= (λ r, py_getitem r "file") = Raise e →
          Config.main p = (FailJson (uncontrolled e), tr)))
  ∧ (Config.state p = Config.saved →
       ∃ r, Config.main p = (ExitJson r, tr)
          ∧ r !! "changed" = Some (PBool true)
          ∧ r !! "msg" = reported action_result (result !! "msg"))
  ∧ (Config.state p = Config.reseted →
       ∀ s, py_getitem detail "status" = Ret (PStr s) →
         ascii_only s = true →
         ∃ r, Config.main p = (ExitJson r, tr)
            ∧ r !! "changed" = Some (PBool true)
            ∧ r !! "msg" = Some (PStr (capitalize s))).
Proof.
  intros Hfetched tr. subst tr.
  rewrite (cfg_async_run p pre payload href action_result detail Hfetched).
  unfold cfg_outcome.
  split; [|split]; intros Hst; rewrite Hst.
  - unfold Config.exported_outcome. split.
    + intros file ->. simpl. eexists. split; [reflexivity|].
      unfold Config.tmp_result.
      split; [lookups|]. split.
      * rewrite update_result_lookup, lookup_insert_ne, lookup_insert_eq by done.
        by destruct action_result.
      * rewrite update_result_lookup, !lookup_insert_ne, lookup_insert_eq by done.
        by destruct file.
    + by intros e ->.
  - unfold Config.saved_outcome. simpl. eexists. split; [reflexivity|].
    unfold Config.tmp_result. split; [lookups|].
    rewrite update_result_lookup, lookup_insert_ne, lookup_insert_eq by done.
    by destruct action_result.
  - intros s Hs _. unfold Config.reseted_outcome. rewrite Hs. simpl.
    eexists. split; [reflexivity|].
    unfold Config.tmp_result. split; lookups.
Qed.
End ConfigCompleted.

(** ** What every result satisfies *)

Section Invariants.
Context `{!idg_lib} `{!device}.

Ltac split_eq :=
  repeat first
    [ progress simpl
    | match goal with
      | |- context [match ?x with _ => _ end] =>
          lazymatch x with
          | context [match _ with _ => _ end] => fail
          | _ => destruct x as [[[? ?] ?]|?|?] eqn:? || destruct x eqn:?
          end
      end ].

Lemma chk_outcome_inv (p : Chkpoint.params) detail tmp :
  Chkpoint.present_outcome p detail = Ret tmp
  ∨ Chkpoint.absent_outcome p detail = Ret tmp
  ∨ Chkpoint.restored_outcome p detail = Ret tmp →
  chk_inv p tmp.
Proof.
  unfold Chkpoint.present_outcome, Chkpoint.absent_outcome, Chkpoint.restored_outcome.
  intros [Hout|[Hout|Hout]]; revert Hout;
    (destruct (py_getitem detail "status") as [status|]; simpl; [|done]);
    (destruct (eq_str status "error"));
    (destruct (py_getitem detail "error") as [error|]; simpl; try done);
    try (destruct (py_in _ error) as [[]|]; simpl; try done);
    try (destruct (py_capitalize status); simpl; try done);
    intros [= <-]; unfold chk_inv, Chkpoint.tmp_result; repeat split; lookups.
Qed.

Lemma chk_body_inv (p : Chkpoint.params) :
  match Chkpoint.body p [] with
  | (Val tmp, _) => chk_inv p tmp
  | _ => True
  end.
Proof.
  unfold Chkpoint.body. run.
  destruct (Chkpoint.state p);
    unfold Chkpoint.do_present, Chkpoint.do_absent, Chkpoint.do_restored; run;
    split_eq; try done;
    try (eapply chk_outcome_inv; eauto; fail);
    unfold chk_inv, Chkpoint.tmp_result; repeat split; lookups.
Qed.

Lemma cfg_outcome_inv (p : Config.params) detail tmp :
  (∃ action_result, Config.exported_outcome p action_result detail = Ret tmp)
  ∨ Config.reseted_outcome p detail = Ret tmp
  ∨ (∃ action_result, Config.saved_outcome p action_result detail = Ret tmp)
  ∨ Config.import_outcome p detail = Ret tmp →
  cfg_inv p tmp.
Proof.
  unfold Config.exported_outcome, Config.reseted_outcome, Config.saved_outcome,
    Config.import_outcome.
  intros [[ar Hout]|[Hout|[[ar Hout]|Hout]]]; revert Hout.
  - destruct (py_getitem detail "result" ≫= _); simpl; [|done].
    intros [= <-]. unfold cfg_inv, Config.tmp_result. repeat split; lookups.
  - destruct (py_getitem detail "status" ≫= _); simpl; [|done].
    intros [= <-]. unfold cfg_inv, Config.tmp_result. repeat split; lookups.
  - intros [= <-]. unfold cfg_inv, Config.tmp_result. repeat split; lookups.
  - destruct (Config.import_results_of detail) as [ir|]; simpl; [|done].
    destruct (py_getitem ir "detected-errors") as [detected|]; simpl; [|done].
    destruct (eq_str detected "false"); simpl.
    + destruct (Config.import_results_list ir); simpl; [|done].
      destruct (py_getitem detail "status" ≫= _); simpl; [|done].
      intros [= <-]. unfold cfg_inv, Config.tmp_result. repeat split; lookups.
    + destruct (py_getitem detected "error") as [code|]; simpl; [|done].
      destruct (py_str_add _ code); simpl; [|done].
      intros [= <-]. unfold cfg_inv, Config.tmp_result. repeat split; lookups.
Qed.

Lemma cfg_body_inv (p : Config.params) :
  match Config.body p [] with
  | (Val tmp, _) => cfg_inv p tmp
  | _ => True
  end.
Proof.
  unfold Config.body. run.
  destruct (Config.state p);
    unfold Config.do_exported, Config.do_imported, Config.do_reseted, Config.do_saved,
      Config.do_stored; run;
    split_eq; try done;
    try (eapply cfg_outcome_inv; eauto 8; fail);
    unfold cfg_inv, Config.tmp_result; repeat split; lookups.
Qed.

(** X21: what every result of a completed body satisfies, whatever the
    device answered.  In the checkpoint module the intermediate result
    names the requested checkpoint and domain and never holds [failed]
    true together with [changed] true; in the configuration module it
    names the requested domain, and [failed] true comes with [changed]
    false.  The record passed to [exit_json] carries those names. *)
Theorem completed_result_invariant :
  (∀ (p : Chkpoint.params) tmp tr,
     Chkpoint.body p [] = (Val tmp, tr) →
     chk_inv p tmp
     ∧ ∃ r, Chkpoint.main p = (ExitJson r, tr)
          ∧ r !! "name" = Some (PStr (Chkpoint.name p))
          ∧ r !! "domain" = Some (PStr (Chkpoint.domain p)))
  ∧ (∀ (p : Config.params) tmp tr,
       Config.body p [] = (Val tmp, tr) →
       cfg_inv p tmp
       ∧ ∃ r, Config.main p = (ExitJson r, tr)
            ∧ r !! "name" = Some (PStr (Config.name p))).
Proof.
  split.
  - intros p tmp tr Hbody. pose proof (chk_body_inv p) as Hinv.
    rewrite Hbody in Hinv. split; [done|].
    destruct Hinv as (Hn & Hd & _).
    unfold Chkpoint.main, run_main. rewrite Hbody.
    eexists. split; [done|]. by rewrite !update_result_lookup, Hn, Hd.
  - intros p tmp tr Hbody. pose proof (cfg_body_inv p) as Hinv.
    rewrite Hbody in Hinv. split; [done|].
    destruct Hinv as (Hn & _).
    unfold Config.main, run_main. rewrite Hbody.
    eexists. split; [done|]. by rewrite !update_result_lookup, Hn.
Qed.
End Invariants.

(** ** Further runs on sample devices *)

Lemma domain_list_not_ok_witness :
  @Chkpoint.main sample_lib dev_list_down (chk_params Chkpoint.present "test" "cp1")
    = (FailJson (@ERROR_GET_DOMAIN_LIST sample_lib), [@domain_list_call sample_lib])
  ∧ @Config.main sample_lib dev_list_down (cfg_params Config.saved "test")
    = (FailJson (@ERROR_GET_DOMAIN_LIST sample_lib), [@domain_list_call sample_lib]).
Proof.
  destruct (@domain_list_not_ok sample_lib dev_list_down 503%Z "Service Unavailable" PNone
              eq_refl eq_refl) as [Hchk Hcfg].
  split; [apply Hchk|apply Hcfg].
Defined.

Lemma domain_list_unreadable_witness :
  @Discovery.main sample_lib dev_no_domains
    = (FailJson (@uncontrolled sample_lib (KeyError "domain")),
       [@domain_list_call sample_lib])
  ∧ @Chkpoint.main sample_lib dev_no_domains (chk_params Chkpoint.absent "test" "cp1")
    = (FailJson (@uncontrolled sample_lib (KeyError "domain")),
       [@domain_list_call sample_lib]).
Proof.
  destruct (@domain_list_unreadable sample_lib dev_no_domains
              (PDict [(PStr "links", PNone)]) (KeyError "domain") eq_refl eq_refl)
    as (Hchk & _ & Hdisc & _).
  split; [apply Hdisc|apply Hchk].
Defined.

Lemma check_mode_only_reads_witness :
  @Chkpoint.main sample_lib dev_check_mode (chk_params Chkpoint.restored "test" "cp1")
    = (ExitJson (@result sample_lib), [@domain_list_call sample_lib])
  ∧ Forall (λ c, is_get c = true)
      (@Config.main sample_lib dev_check_mode (cfg_params Config.reseted "test")).2.
Proof.
  destruct (@check_mode_only_reads sample_lib dev_check_mode eq_refl)
    as (_ & Hcfg & Hexit).
  split; [|apply Hcfg].
  apply Hexit. exists domains_body, [PStr "default"; PStr "test"].
  repeat split; reflexivity.
Defined.

Lemma checkpoint_action_completed_witness :
  ∃ r tr,
    @Chkpoint.main sample_lib (dev_async (PDict [(PStr "status", PStr "completed")]))
      (chk_params Chkpoint.present "test" "cp1") = (ExitJson r, tr)
    ∧ r !! "changed" = Some (PBool true)
    ∧ r !! "msg" = Some (PStr "Completed").
Proof.
  destruct (@checkpoint_action_completed sample_lib
              (dev_async (PDict [(PStr "status", PStr "completed")]))
              (chk_params Chkpoint.present "test" "cp1") sample_href
              (PDict [(PStr "status", PStr "completed")]) (PStr "completed"))
    as [Hdone _].
  - apply sample_detail_fetched.
  - reflexivity.
  - reflexivity.
  - destruct (Hdone "completed" eq_refl eq_refl) as (r & Hmain & Hchanged & Hmsg & _).
    eexists r, _. split; [exact Hmain|]. by split.
Defined.

Lemma sample_detail_refused (uri : string) (payload : pyval) (state_name : string) :
  @detail_refused sample_lib dev_fetch_refused [@domain_list_call sample_lib]
    uri payload state_name sample_href.
Proof.
  split; [done|].
  by exists accepted_body, (PStr "Completed"), 500%Z, "Internal Server Error", PNone.
Qed.

Lemma result_fetch_refused_witness :
  (∃ msg tr,
     @Chkpoint.main sample_lib dev_fetch_refused (chk_params Chkpoint.absent "test" "cp1")
     = (FailJson msg, tr))
  ∧ (∃ msg tr,
       @Config.main sample_lib dev_fetch_refused (cfg_params Config.exported "test")
       = (FailJson msg, tr)).
Proof.
  destruct (@result_fetch_refused sample_lib dev_fetch_refused) as [Hchk Hcfg].
  split.
  - eexists _, _.
    apply (Hchk (chk_params Chkpoint.absent "test" "cp1") sample_href).
    + by eapply sample_domain_exists.
    + apply sample_detail_refused.
  - eexists _, _.
    apply (Hcfg (cfg_params Config.exported "test") [@domain_list_call sample_lib]
             (@Config.export_action_msg sample_lib (cfg_params Config.exported "test"))
             sample_href).
    + by eapply sample_domain_exists.
    + reflexivity.
    + reflexivity.
    + apply sample_detail_refused.
Defined.

Lemma action_done_at_once_witness :
  (∃ r tr,
     @Chkpoint.main sample_lib
       (dev_answer 200 "OK" (PDict [(PStr "SaveCheckpoint", PStr "Operation completed.")]))
       (chk_params Chkpoint.present "test" "cp1") = (ExitJson r, tr)
     ∧ r !! "changed" = Some (PBool true)
     ∧ r !! "msg" = Some (PStr "Operation completed."))
  ∧ (∃ msg tr,
       @Config.main sample_lib (dev_answer 200 "OK" (PDict []))
         (cfg_params Config.reseted "test") = (FailJson msg, tr)).
Proof.
  split.
  - destruct (@action_done_at_once sample_lib
                (dev_answer 200 "OK"
                   (PDict [(PStr "SaveCheckpoint", PStr "Operation completed.")])))
      as (Hchk & _ & _).
    assert (@domain_exists sample_lib
              (dev_answer 200 "OK"
                 (PDict [(PStr "SaveCheckpoint", PStr "Operation completed.")])) "test")
      as Hdom by by eapply sample_domain_exists.
    pose proof (Hchk (chk_params Chkpoint.present "test" "cp1")
                  (PDict [(PStr "SaveCheckpoint", PStr "Operation completed.")])
                  Hdom eq_refl eq_refl) as Hmain.
    eexists _, _. split; [rewrite Hmain; reflexivity|]. split; reflexivity.
  - destruct (@action_done_at_once sample_lib (dev_answer 200 "OK" (PDict [])))
      as (_ & Hcfg & _).
    assert (@domain_exists sample_lib (dev_answer 200 "OK" (PDict [])) "test")
      as Hdom by by eapply sample_domain_exists.
    pose proof (Hcfg (cfg_params Config.reseted "test") [@domain_list_call sample_lib]
                  Config.reset_act_msg (PDict []) Hdom eq_refl eq_refl eq_refl eq_refl)
      as Hmain.
    eexists _, _. rewrite Hmain. reflexivity.
Defined.

Lemma action_turned_down_witness :
  (∃ tr,
     @Chkpoint.main sample_lib (dev_answer 503 "Service Unavailable" PNone)
       (chk_params Chkpoint.absent "test" "cp1")
     = (FailJson "Accepting {0} in {1} <- absent,test", tr))
  ∧ (∃ tr,
       @Config.main sample_lib (dev_answer 503 "Service Unavailable" PNone)
         (cfg_params Config.reseted "test")
       = (FailJson "Accepting {0} in {1} <- reseted,test", tr)).
Proof.
  destruct (@action_turned_down sample_lib (dev_answer 503 "Service Unavailable" PNone))
    as [Hchk Hcfg].
  assert (@domain_exists sample_lib (dev_answer 503 "Service Unavailable" PNone) "test")
    as Hdom by by eapply sample_domain_exists.
  split; eexists.
  - apply (Hchk (chk_params Chkpoint.absent "test" "cp1") 503%Z "Service Unavailable" PNone
             Hdom); reflexivity.
  - apply (Hcfg (cfg_params Config.reseted "test") [@domain_list_call sample_lib]
             Config.reset_act_msg 503%Z "Service Unavailable" PNone Hdom); reflexivity.
Defined.

Lemma absent_other_error_witness :
  ∃ r tr,
    @Chkpoint.main sample_lib
      (dev_answer 400 "Bad Request" (PDict [(PStr "error", PStr "Invalid request")]))
      (chk_params Chkpoint.absent "test" "cp1") = (ExitJson r, tr)
    ∧ r !! "failed" = Some (PBool true)
    ∧ r !! "changed" = Some (PBool false).
Proof.
  destruct (@absent_other_error sample_lib
              (dev_answer 400 "Bad Request" (PDict [(PStr "error", PStr "Invalid request")]))
              (chk_params Chkpoint.absent "test" "cp1")
              (PDict [(PStr "error", PStr "Invalid request")]))
    as (Hother & _ & _).
  - by eapply sample_domain_exists.
  - reflexivity.
  - reflexivity.
  - reflexivity.
  - destruct (Hother (PStr "Invalid request") eq_refl eq_refl)
      as (r & Hmain & Hfailed & _ & Hchanged).
    eexists r, _. split; [exact Hmain|]. split; [exact Hfailed|].
    rewrite Hchanged. reflexivity.
Defined.

Lemma domain_save_needed_reads_witness :
  Config.domain_save_needed "test" status_body = Ret (PStr "off")
  ∧ Config.domain_save_needed "prod" status_body = Raise IndexError.
Proof.
  destruct (domain_save_needed_reads "test") as (Hfirst & _ & _).
  destruct (domain_save_needed_reads "prod") as (_ & Hnone & _).
  split.
  - destruct (Hfirst [PDict [(PStr "Domain", PStr "default"); (PStr "SaveNeeded", PStr "on")]]
                (PDict [(PStr "Domain", PStr "test"); (PStr "SaveNeeded", PStr "off")])
                [] (PStr "off")) as [Hret _].
    + repeat constructor. by exists (PStr "default").
    + reflexivity.
    + reflexivity.
    + apply (Hret []). reflexivity.
  - apply Hnone. repeat constructor; eexists; split; reflexivity.
Defined.

Lemma saved_when_status_read_witness :
  @Config.main sample_lib dev_saved (cfg_params Config.saved "test") =
    (ExitJson (<["msg":=PStr (@IMMUTABLE_MESSAGE sample_lib)]>
                 (<["name":=PStr "test"]> (@result sample_lib))),
     [@domain_list_call sample_lib; @domain_status_call sample_lib]).
Proof.
  destruct (@saved_when_status_read sample_lib dev_saved (cfg_params Config.saved "test")
              status_body) as [Hoff _].
  - by eapply sample_domain_exists.
  - reflexivity.
  - reflexivity.
  - apply (Hoff (PStr "off")); reflexivity.
Defined.

Lemma stored_upload_witness :
  ∃ r,
    @Config.main sample_lib dev_stored (cfg_params Config.stored "test") =
      (ExitJson r,
       [@domain_list_call sample_lib;
        @store_call sample_lib (cfg_params Config.stored "test") "/local/a b.txt" "a b.txt"])
    ∧ r !! "changed" = Some (PBool true)
    ∧ r !! "msg" = Some (PStr "File was created.").
Proof.
  destruct (@stored_upload sample_lib dev_stored (cfg_params Config.stored "test")
              "/local/a b.txt") as [Hput _].
  - by eapply sample_domain_exists.
  - reflexivity.
  - reflexivity.
  - destruct (Hput "a b.txt" 201%Z "Created"
                (PDict [(PStr "result", PStr "File was created.")]) eq_refl eq_refl eq_refl)
      as [Hok _].
    eexists. split; [rewrite Hok by (by left); reflexivity|]. split; reflexivity.
Defined.

Lemma after_last_slash_spec_witness :
  Config.after_last_slash "/local/a b.txt" = Some "a b.txt"
  ∧ Config.after_last_slash "a b.txt" = None.
Proof.
  destruct (after_last_slash_spec "/local/a b.txt") as [Hsome _].
  destruct (after_last_slash_spec "a b.txt") as [_ Hnone].
  split.
  - apply Hsome. split; [by exists "/local"|reflexivity].
  - apply Hnone. reflexivity.
Defined.

Lemma encode_spaces_spec_witness :
  Config.encode_spaces "/local/ab.txt" = "/local/ab.txt"
  ∧ lacks " " (Config.encode_spaces "/local/a b.txt") = true.
Proof.
  destruct (encode_spaces_spec "/local/ab.txt" "") as (_ & Hsame & _).
  destruct (encode_spaces_spec "/local/a b.txt" "") as (Hnone & _ & _).
  split; [apply Hsame; reflexivity|exact Hnone].
Defined.

Lemma get_status_summary_total_witness :
  (∃ s, get_status_summary sample_entries = Ret s)
  ∧ get_status_summary (sample_entries ++ PDict [] :: sample_entries)
    = Raise (KeyError "status").
Proof.
  destruct (get_status_summary_total sample_entries) as [Hiff _].
  destruct (get_status_summary_total (sample_entries ++ PDict [] :: sample_entries))
    as [_ Hbad].
  assert (Forall has_status sample_entries) as Hall.
  { repeat constructor; eexists; split; reflexivity. }
  split.
  - by apply Hiff.
  - apply (Hbad sample_entries (PDict []) sample_entries eq_refl Hall).
    by intros (st & Hst & _).
Defined.

Lemma get_status_summary_perm_witness :
  ∃ s', get_status_summary shuffled_entries = Ret s'
      ∧ dict_get (PStr "ok") s' = Some 2
      ∧ sum_values s' = 3.
Proof.
  destruct (get_status_summary_perm sample_entries shuffled_entries
              [(PStr "ok", 2); (PStr "error", 1)])
    as (s' & Hs' & Hcount & Hsum).
  - exact (Permutation_cons_append
             [PDict [(PStr "status", PStr "error")];
              PDict [(PStr "status", PStr "ok"); (PStr "name", PStr "c")]]
             (PDict [(PStr "name", PStr "a"); (PStr "status", PStr "ok")])).
  - reflexivity.
  - exists s'. split; [exact Hs'|]. split; [by rewrite Hcount|by rewrite Hsum].
Defined.

Lemma collection_block_fallback_witness :
  Config.imported_files_block (PDict []) [] = []
  ∧ Config.imported_files_block
      (PDict [(PStr "imported-files", PDict [(PStr "count", PInt 0)])]) []
    = [PDict [(PStr "imported-files", PDict [(PStr "count", PInt 0)])]].
Proof.
  assert (("imported-files", "file", Config.imported_files_block) ∈ import_blocks) as Hin.
  { unfold import_blocks. apply elem_of_cons. right. apply elem_of_cons. by left. }
  destruct (collection_block_fallback _ _ _ (PDict []) [] Hin) as [Hmissing _].
  destruct (collection_block_fallback _ _ _
              (PDict [(PStr "imported-files", PDict [(PStr "count", PInt 0)])]) [] Hin)
    as [_ Hparent].
  split.
  - apply (Hmissing (KeyError "imported-files")). reflexivity.
  - destruct (Hparent (PDict [(PStr "count", PInt 0)]) eq_refl) as [Hnomember _].
    apply (Hnomember (KeyError "file")). reflexivity.
Defined.

Lemma import_results_sections_witness :
  ∃ rest labels,
    Config.import_results_list
      (PDict [(PStr "export-details", PDict []);
              (PStr "imported-debug", PStr "off")])
    = Ret (PDict [(PStr "export-details", PDict [])] :: rest)
    ∧ mapM entry_label rest = Some labels
    ∧ sublist labels later_sections.
Proof.
  destruct (import_results_sections
              (PDict [(PStr "export-details", PDict []);
                      (PStr "imported-debug", PStr "off")])) as [_ Hsec].
  apply Hsec. reflexivity.
Defined.

Lemma import_reported_witness :
  ∃ r tr,
    @Config.main sample_lib (dev_async (import_detail (PStr "false")))
      (cfg_params Config.imported "test") = (ExitJson r, tr)
    ∧ r !! "changed" = Some (PBool true)
    ∧ r !! "msg" = Some (PStr "Completed").
Proof.
  destruct (@import_reported sample_lib (dev_async (import_detail (PStr "false")))
              (cfg_params Config.imported "test") _ _ _ _ _
              (PDict [(PStr "detected-errors", PStr "false");
                      (PStr "export-details", PDict [])])
              (PStr "false") (sample_import_fetched _))
    as (Hok & _ & _).
  - reflexivity.
  - reflexivity.
  - reflexivity.
  - destruct (Hok eq_refl (PDict []) "completed" eq_refl eq_refl eq_refl)
      as (r & rest & Hmain & Hchanged & Hmsg & _).
    eexists r, _. split; [exact Hmain|]. by split.
Defined.

Lemma sample_export_fetched detail :
  @cfg_detail_fetched sample_lib (dev_async detail) (cfg_params Config.exported "test")
    [@domain_list_call sample_lib]
    (@Config.export_action_msg sample_lib (cfg_params Config.exported "test"))
    sample_href (PStr "Completed") detail.
Proof.
  split; [by eapply sample_domain_exists|].
  split; [reflexivity|]. split; [reflexivity|]. split; [reflexivity|].
  exists accepted_body. repeat split; reflexivity.
Qed.

Lemma sample_reset_fetched detail :
  @cfg_detail_fetched sample_lib (dev_async detail) (cfg_params Config.reseted "test")
    [@domain_list_call sample_lib] Config.reset_act_msg
    sample_href (PStr "Completed") detail.
Proof.
  split; [by eapply sample_domain_exists|].
  split; [reflexivity|]. split; [reflexivity|]. split; [reflexivity|].
  exists accepted_body. repeat split; reflexivity.
Qed.

Lemma config_action_completed_witness :
  (∃ r tr,
     @Config.main sample_lib (dev_async export_detail) (cfg_params Config.exported "test")
       = (ExitJson r, tr)
     ∧ r !! "changed" = Some (PBool true)
     ∧ r !! "msg" = Some (PStr "Completed")
     ∧ r !! "file" = Some (PStr "UEsDBBQ="))
  ∧ (∃ r tr,
       @Config.main sample_lib (dev_async export_detail) (cfg_params Config.reseted "test")
         = (ExitJson r, tr)
       ∧ r !! "changed" = Some (PBool true)
       ∧ r !! "msg" = Some (PStr "Completed")).
Proof.
  split.
  - destruct (@config_action_completed sample_lib (dev_async export_detail)
                (cfg_params Config.exported "test") _ _ _ _ _
                (sample_export_fetched export_detail))
      as (Hexp & _ & _).
    destruct (Hexp eq_refl) as [Hfile _].
    destruct (Hfile (PStr "UEsDBBQ=") eq_refl) as (r & Hmain & Hchanged & Hmsg & Hf).
    eexists r, _. split; [exact Hmain|]. by repeat split.
  - destruct (@config_action_completed sample_lib (dev_async export_detail)
                (cfg_params Config.reseted "test") _ _ _ _ _
                (sample_reset_fetched export_detail))
      as (_ & _ & Hreset).
    destruct (Hreset eq_refl "completed" eq_refl eq_refl) as (r & Hmain & Hchanged & Hmsg).
    eexists r, _. split; [exact Hmain|]. by split.
Defined.

Lemma completed_result_invariant_witness :
  ∃ tmp tr,
    @Chkpoint.body sample_lib (dev_async (error_detail (PStr "No such checkpoint")))
      (chk_params Chkpoint.restored "test" "cp1") [] = (Val tmp, tr)
    ∧ chk_inv (chk_params Chkpoint.restored "test" "cp1") tmp.
Proof.
  destruct (@completed_result_invariant sample_lib
              (dev_async (error_detail (PStr "No such checkpoint")))) as [Hchk _].
  eexists _, _. split; [reflexivity|].
  eapply Hchk. reflexivity.
Defined.
